(** * Pulse WhatsApp agent: conversation orchestration and scheduled delivery

    A shallow embedding of the TypeScript services of the repository
    (intent classifier, conversation context store, template rendering and
    scheduled delivery, availability engine, message orchestrator) and the
    properties of them that the specification states; then the services
    the specification leaves out (rate limiting, the webhook route, sending
    with retries, the housekeeping of contexts, booking) with properties of
    their own.

    Conventions.
    - A JavaScript string is a [string] holding its UTF-8 bytes.  Substring
      search over well-formed UTF-8 agrees with the code-unit search of
      [String.prototype.includes].
    - [Number]s that the code only counts with are [Z]; classifier
      confidences are exact rationals [Q] (the four values the code can
      produce, 0.1, 0.3, 0.6 and 0.8, compare in binary floating point as
      they do in [Q]: 2 * 0.3 is the double 0.6, and 3 * 0.3 exceeds 0.8).
    - Collaborators outside the repository (the LLM client, the messaging
      gateway, the relational store's failures, the clock) are oracles
      collected in records or Section variables. *)

From Stdlib Require Import ZArith QArith Qminmax Lia Ascii String Sorted.
From stdpp Require Import base option list strings pretty gmap.

Set Warnings "-register-all".

Set Default Proof Using "Type".
Local Open Scope string_scope.
Local Open Scope list_scope.

(* ===================================================================== *)
(** * Part I: the program                                                 *)
(* ===================================================================== *)

(** ** JavaScript primitives used by the services *)
Module Js.

(** [s.includes(k)]: [k] occurs in [s] as a contiguous substring. *)
Fixpoint includes (s k : string) : bool :=
  String.prefix k s ||
  match s with
  | EmptyString => false
  | String _ s' => includes s' k
  end.

(** ASCII white space (TAB, LF, VT, FF, CR, SP), the part of
    [StrWhiteSpaceChar] that a one-byte character can be. *)
Definition isWhiteSpace (c : ascii) : bool :=
  let n := nat_of_ascii c in
  (n =? 9)%nat || (n =? 10)%nat || (n =? 11)%nat || (n =? 12)%nat
  || (n =? 13)%nat || (n =? 32)%nat.

Fixpoint trimStart (s : string) : string :=
  match s with
  | String c s' => if isWhiteSpace c then trimStart s' else s
  | EmptyString => EmptyString
  end.

Definition strRev (s : string) : string :=
  string_of_list_ascii (rev (list_ascii_of_string s)).

(** [s.trim()] *)
Definition trim (s : string) : string :=
  strRev (trimStart (strRev (trimStart s))).

(** The value of a character as a digit, for radices up to 36. *)
Definition digitValue (c : ascii) : option Z :=
  let n := Z.of_nat (nat_of_ascii c) in
  if (48 <=? n)%Z && (n <=? 57)%Z then Some (n - 48)%Z
  else if (97 <=? n)%Z && (n <=? 122)%Z then Some (n - 87)%Z
  else if (65 <=? n)%Z && (n <=? 90)%Z then Some (n - 55)%Z
  else None.

(** The longest prefix of radix-[radix] digits, as a number; [acc] is the
    value read so far ([None] while no digit was read). *)
Fixpoint parseDigits (radix : Z) (s : string) (acc : option Z) : option Z :=
  match s with
  | String c s' =>
      match digitValue c with
      | Some d =>
          if (d <? radix)%Z
          then parseDigits radix s' (Some (radix * default 0%Z acc + d)%Z)
          else acc
      | None => acc
      end
  | EmptyString => acc
  end.

(** [parseInt(s)] with no radix argument; [None] is [NaN].  Leading white
    space is skipped, a sign is read, a [0x]/[0X] prefix selects radix 16,
    and the digits stop at the first character that is not one. *)
Definition parseInt (s : string) : option Z :=
  let s1 := trimStart s in
  let '(sign, s2) :=
    match s1 with
    | String "-" r => ((-1)%Z, r)
    | String "+" r => (1%Z, r)
    | _ => (1%Z, s1)
    end in
  let '(radix, s3) :=
    match s2 with
    | String "0" (String "x" r) => (16%Z, r)
    | String "0" (String "X" r) => (16%Z, r)
    | _ => (10%Z, s2)
    end in
  Z.mul sign <$> parseDigits radix s3 None.

(** A concrete [toLowerCase] for Basic Latin and the Latin-1 Supplement
    (the letters of Portuguese text): [A-Z] and, in UTF-8, the two-byte
    characters [C3 80 .. C3 9E] other than the multiplication sign. *)
Definition lowerAscii (c : ascii) : ascii :=
  let n := nat_of_ascii c in
  if (65 <=? n)%nat && (n <=? 90)%nat then ascii_of_nat (n + 32) else c.

Definition lowerLatin1Trail (c : ascii) : ascii :=
  let n := nat_of_ascii c in
  if (128 <=? n)%nat && (n <=? 158)%nat && negb (n =? 151)%nat
  then ascii_of_nat (n + 32) else c.

Fixpoint toLowerCaseLatin1 (s : string) : string :=
  match s with
  | EmptyString => EmptyString
  | String c s' =>
      if (nat_of_ascii c =? 195)%nat then
        match s' with
        | String d s'' => String c (String (lowerLatin1Trail d) (toLowerCaseLatin1 s''))
        | EmptyString => String c EmptyString
        end
      else String (lowerAscii c) (toLowerCaseLatin1 s')
  end.

(** Values of the dynamically typed parts of the program (the free-form
    [context_data] map, update patches, objects passed as [any]).  Numbers
    are the integers the code counts with. *)
Inductive Json :=
  | JUndefined
  | JNull
  | JBool (b : bool)
  | JNum (n : Z)
  | JStr (s : string)
  | JArr (items : list Json)
  | JObj (fields : list (string * Json)).

(** [ToBoolean] *)
Definition truthy (v : Json) : bool :=
  match v with
  | JUndefined | JNull => false
  | JBool b => b
  | JNum n => negb (n =? 0)%Z
  | JStr s => negb (String.eqb s "")
  | JArr _ | JObj _ => true
  end.

(** [a || b] *)
Definition jsOr (a b : Json) : Json := if truthy a then a else b.

Definition isUndefined (v : Json) : bool :=
  match v with JUndefined => true | _ => false end.

Fixpoint joinWith (sep : string) (l : list string) : string :=
  match l with
  | [] => ""
  | [x] => x
  | x :: r => x +:+ sep +:+ joinWith sep r
  end.

(** [ToString]: what a template literal or a string concatenation makes of
    a value. *)
Fixpoint jsToString (v : Json) : string :=
  match v with
  | JUndefined => "undefined"
  | JNull => "null"
  | JBool true => "true"
  | JBool false => "false"
  | JNum n => pretty n
  | JStr s => s
  | JArr items =>
      joinWith ","
        ((fix elems (l : list Json) : list string :=
            match l with
            | [] => []
            | x :: r =>
                (match x with JUndefined | JNull => "" | _ => jsToString x end)
                :: elems r
            end) items)
  | JObj _ => "[object Object]"
  end.

(** [v + 1]: numeric addition for numbers and booleans, concatenation
    with ["1"] once [ToPrimitive] yields a string. *)
Definition jsPlusOne (v : Json) : Json :=
  match v with
  | JNum n => JNum (n + 1)
  | JBool b => JNum (if b then 2 else 1)
  | JNull => JNum 1
  | JUndefined => JUndefined   (* NaN: not reached after [|| 0] *)
  | _ => JStr (jsToString v +:+ "1")
  end.

Fixpoint assoc (k : string) (fields : list (string * Json)) : option Json :=
  match fields with
  | [] => None
  | (k', v) :: r => if String.eqb k k' then Some v else assoc k r
  end.

(** Property read [v.k] where [v] is an object; [None] is the [TypeError]
    of reading a property of [undefined] or [null]. *)
Definition jsProp (v : Json) (k : string) : option Json :=
  match v with
  | JUndefined | JNull => None
  | JObj fields => Some (default JUndefined (assoc k fields))
  | JArr items => Some (if String.eqb k "length" then JNum (Z.of_nat (length items)) else JUndefined)
  | JStr s => Some (if String.eqb k "length" then JNum (Z.of_nat (String.length s)) else JUndefined)
  | _ => Some JUndefined
  end.

(** Element read [v[i]] for an integer [i]. *)
Definition jsIndex (v : Json) (i : Z) : Json :=
  match v with
  | JArr items => if (i <? 0)%Z then JUndefined else default JUndefined (items !! Z.to_nat i)
  | JObj fields => default JUndefined (assoc (pretty i) fields)
  | JStr s =>
      if (i <? 0)%Z then JUndefined
      else match String.get (Z.to_nat i) s with
           | Some c => JStr (String c EmptyString)
           | None => JUndefined
           end
  | _ => JUndefined
  end.

(** [choice > v] for an integer [choice]: false when [v] is [undefined]
    (the comparison with [NaN]). *)
Definition jsGreater (choice : Z) (v : Json) : bool :=
  match v with
  | JNum n => (n <? choice)%Z
  | JBool b => ((if b then 1 else 0) <? choice)%Z
  | JNull => (0 <? choice)%Z
  | JStr s =>
      match trim s with
      | EmptyString => (0 <? choice)%Z
      | t => match parseDigits 10 t None with
             | Some n => if String.eqb (pretty n) t then (n <? choice)%Z else false
             | None => false
             end
      end
  | _ => false
  end.

(** What [JSON.stringify] keeps of a value on its way into a [jsonb]
    column: an [undefined] property is dropped, an [undefined] array
    element becomes [null]. *)
Fixpoint toStored (v : Json) : Json :=
  match v with
  | JArr items =>
      JArr ((fix elems (l : list Json) : list Json :=
               match l with
               | [] => []
               | x :: r => (match x with JUndefined => JNull | _ => toStored x end) :: elems r
               end) items)
  | JObj fields =>
      JObj ((fix props (l : list (string * Json)) : list (string * Json) :=
               match l with
               | [] => []
               | (k, x) :: r =>
                   match x with
                   | JUndefined => props r
                   | _ => (k, toStored x) :: props r
                   end
               end) fields)
  | _ => v
  end.

(** An array element as it is stored. *)
Definition storedElement (x : Json) : Json :=
  match x with JUndefined => JNull | _ => toStored x end.

(** The same for the top-level object held as a map. *)
Definition storeObject (o : gmap string Json) : gmap string Json :=
  toStored <$> filter (λ kv, isUndefined kv.2 = false) o.

(** [o.k] for an object held as a map. *)
Definition get (o : gmap string Json) (k : string) : Json :=
  default JUndefined (o !! k).

(** [arr.slice(-n)] *)
Definition sliceLast {A} (n : nat) (l : list A) : list A :=
  drop (length l - n) l.

End Js.

(** ** Intent classifier (intentService) *)
Module Intent.

Inductive IntentType :=
  | greeting | scheduling | reschedule | cancel | services_info | prices_info
  | availability | confirmation | complaint | compliment | farewell | help
  | other.

#[global] Instance IntentType_eq_dec : EqDecision IntentType.
Proof. solve_decision. Defined.

(** [INTENT_KEYWORDS], in the order [Object.entries] enumerates it. *)
Definition INTENT_KEYWORDS : list (IntentType * list string) :=
  [ (greeting,
      ["oi"; "olá"; "bom dia"; "boa tarde"; "boa noite"; "hey"; "e aí";
       "tudo bem"; "como vai"; "alo"; "alô"]);
    (scheduling,
      ["agendar"; "marcar"; "horário"; "consulta"; "agendamento"; "disponível";
       "livre"; "vaga"; "quando"; "que horas"; "que dia"; "próximo";
       "semana"; "mês"; "amanhã"; "hoje"]);
    (reschedule,
      ["remarcar"; "mudar"; "alterar"; "trocar"; "transferir"; "adiar";
       "outro dia"; "outro horário"; "reagendar"]);
    (cancel,
      ["cancelar"; "desmarcar"; "não vou"; "não posso"; "não conseguir";
       "imprevisto"; "emergência"]);
    (services_info,
      ["serviços"; "procedimentos"; "tratamentos"; "o que fazem";
       "que tipo"; "especialidades"; "corte"; "escova"; "manicure";
       "pedicure"; "sobrancelha"; "depilação"; "massagem"]);
    (prices_info,
      ["preço"; "valor"; "quanto custa"; "tabela"; "valores";
       "orçamento"; "barato"; "caro"; "promoção"; "desconto"]);
    (availability,
      ["aberto"; "funcionando"; "horário de funcionamento"; "que horas abre";
       "que horas fecha"; "domingo"; "feriado"; "disponibilidade"]);
    (confirmation,
      ["confirmar"; "confirmação"; "ok"; "certo"; "sim"; "perfeito";
       "combinado"; "fechado"; "beleza"]);
    (complaint,
      ["reclamação"; "problema"; "ruim"; "péssimo"; "horrível";
       "insatisfeito"; "decepcionado"; "erro"; "demora"; "atraso"]);
    (compliment,
      ["parabéns"; "excelente"; "ótimo"; "maravilhoso"; "perfeito";
       "adorei"; "amei"; "muito bom"; "recomendo"; "satisfeito"]);
    (farewell,
      ["tchau"; "até logo"; "até mais"; "obrigado"; "obrigada";
       "valeu"; "falou"; "bye"; "até"]);
    (help,
      ["ajuda"; "socorro"; "não entendi"; "como"; "dúvida";
       "informação"; "explicar"; "esclarecer"]);
    (other, []) ].

(** The keys of the [scores] object literal, in insertion order. *)
Definition scoreKeys : list IntentType :=
  [greeting; scheduling; reschedule; cancel; services_info; prices_info;
   availability; confirmation; complaint; compliment; farewell; help; other].

(** [scores[intent] += 1] *)
Definition bump (intent : IntentType) (scores : IntentType -> nat) : IntentType -> nat :=
  fun i => if decide (i = intent) then S (scores i) else scores i.

Record KeywordResult := { kw_intent : IntentType; kw_confidence : Q }.

Section Classifier.

(** [String.prototype.toLowerCase], supplied by the runtime. *)
Variable toLowerCase : string -> string.

(** The first loop of [detectIntentByKeywords]: one point per keyword of
    the intent that the normalized message includes. *)
Definition scoreMessage (normalizedMessage : string) : IntentType -> nat :=
  fold_left
    (fun scores '(intent, keywords) =>
       fold_left
         (fun scores keyword =>
            if Js.includes normalizedMessage keyword then bump intent scores else scores)
         keywords scores)
    INTENT_KEYWORDS (fun _ => 0).

(** The second loop: [(maxScore, detectedIntent)], replaced only by a
    strictly greater score. *)
Definition pickMax (scores : IntentType -> nat) : nat * IntentType :=
  fold_left
    (fun '((maxScore, detectedIntent) : nat * IntentType) intent =>
       if (maxScore <? scores intent)%nat then (scores intent, intent)
       else (maxScore, detectedIntent))
    scoreKeys (0, other).

Definition detectIntentByKeywords (message : string) : KeywordResult :=
  let normalizedMessage := toLowerCase message in
  let scores := scoreMessage normalizedMessage in
  let '(maxScore, detectedIntent) := pickMax scores in
  let confidence :=
    if (0 <? maxScore)%nat then Qmin (inject_Z (Z.of_nat maxScore) * (3 # 10)) (8 # 10)
    else (1 # 10) in
  {| kw_intent := detectedIntent; kw_confidence := confidence |}.

End Classifier.

End Intent.

(** ** Rows of the relational store *)

Module Professional.
Record t := { id : string; name : string; establishment_id : string; active : bool }.
End Professional.

Module Service.
(** [price] is held in hundredths, printed by [toFixed(2)]. *)
Record t := { id : string; name : string; duration_minutes : Z; price : Z }.
End Service.

Module Client.
Record t := { id : string; name : string; phone : string; establishment_id : string }.
End Client.

Module Appointment.
Record t := {
  id : string;
  professional_id : string;
  client_id : string;
  service_id : string;
  appointment_date : string;
  appointment_time : string;
  status : string;
  establishment_id : string }.

Definition with_status (st : string) (a : t) : t :=
  {| id := id a; professional_id := professional_id a; client_id := client_id a;
     service_id := service_id a; appointment_date := appointment_date a;
     appointment_time := appointment_time a; status := st;
     establishment_id := establishment_id a |}.

(** A row of [searchAppointments]: the appointment with its joined
    [clients], [professionals] and [services] rows ([None]: no such row). *)
Record joined := {
  row : t;
  clients : option Client.t;
  professionals : option Professional.t;
  services : option Service.t }.
End Appointment.

Module ScheduledMessage.
Inductive Status := pending | sent | failed.

#[global] Instance Status_eq_dec : EqDecision Status.
Proof. solve_decision. Defined.

Record t := {
  id : string;
  client_phone : string;
  message_content : string;
  scheduled_for : Z;
  status : Status;
  sent_at : option Z;
  appointment_id : option string;
  establishment_id : option string }.

Definition with_status (st : Status) (at_ : option Z) (m : t) : t :=
  {| id := id m; client_phone := client_phone m; message_content := message_content m;
     scheduled_for := scheduled_for m; status := st; sent_at := at_;
     appointment_id := appointment_id m; establishment_id := establishment_id m |}.
End ScheduledMessage.

Module ConversationContext.
Record t := {
  id : string;
  establishment_id : string;
  client_phone : string;
  client_name : option string;
  context_data : gmap string Js.Json;
  last_interaction : Z;
  conversation_state : string;             (* 'active' | 'waiting' | 'closed' *)
  intent : option string;
  sentiment : option string;
  created_at : option Z;
  updated_at : option Z }.
End ConversationContext.

Module StoredMessage.
Inductive Direction := inbound | outbound.
Record t := {
  phone_number : string;
  message_content : option string;
  message_type : string;
  timestamp : Z;
  direction : Direction;
  external_message_id : option string }.
End StoredMessage.

(** The message the webhook hands to the orchestrator. *)
Module ProcessedMessage.
Record t := {
  messageId : string;
  clientPhone : string;
  messageContent : option string;
  messageType : string }.
End ProcessedMessage.

(** ** Collaborators and effects *)
Module Effects.

(** One exchange of the chat history handed to the LLM. *)
Inductive Role := system | user | assistant.
Record ChatMessage := { role : Role; content : option string }.

(** What [analyzeIntent] puts into its prompt. *)
Record AnalysisPrompt := {
  ap_message : string;
  ap_suggested : Intent.IntentType;
  ap_context : option ConversationContext.t }.

(** [JSON.parse] of the classifier's answer, as far as the code reads it:
    the value of each property the validation looks at ([None]: the
    property is missing or not of the type named). *)
Record ParsedAnalysis := {
  pa_intent : option string;
  pa_confidence : option Q;
  pa_sentiment : option string;
  pa_requiresHuman : Js.Json }.

Inductive AnalysisReply :=
  | AnalysisThrows                       (* the LLM call rejects *)
  | AnalysisNotJson                      (* [JSON.parse] throws *)
  | AnalysisNotObject                    (* it parses to [null] or a primitive *)
  | AnalysisObject (a : ParsedAnalysis).

(** What [generateResponse] sends to the chat completion endpoint. *)
Record CompletionRequest := {
  cr_userMessage : string;
  cr_context : ConversationContext.t;
  cr_history : list ChatMessage }.

Inductive CompletionReply :=
  | CompletionThrows
  | Completion (content : option string) (total_tokens : option Z).

(** The gateway's answer to a posted text message. *)
Inductive GatewayReply :=
  | GatewayThrows
  | GatewayRefused (error : option string)
  | GatewayAccepted (messageId : option string).

(** The operations on the store, each of which may report an error or
    reject. *)
Inductive DbOp :=
  | InsertMessage (phone : string)
  | SelectMessages (phone : string)
  | SelectContext (establishmentId clientPhone : string)
  | InsertContext (establishmentId clientPhone : string)
  | UpdateContext (establishmentId clientPhone : string)
  | SelectClient (phone establishmentId : string)
  | SelectAppointments
  | SelectAppointment (appointmentId : string)
  | UpdateAppointment (appointmentId : string)
  | SelectProfessionals (establishmentId : string)
  | SelectAppointmentsOn (date : string)
  | InsertScheduled (clientPhone : string)
  | SelectDueScheduled
  | UpdateScheduledStatus (id : string)
  | UpdateScheduledFailed (id : string).

Inductive DbOutcome := DbOk | DbError | DbThrows.

Record Env := {
  toLowerCase : string -> string;          (* String.prototype.toLowerCase *)
  toISOString : Z -> string;               (* Date.prototype.toISOString *)
  formatDate : string -> string;           (* date-fns: dd 'de' MMMM 'de' yyyy, pt-BR *)
  formatToday : Z -> string;               (* date-fns: yyyy-MM-dd of an instant *)
  parseISO : string -> Z;                  (* date-fns parseISO, as an instant *)
  subDays : Z -> Z -> Z;                   (* date-fns subDays *)
  addDays : Z -> Z -> Z;                   (* date-fns addDays *)
  uuid : nat -> string;                    (* uuidv4 and the store's generated ids *)
  zodUuid : string -> bool;                (* zod's z.string().uuid() *)
  regexReplace : string -> string -> string -> option string;
    (* s.replace(new RegExp(pattern, 'g'), replacement) for a pattern that is
       not a literal; None when the pattern is not a regular expression *)
  DEFAULT_ESTABLISHMENT_ID : string;       (* process.env.DEFAULT_ESTABLISHMENT_ID || '' *)
  db : DbOp -> DbOutcome;
  llm_analysis : AnalysisPrompt -> AnalysisReply;
  llm_completion : CompletionRequest -> CompletionReply;
  gateway : string -> string -> GatewayReply }.

(** The state the services act on: the tables, what was handed to the
    collaborators, and the clock. *)
Record World := {
  conversation_contexts : gmap (string * string) ConversationContext.t;
  professionals : list Professional.t;
  services : list Service.t;
  clients : list Client.t;
  appointments : list Appointment.t;
  messages : list StoredMessage.t;
  scheduled_messages : list ScheduledMessage.t;
  posted : list (string * string);          (* texts posted to the gateway: (phone, message) *)
  analysis_calls : list AnalysisPrompt;     (* classifier calls made to the LLM *)
  completion_calls : list CompletionRequest;(* reply-generation calls made to the LLM *)
  now : Z;                                  (* milliseconds *)
  fresh : nat }.

Definition with_conversation_contexts (x : gmap (string * string) ConversationContext.t) (w : World) : World :=
  {| conversation_contexts := x; professionals := professionals w;
     services := services w; clients := clients w; appointments := appointments w;
     messages := messages w; scheduled_messages := scheduled_messages w;
     posted := posted w; analysis_calls := analysis_calls w;
     completion_calls := completion_calls w; now := now w; fresh := fresh w |}.

Definition with_appointments (x : list Appointment.t) (w : World) : World :=
  {| conversation_contexts := conversation_contexts w; professionals := professionals w;
     services := services w; clients := clients w; appointments := x;
     messages := messages w; scheduled_messages := scheduled_messages w;
     posted := posted w; analysis_calls := analysis_calls w;
     completion_calls := completion_calls w; now := now w; fresh := fresh w |}.

Definition with_messages (x : list StoredMessage.t) (w : World) : World :=
  {| conversation_contexts := conversation_contexts w; professionals := professionals w;
     services := services w; clients := clients w; appointments := appointments w;
     messages := x; scheduled_messages := scheduled_messages w;
     posted := posted w; analysis_calls := analysis_calls w;
     completion_calls := completion_calls w; now := now w; fresh := fresh w |}.

Definition with_scheduled_messages (x : list ScheduledMessage.t) (w : World) : World :=
  {| conversation_contexts := conversation_contexts w; professionals := professionals w;
     services := services w; clients := clients w; appointments := appointments w;
     messages := messages w; scheduled_messages := x;
     posted := posted w; analysis_calls := analysis_calls w;
     completion_calls := completion_calls w; now := now w; fresh := fresh w |}.

Definition with_posted (x : list (string * string)) (w : World) : World :=
  {| conversation_contexts := conversation_contexts w; professionals := professionals w;
     services := services w; clients := clients w; appointments := appointments w;
     messages := messages w; scheduled_messages := scheduled_messages w;
     posted := x; analysis_calls := analysis_calls w;
     completion_calls := completion_calls w; now := now w; fresh := fresh w |}.

Definition with_analysis_calls (x : list AnalysisPrompt) (w : World) : World :=
  {| conversation_contexts := conversation_contexts w; professionals := professionals w;
     services := services w; clients := clients w; appointments := appointments w;
     messages := messages w; scheduled_messages := scheduled_messages w;
     posted := posted w; analysis_calls := x;
     completion_calls := completion_calls w; now := now w; fresh := fresh w |}.

Definition with_completion_calls (x : list CompletionRequest) (w : World) : World :=
  {| conversation_contexts := conversation_contexts w; professionals := professionals w;
     services := services w; clients := clients w; appointments := appointments w;
     messages := messages w; scheduled_messages := scheduled_messages w;
     posted := posted w; analysis_calls := analysis_calls w;
     completion_calls := x; now := now w; fresh := fresh w |}.

Definition with_now (x : Z) (w : World) : World :=
  {| conversation_contexts := conversation_contexts w; professionals := professionals w;
     services := services w; clients := clients w; appointments := appointments w;
     messages := messages w; scheduled_messages := scheduled_messages w;
     posted := posted w; analysis_calls := analysis_calls w;
     completion_calls := completion_calls w; now := x; fresh := fresh w |}.

Definition with_fresh (x : nat) (w : World) : World :=
  {| conversation_contexts := conversation_contexts w; professionals := professionals w;
     services := services w; clients := clients w; appointments := appointments w;
     messages := messages w; scheduled_messages := scheduled_messages w;
     posted := posted w; analysis_calls := analysis_calls w;
     completion_calls := completion_calls w; now := now w; fresh := x |}.

Inductive Outcome (A : Type) :=
  | Ok (a : A)
  | Thrown (e : string).
Arguments Ok {A} a.
Arguments Thrown {A} e.

(** An [async] function: it runs on a world and returns or throws. *)
Definition M (A : Type) : Type := World -> Outcome A * World.

Definition ret {A} (a : A) : M A := λ w, (Ok a, w).

Definition bind {A B} (m : M A) (f : A -> M B) : M B := λ w,
  match m w with
  | (Ok a, w') => f a w'
  | (Thrown e, w') => (Thrown e, w')
  end.

Definition throw {A} (e : string) : M A := λ w, (Thrown e, w).

(** [try { m } catch (error) { handler error }] *)
Definition tryCatch {A} (m : M A) (handler : string -> M A) : M A := λ w,
  match m w with
  | (Ok a, w') => (Ok a, w')
  | (Thrown e, w') => handler e w'
  end.

Definition getWorld : M World := λ w, (Ok w, w).
Definition modifyWorld (f : World -> World) : M unit := λ w, (Ok tt, f w).

(** A store operation as the client library reports it: [true] for an
    error object, a rejection throws, otherwise the operation is done. *)
Definition dbCall (env : Env) (op : DbOp) : M bool :=
  match db env op with
  | DbOk => ret false
  | DbError => ret true
  | DbThrows => throw "store"
  end.

End Effects.

Notation "'let*' x ':=' m 'in' k" := (Effects.bind m (fun x => k))
  (at level 10, x name, m at level 100, k at level 200,
   format "'[v' 'let*'  x  ':='  m  'in' '/' k ']'").
Notation "'let*' ' p ':=' m 'in' k" := (Effects.bind m (fun x => let 'p := x in k))
  (at level 10, p pattern, m at level 100, k at level 200, only parsing).

(** ** Intent resolution with the LLM stage (intentService) *)
Module IntentService.
Import Effects.
Export Intent.

(** The intent labels, as the strings the code and the store hold. *)
Definition intentName (i : IntentType) : string :=
  match i with
  | greeting => "greeting" | scheduling => "scheduling" | reschedule => "reschedule"
  | cancel => "cancel" | services_info => "services_info" | prices_info => "prices_info"
  | availability => "availability" | confirmation => "confirmation"
  | complaint => "complaint" | compliment => "compliment" | farewell => "farewell"
  | help => "help" | other => "other"
  end.

(** [Object.keys(INTENT_KEYWORDS).includes(s)], with the key found. *)
Definition intentOfString (s : string) : option IntentType :=
  List.find (fun i => String.eqb (intentName i) s) (map fst INTENT_KEYWORDS).

Record IntentAnalysis := {
  intent : IntentType;
  confidence : option Q;
  sentiment : string;
  requiresHuman : Js.Json }.

Definition basicAnalysis (suggestedIntent : option IntentType) (c : Q) : IntentAnalysis :=
  {| intent := default other suggestedIntent; confidence := Some c;
     sentiment := "neutral"; requiresHuman := Js.JBool false |}.

(** The validation step of [analyzeIntent] on a parsed object. *)
Definition validateAnalysis (a : ParsedAnalysis) : IntentAnalysis :=
  {| intent := default other (pa_intent a ≫= intentOfString);
     confidence :=
       match pa_confidence a with
       | Some q => if Qlt_le_dec q 0 then Some (1 # 2)
                   else if Qlt_le_dec 1 q then Some (1 # 2) else Some q
       | None => None
       end;
     sentiment :=
       match pa_sentiment a with
       | Some s => if bool_decide (s ∈ ["positive"; "neutral"; "negative"]) then s else "neutral"
       | None => "neutral"
       end;
     requiresHuman := pa_requiresHuman a |}.

(** The digest of the history in the prompt of [analyzeIntent],
    [context.context_data?.lastTopics?.slice(-3) || []]: whether the stored
    value has a [slice] to call (an array or a string, or there is none);
    on a number, a boolean or a plain object the call is a [TypeError]. *)
Definition historySliceable (context : option ConversationContext.t) : bool :=
  match context with
  | Some c =>
      match ConversationContext.context_data c !! "lastTopics" with
      | Some (Js.JBool _) | Some (Js.JNum _) | Some (Js.JObj _) => false
      | _ => true
      end
  | None => true
  end.

Section WithEnv.
Variable env : Env.

(** The LLM call of [analyzeIntent]: the prompt is recorded, the reply is
    the oracle's. *)
Definition askClassifier (p : AnalysisPrompt) : M AnalysisReply := λ w,
  (Ok (llm_analysis env p), with_analysis_calls (analysis_calls w ++ [p])%list w).

Definition analyzeIntent (message : string) (suggestedIntent : option IntentType)
    (context : option ConversationContext.t) : M IntentAnalysis :=
  tryCatch
    (if negb (historySliceable context) then throw "TypeError"
     else
       let* reply := askClassifier {| ap_message := message;
                                      ap_suggested := default other suggestedIntent;
                                      ap_context := context |} in
       match reply with
       | AnalysisThrows => throw "Falha ao gerar resposta com IA"
       | AnalysisNotJson => ret (basicAnalysis suggestedIntent (1 # 2))
       | AnalysisNotObject => throw "TypeError"
       | AnalysisObject a => ret (validateAnalysis a)
       end)
    (λ _, ret (basicAnalysis suggestedIntent (3 # 10))).

(** [confidence > 0.6] *)
Definition highConfidence (r : KeywordResult) : bool :=
  if Qlt_le_dec (6 # 10) (kw_confidence r) then true else false.

Definition detectIntent (message : string) (context : option ConversationContext.t)
    : M IntentType :=
  tryCatch
    (let keywordResult := detectIntentByKeywords (toLowerCase env) message in
     if highConfidence keywordResult then ret (kw_intent keywordResult)
     else
       let* aiAnalysis := analyzeIntent message (Some (kw_intent keywordResult)) context in
       ret (intent aiAnalysis))
    (λ _, ret other).

End WithEnv.
End IntentService.

(** ** Conversation context store (contextService) *)
Module ContextService.
Import Effects.

Section WithEnv.
Variable env : Env.

(** The row [createConversationContext] inserts. *)
Definition newContext (establishmentId clientPhone : string) (clientName : option string)
    (w : World) : ConversationContext.t :=
  {| ConversationContext.id := uuid env (fresh w);
     ConversationContext.establishment_id := establishmentId;
     ConversationContext.client_phone := clientPhone;
     ConversationContext.client_name :=
       match clientName with
       | Some n => if String.eqb n "" then None else Some n
       | None => None
       end;
     ConversationContext.context_data :=
       <["messageCount" := Js.JNum 0]>
       (<["firstInteraction" := Js.JStr (toISOString env (now w))]>
       (<["preferences" := Js.JObj []]>
       (<["appointmentHistory" := Js.JArr []]>
       (<["lastTopics" := Js.JArr []]> ∅))));
     ConversationContext.last_interaction := now w;
     ConversationContext.conversation_state := "active";
     ConversationContext.intent := Some "greeting";
     ConversationContext.sentiment := Some "neutral";
     ConversationContext.created_at := None;
     ConversationContext.updated_at := None |}.

(** [createConversationContext]: a fresh row with message count 0. *)
Definition createConversationContext (establishmentId clientPhone : string)
    (clientName : option string) : M (option ConversationContext.t) :=
  tryCatch
    (let* w := getWorld in
     let created := newContext establishmentId clientPhone clientName w in
     let* error := dbCall env (InsertContext establishmentId clientPhone) in
     if error then ret None
     else
       let* _ := modifyWorld (λ w, with_fresh (S (fresh w))
         (with_conversation_contexts
            (<[(establishmentId, clientPhone) := created]> (conversation_contexts w)) w)) in
       ret (Some created))
    (λ _, ret None).

(** [getConversationContext] (exported as [getOrCreateContext]): the row
    of the key, created when there is none; [None] on a store error. *)
Definition getConversationContext (establishmentId clientPhone : string)
    : M (option ConversationContext.t) :=
  tryCatch
    (let* error := dbCall env (SelectContext establishmentId clientPhone) in
     if error then ret None
     else
       let* w := getWorld in
       match conversation_contexts w !! (establishmentId, clientPhone) with
       | None => createConversationContext establishmentId clientPhone None
       | Some data => ret (Some data)
       end)
    (λ _, ret None).

(** The keys of a patch that are not copied into [context_data]. *)
Definition reservedKeys : list string :=
  ["lastMessage"; "lastResponse"; "intent"; "sentiment"; "conversation_state"; "client_name"].

(** [Object.keys(updates).forEach(key => ...)]: every other key of the
    patch is written into the map. *)
Definition mergeOtherKeys (updates contextData : gmap string Js.Json) : gmap string Js.Json :=
  map_fold
    (λ key v acc, if bool_decide (key ∈ reservedKeys) then acc else <[key := v]> acc)
    contextData updates.

(** The entry an exchange adds to the history. *)
Definition topicEntry (nowIso : string) (updates : gmap string Js.Json) : Js.Json :=
  Js.JObj [("message", Js.get updates "lastMessage");
           ("response", Js.get updates "lastResponse");
           ("timestamp", Js.JStr nowIso);
           ("intent", Js.get updates "intent")].

(** The history step: push the exchange, keep the last ten; [None] is the
    [TypeError] of pushing onto something that is not an array. *)
Definition pushTopic (nowIso : string) (updates contextData : gmap string Js.Json)
    : option (gmap string Js.Json) :=
  if Js.truthy (Js.get updates "lastMessage") then
    match Js.jsOr (Js.get contextData "lastTopics") (Js.JArr []) with
    | Js.JArr topics =>
        let topics' := topics ++ [topicEntry nowIso updates] in
        Some (<["lastTopics" :=
                 Js.JArr (if (10 <? length topics')%nat then Js.sliceLast 10 topics' else topics')]>
              contextData)
    | _ => None
    end
  else Some contextData.

(** The [context_data] an update computes from the current one. *)
Definition nextContextData (nowIso : string) (updates current : gmap string Js.Json)
    : option (gmap string Js.Json) :=
  let contextData :=
    <["messageCount" := Js.jsPlusOne (Js.jsOr (Js.get current "messageCount") (Js.JNum 0))]> current in
  let contextData := <["lastInteraction" := Js.JStr nowIso]> contextData in
  mergeOtherKeys updates <$> pushTopic nowIso updates contextData.

(** A column of the row is overwritten when the patch supplies a truthy
    value for it. *)
Definition supplied (updates : gmap string Js.Json) (key : string) (old : option string)
    : option string :=
  let v := Js.get updates key in
  if Js.truthy v then Some (Js.jsToString v) else old.

Definition applyUpdate (t : Z) (updates contextData : gmap string Js.Json)
    (c : ConversationContext.t) : ConversationContext.t :=
  {| ConversationContext.id := ConversationContext.id c;
     ConversationContext.establishment_id := ConversationContext.establishment_id c;
     ConversationContext.client_phone := ConversationContext.client_phone c;
     ConversationContext.client_name :=
       supplied updates "client_name" (ConversationContext.client_name c);
     ConversationContext.context_data := Js.storeObject contextData;
     ConversationContext.last_interaction := t;
     ConversationContext.conversation_state :=
       default (ConversationContext.conversation_state c)
         (supplied updates "conversation_state" None);
     ConversationContext.intent := supplied updates "intent" (ConversationContext.intent c);
     ConversationContext.sentiment :=
       supplied updates "sentiment" (ConversationContext.sentiment c);
     ConversationContext.created_at := ConversationContext.created_at c;
     ConversationContext.updated_at := Some t |}.

(** [updateConversationContext] (exported as [updateContext]). *)
Definition updateConversationContext (establishmentId clientPhone : string)
    (updates : gmap string Js.Json) : M bool :=
  tryCatch
    (let* currentContext := getConversationContext establishmentId clientPhone in
     match currentContext with
     | None => ret false
     | Some current =>
         let* w := getWorld in
         match nextContextData (toISOString env (now w)) updates
                 (ConversationContext.context_data current) with
         | None => throw "TypeError"
         | Some contextData =>
             let* error := dbCall env (UpdateContext establishmentId clientPhone) in
             if error then ret false
             else
               let* _ := modifyWorld (λ w, with_conversation_contexts
                 (alter (applyUpdate (now w) updates contextData)
                    (establishmentId, clientPhone) (conversation_contexts w)) w) in
               ret true
         end
     end)
    (λ _, ret false).

End WithEnv.
End ContextService.

(** ** Outbound gateway (messageService) *)
Module MessageService.
Import Effects.

Record SendMessageResponse := {
  success : bool;
  messageId : option string;
  error : option string }.

Definition isDigit (c : ascii) : bool :=
  let n := nat_of_ascii c in (48 <=? n)%nat && (n <=? 57)%nat.

Fixpoint keepDigits (s : string) : string :=
  match s with
  | EmptyString => EmptyString
  | String c s' => if isDigit c then String c (keepDigits s') else keepDigits s'
  end.

(** [formatPhoneNumber]: digits only, Brazil's country code before an
    eleven-digit number, and the gateway's suffix. *)
Definition formatPhoneNumber (phone : string) : string :=
  let cleaned := keepDigits phone in
  let cleaned :=
    if negb (String.prefix "55" cleaned) && (String.length cleaned =? 11)%nat
    then "55" +:+ cleaned else cleaned in
  if negb (Js.includes cleaned "@") then cleaned +:+ "@c.us" else cleaned.

Section WithEnv.
Variable env : Env.

(** [sendTextMessage]: posts the payload; never throws. *)
Definition sendTextMessage (phone message : string) : M SendMessageResponse :=
  tryCatch
    (let payloadPhone := formatPhoneNumber phone in
     let* _ := modifyWorld (λ w, with_posted (posted w ++ [(payloadPhone, message)])%list w) in
     match gateway env payloadPhone message with
     | GatewayThrows => throw "network"
     | GatewayAccepted mid => ret {| success := true; messageId := mid; error := None |}
     | GatewayRefused e =>
         ret {| success := false; messageId := None;
                error := Some (match e with
                               | Some s => if String.eqb s "" then "Erro desconhecido" else s
                               | None => "Erro desconhecido"
                               end) |}
     end)
    (λ _, ret {| success := false; messageId := None;
                 error := Some "Falha na comunicação com a API" |}).

End WithEnv.
End MessageService.

(** ** Availability and bookings (appointmentService) *)
Module AppointmentService.
Import Effects.

Record AvailableSlot := {
  date : string;
  time : string;
  professional_id : string;
  professional_name : string }.

Record OpResult := { success : bool; error : option string }.

(** [n.toString().padStart(2, '0')] *)
Definition pad2 (n : nat) : string :=
  if (n <? 10)%nat then "0" +:+ pretty n else pretty n.

(** The time slots of one day: 08:00 to 17:30 in steps of thirty minutes,
    in the order the two nested loops produce them. *)
Definition timeSlots : list string :=
  hour ← seq 8 (18 - 8);
  minute ← [0; 30]%nat;
  [pad2 hour +:+ ":" +:+ pad2 minute +:+ ":00"].

Definition isActiveStatus (st : string) : bool :=
  bool_decide (st ∈ ["scheduled"; "confirmed"]).

(** [formatTimeForDisplay]: [time.substring(0, 5)] *)
Definition formatTimeForDisplay (time : string) : string := String.substring 0 5 time.

(** Stable insertion sort, the order of an [ORDER BY] on one column. *)
Fixpoint insertBy {A} (le : A -> A -> bool) (x : A) (l : list A) : list A :=
  match l with
  | [] => [x]
  | y :: r => if le x y then x :: l else y :: insertBy le x r
  end.

Definition sortBy {A} (le : A -> A -> bool) (l : list A) : list A :=
  foldr (insertBy le) [] l.

Record SearchParams := {
  sp_date : option string;
  sp_professional_id : option string;
  sp_client_id : option string;
  sp_status : option string }.

Definition optMatches (p : option string) (v : string) : bool :=
  match p with
  | Some x => if String.eqb x "" then true else String.eqb v x
  | None => true
  end.

Section WithEnv.
Variable env : Env.

Definition formatDateForDisplay (d : string) : string := formatDate env d.

(** The join of an appointment with the rows it refers to. *)
Definition joinRow (w : World) (a : Appointment.t) : Appointment.joined :=
  {| Appointment.row := a;
     Appointment.clients :=
       List.find (λ c, String.eqb (Client.id c) (Appointment.client_id a)) (clients w);
     Appointment.professionals :=
       List.find (λ p, String.eqb (Professional.id p) (Appointment.professional_id a))
         (professionals w);
     Appointment.services :=
       List.find (λ s, String.eqb (Service.id s) (Appointment.service_id a)) (services w) |}.

(** [AppointmentSearchSchema.parse]: the identifiers must be UUIDs and the
    status one of the schema's. *)
Definition validSearch (p : SearchParams) : bool :=
  from_option (zodUuid env) true (sp_professional_id p)
  && from_option (zodUuid env) true (sp_client_id p)
  && from_option
       (λ s, bool_decide (s ∈ ["scheduled"; "confirmed"; "cancelled"; "completed";
                               "pending"; "no_show"])) true (sp_status p).

Definition searchAppointments (params : SearchParams) : M (list Appointment.joined) :=
  tryCatch
    (if negb (validSearch params) then throw "ZodError"
     else
       let* error := dbCall env SelectAppointments in
       if error then ret []
       else
         let* w := getWorld in
         ret (sortBy
                (λ a b, String.leb (Appointment.appointment_date (Appointment.row a))
                                   (Appointment.appointment_date (Appointment.row b)))
                (joinRow w <$>
                   filter (λ a,
                     optMatches (sp_date params) (Appointment.appointment_date a)
                     && optMatches (sp_professional_id params) (Appointment.professional_id a)
                     && optMatches (sp_client_id params) (Appointment.client_id a)
                     && optMatches (sp_status params) (Appointment.status a) = true)
                     (appointments w))))
    (λ _, ret []).

(** [UPDATE appointments SET status = st WHERE id = appointmentId] *)
Definition setStatus (appointmentId st : string) (l : list Appointment.t) : list Appointment.t :=
  (λ a, if String.eqb (Appointment.id a) appointmentId
        then Appointment.with_status st a else a) <$> l.

Definition updateAppointmentStatus (appointmentId st : string) : M OpResult :=
  tryCatch
    (let* error := dbCall env (UpdateAppointment appointmentId) in
     if error
     then ret {| success := false; error := Some "Erro interno ao atualizar agendamento" |}
     else
       let* _ := modifyWorld (λ w, with_appointments (setStatus appointmentId st (appointments w)) w) in
       ret {| success := true; error := None |})
    (λ _, ret {| success := false; error := Some "Erro interno" |}).

Definition cancelAppointment (appointmentId : string) : M OpResult :=
  tryCatch
    (let* error := dbCall env (UpdateAppointment appointmentId) in
     if error
     then ret {| success := false; error := Some "Erro interno ao cancelar agendamento" |}
     else
       let* _ := modifyWorld (λ w, with_appointments (setStatus appointmentId "cancelled" (appointments w)) w) in
       ret {| success := true; error := None |})
    (λ _, ret {| success := false; error := Some "Erro interno" |}).

Definition getClientAppointmentsByPhone (phone establishmentId : string)
    : M (list Appointment.joined) :=
  tryCatch
    (let* clientError := dbCall env (SelectClient phone establishmentId) in
     let* w := getWorld in
     match filter (λ c, String.eqb (Client.phone c) phone
                        && String.eqb (Client.establishment_id c) establishmentId = true)
                  (clients w) with
     | [client] =>
         if clientError then ret []
         else searchAppointments
                {| sp_date := None; sp_professional_id := None;
                   sp_client_id := Some (Client.id client); sp_status := None |}
     | _ => ret []
     end)
    (λ _, ret []).

(** The slots of one professional that no listed appointment occupies. *)
Definition freeSlots (targetDate : string) (existing : list Appointment.t)
    (professional : Professional.t) : list AvailableSlot :=
  timeSlot ← timeSlots;
  let isOccupied :=
    existsb (λ apt, String.eqb (Appointment.professional_id apt) (Professional.id professional)
                    && String.eqb (Appointment.appointment_time apt) timeSlot) existing in
  if isOccupied then []
  else [{| date := targetDate; time := timeSlot;
           professional_id := Professional.id professional;
           professional_name := Professional.name professional |}].

Definition getAvailableSlots (establishmentId : string) (date professionalId : option string)
    : M (list AvailableSlot) :=
  tryCatch
    (let* w := getWorld in
     let targetDate :=
       match date with
       | Some d => if String.eqb d "" then formatToday env (now w) else d
       | None => formatToday env (now w)
       end in
     let* profError := dbCall env (SelectProfessionals establishmentId) in
     if profError then ret []
     else
       let professionals :=
         filter (λ p, String.eqb (Professional.establishment_id p) establishmentId
                      && Professional.active p
                      && optMatches professionalId (Professional.id p) = true)
                (professionals w) in
       let* apptError := dbCall env (SelectAppointmentsOn targetDate) in
       if apptError then ret []
       else
         let existingAppointments :=
           filter (λ a, String.eqb (Appointment.appointment_date a) targetDate
                        && isActiveStatus (Appointment.status a) = true)
                  (appointments w) in
         ret (professional ← professionals;
              freeSlots targetDate existingAppointments professional))
    (λ _, ret []).

End WithEnv.
End AppointmentService.

(** ** Templates and scheduled delivery (automaticMessageService) *)
Module AutomaticMessageService.
Import Effects.

Inductive TemplateType := reminder | confirmation | welcome | follow_up.

Record MessageTemplate := {
  id : string;
  name : string;
  content : string;
  type : TemplateType;
  variables : list string }.

Record OpResult := { success : bool; error : option string }.

(** Line feed and the double quote, for the template texts. *)
Definition nl : string := String (ascii_of_nat 10) EmptyString.
Definition dq : string := String (ascii_of_nat 34) EmptyString.

Definition messageTemplates : list MessageTemplate :=
  [ {| id := "reminder_24h"; name := "Lembrete 24h";
       content :=
         "Olá {client_name}! 👋" +:+ nl +:+ nl
         +:+ "Lembramos que você tem um agendamento marcado para amanhã ({date}) às {time} com {professional_name}."
         +:+ nl +:+ nl +:+ "Serviço: {service_name}" +:+ nl +:+ "Valor: R$ {price}" +:+ nl +:+ nl
         +:+ "Para confirmar, responda " +:+ dq +:+ "CONFIRMAR" +:+ dq +:+ "." +:+ nl
         +:+ "Para cancelar, responda " +:+ dq +:+ "CANCELAR" +:+ dq +:+ "." +:+ nl +:+ nl
         +:+ "Obrigado! 😊";
       type := reminder;
       variables := ["client_name"; "date"; "time"; "professional_name"; "service_name"; "price"] |};
    {| id := "confirmation"; name := "Confirmação de Agendamento";
       content :=
         "✅ Agendamento confirmado!" +:+ nl +:+ nl
         +:+ "Cliente: {client_name}" +:+ nl +:+ "Data: {date}" +:+ nl +:+ "Horário: {time}" +:+ nl
         +:+ "Profissional: {professional_name}" +:+ nl +:+ "Serviço: {service_name}" +:+ nl
         +:+ "Valor: R$ {price}" +:+ nl +:+ nl +:+ "Nos vemos em breve! 😊";
       type := confirmation;
       variables := ["client_name"; "date"; "time"; "professional_name"; "service_name"; "price"] |};
    {| id := "welcome"; name := "Boas-vindas";
       content :=
         "Olá! 👋 Bem-vindo(a) ao nosso atendimento via WhatsApp!" +:+ nl +:+ nl
         +:+ "Eu sou seu assistente virtual e estou aqui para ajudar você com:" +:+ nl +:+ nl
         +:+ "📅 Agendamentos" +:+ nl +:+ "🔍 Consulta de horários" +:+ nl
         +:+ "❌ Cancelamentos" +:+ nl +:+ "💬 Dúvidas gerais" +:+ nl +:+ nl
         +:+ "Como posso ajudar você hoje?";
       type := welcome;
       variables := [] |};
    {| id := "follow_up"; name := "Pós-atendimento";
       content :=
         "Olá {client_name}! 😊" +:+ nl +:+ nl
         +:+ "Esperamos que tenha gostado do seu atendimento de {service_name} com {professional_name}."
         +:+ nl +:+ nl
         +:+ "Sua opinião é muito importante para nós! Como foi sua experiência?" +:+ nl +:+ nl
         +:+ "⭐⭐⭐⭐⭐" +:+ nl +:+ nl +:+ "Obrigado pela preferência! 💙";
       type := follow_up;
       variables := ["client_name"; "service_name"; "professional_name"] |} ].

Definition findTemplate (templateId : string) : option MessageTemplate :=
  List.find (λ t, String.eqb (id t) templateId) messageTemplates.

(** *** Rendering: [content.replace(new RegExp(`{${key}}`, 'g'), value)] *)

(** The characters with a meaning of their own in a pattern. *)
Definition isRegexMeta (c : ascii) : bool :=
  Js.includes "^$\.*+?()[]{}|" (String c EmptyString).

Fixpoint allChars (p : ascii -> bool) (s : string) : bool :=
  match s with
  | EmptyString => true
  | String c s' => p c && allChars p s'
  end.

(** The keys for which the pattern [{key}] is the literal text: no
    character of the key is special, and the braces are not read as a
    quantifier ([{3}], a syntax error). *)
Definition literalKey (key : string) : bool :=
  allChars (λ c, negb (isRegexMeta c)) key
  && match key with
     | String c _ => negb (MessageService.isDigit c)
     | EmptyString => true
     end.

Definition placeholder (key : string) : string := "{" +:+ key +:+ "}".

Fixpoint dropChars (n : nat) (s : string) : string :=
  match n, s with
  | S k, String _ s' => dropChars k s'
  | _, _ => s
  end.

(** [GetSubstitution] for a pattern with no capture group: [$$] is a
    dollar sign, [$&] the matched text, [$`] and [$'] the text before and
    after the match; any other [$] stands for itself. *)
Fixpoint expandReplacement (matched before after replacement : string) : string :=
  match replacement with
  | EmptyString => EmptyString
  | String a r =>
      if Ascii.eqb a "$" then
        match r with
        | String c r' =>
            if Ascii.eqb c "$" then "$" +:+ expandReplacement matched before after r'
            else if Ascii.eqb c "&" then matched +:+ expandReplacement matched before after r'
            else if Ascii.eqb c "`" then before +:+ expandReplacement matched before after r'
            else if Ascii.eqb c "'" then after +:+ expandReplacement matched before after r'
            else String a (expandReplacement matched before after r)
        | EmptyString => String a EmptyString
        end
      else String a (expandReplacement matched before after r)
  end.

(** The global replacement of a literal, non-empty pattern: matches are
    found left to right and do not overlap.  [skip] counts the characters
    of the current match still to pass over, [before] is the text already
    passed. *)
Fixpoint replaceFrom (pattern replacement : string) (skip : nat) (before s : string) : string :=
  match s with
  | EmptyString => EmptyString
  | String c s' =>
      match skip with
      | S k => replaceFrom pattern replacement k (before +:+ String c EmptyString) s'
      | O =>
          if String.prefix pattern s
          then expandReplacement pattern before (dropChars (String.length pattern) s) replacement
               +:+ replaceFrom pattern replacement (String.length pattern - 1)
                     (before +:+ String c EmptyString) s'
          else String c (replaceFrom pattern replacement 0 (before +:+ String c EmptyString) s')
      end
  end.

Section WithEnv.
Variable env : Env.

(** One iteration of the loop; [None] is the [SyntaxError] of [new RegExp]. *)
Definition replaceKey (messageContent key value : string) : option string :=
  if literalKey key
  then Some (replaceFrom (placeholder key) value 0 "" messageContent)
  else regexReplace env (placeholder key) value messageContent.

(** The loop over [Object.entries(variables)]. *)
Fixpoint renderTemplate (messageContent : string) (variables : list (string * string))
    : option string :=
  match variables with
  | [] => Some messageContent
  | (key, value) :: rest =>
      match replaceKey messageContent key value with
      | Some c => renderTemplate c rest
      | None => None
      end
  end.

(** [n.toFixed(2)] of a price held in hundredths. *)
Definition toFixed2 (p : Z) : string :=
  (if (p <? 0)%Z then "-" else "")
  +:+ pretty (Z.abs p / 100)%Z +:+ "." +:+ AppointmentService.pad2 (Z.to_nat (Z.abs p mod 100)).

Definition insertScheduled (m : ScheduledMessage.t) (w : World) : World :=
  with_fresh (S (fresh w)) (with_scheduled_messages (scheduled_messages w ++ [m])%list w).

(** [scheduleMessage]: the template is rendered now and stored [pending]. *)
Definition scheduleMessage (clientPhone templateId : string) (scheduledFor : Z)
    (variables : list (string * string)) (appointmentId establishmentId : option string)
    : M OpResult :=
  tryCatch
    (match findTemplate templateId with
     | None => ret {| success := false; error := Some "Template de mensagem não encontrado" |}
     | Some template =>
         match renderTemplate (content template) variables with
         | None => throw "SyntaxError"
         | Some messageContent =>
             let* error := dbCall env (InsertScheduled clientPhone) in
             if error
             then ret {| success := false; error := Some "Erro interno ao agendar mensagem" |}
             else
               let* _ := modifyWorld (λ w, insertScheduled
                 {| ScheduledMessage.id := uuid env (fresh w);
                    ScheduledMessage.client_phone := clientPhone;
                    ScheduledMessage.message_content := messageContent;
                    ScheduledMessage.scheduled_for := scheduledFor;
                    ScheduledMessage.status := ScheduledMessage.pending;
                    ScheduledMessage.sent_at := None;
                    ScheduledMessage.appointment_id := appointmentId;
                    ScheduledMessage.establishment_id := establishmentId |} w) in
               ret {| success := true; error := None |}
         end
     end)
    (λ _, ret {| success := false; error := Some "Erro interno" |}).

(** [UPDATE scheduled_messages SET status, sent_at WHERE id = id] *)
Definition setDelivery (id : string) (st : ScheduledMessage.Status) (sentAt : option Z)
    (rows : list ScheduledMessage.t) : list ScheduledMessage.t :=
  (λ m, if String.eqb (ScheduledMessage.id m) id
        then ScheduledMessage.with_status st sentAt m else m) <$> rows.

(** [UPDATE scheduled_messages SET status = 'failed' WHERE id = id] *)
Definition setFailed (id : string) (rows : list ScheduledMessage.t) : list ScheduledMessage.t :=
  (λ m, if String.eqb (ScheduledMessage.id m) id
        then ScheduledMessage.with_status ScheduledMessage.failed (ScheduledMessage.sent_at m) m
        else m) <$> rows.

(** [sendScheduledMessage] *)
Definition sendScheduledMessage (message : ScheduledMessage.t) : M unit :=
  tryCatch
    (let* result := MessageService.sendTextMessage env
                      (ScheduledMessage.client_phone message)
                      (ScheduledMessage.message_content message) in
     let success := MessageService.success result in
     let newStatus := if success then ScheduledMessage.sent else ScheduledMessage.failed in
     let* error := dbCall env (UpdateScheduledStatus (ScheduledMessage.id message)) in
     if error then ret tt
     else modifyWorld (λ w, with_scheduled_messages
            (setDelivery (ScheduledMessage.id message) newStatus
               (if success then Some (now w) else None) (scheduled_messages w)) w))
    (λ _,
     let* error := dbCall env (UpdateScheduledFailed (ScheduledMessage.id message)) in
     if error then ret tt
     else modifyWorld (λ w, with_scheduled_messages
            (setFailed (ScheduledMessage.id message) (scheduled_messages w)) w)).

(** [setTimeout(resolve, ms)] *)
Definition sleep (ms : Z) : M unit := modifyWorld (λ w, with_now (now w + ms)%Z w).

(** The rows the sweep selects: [pending], due at [t], by fire time. *)
Definition dueMessages (t : Z) (rows : list ScheduledMessage.t) : list ScheduledMessage.t :=
  AppointmentService.sortBy
    (λ a b, (ScheduledMessage.scheduled_for a <=? ScheduledMessage.scheduled_for b)%Z)
    (filter (λ m, ScheduledMessage.status m = ScheduledMessage.pending
                  ∧ (ScheduledMessage.scheduled_for m <= t)%Z) rows).

(** The [for ... of] loop of the sweep. *)
Fixpoint sendEach (pendingMessages : list ScheduledMessage.t) : M unit :=
  match pendingMessages with
  | [] => ret tt
  | message :: rest =>
      let* _ := sendScheduledMessage message in
      let* _ := sleep 1000 in
      sendEach rest
  end.

(** [processPendingMessages] *)
Definition processPendingMessages : M unit :=
  tryCatch
    (let* w := getWorld in
     let* error := dbCall env SelectDueScheduled in
     if error then ret tt
     else sendEach (dueMessages (now w) (scheduled_messages w)))
    (λ _, ret tt).

(** [sendWelcomeMessage] *)
Definition sendWelcomeMessage (clientPhone : string) : M OpResult :=
  tryCatch
    (match findTemplate "welcome" with
     | None => ret {| success := false; error := Some "Template de boas-vindas não encontrado" |}
     | Some template =>
         let* result := MessageService.sendTextMessage env clientPhone (content template) in
         if MessageService.success result then ret {| success := true; error := None |}
         else ret {| success := false; error := Some "Falha ao enviar mensagem" |}
     end)
    (λ _, ret {| success := false; error := Some "Erro interno" |}).

(** The appointment of an id with its joined rows, as [.single()] yields
    it: [None] unless exactly one row has the id. *)
Definition selectAppointment (appointmentId : string) : M (option Appointment.joined) :=
  let* error := dbCall env (SelectAppointment appointmentId) in
  let* w := getWorld in
  match filter (λ a, String.eqb (Appointment.id a) appointmentId = true) (appointments w) with
  | [a] => if error then ret None else ret (Some (AppointmentService.joinRow w a))
  | _ => ret None
  end.

(** The six variables of the reminder and confirmation templates; [None]
    is the [TypeError] of reading a joined row that is [null]. *)
Definition appointmentVariables (a : Appointment.joined) : option (list (string * string)) :=
  client ← Appointment.clients a;
  professional ← Appointment.professionals a;
  service ← Appointment.services a;
  Some [ ("client_name", Client.name client);
         ("date", AppointmentService.formatDateForDisplay env
                    (Appointment.appointment_date (Appointment.row a)));
         ("time", AppointmentService.formatTimeForDisplay
                    (Appointment.appointment_time (Appointment.row a)));
         ("professional_name", Professional.name professional);
         ("service_name", Service.name service);
         ("price", toFixed2 (Service.price service)) ].

(** [scheduleAppointmentReminders]: a reminder one day before the
    appointment, when that instant is still ahead. *)
Definition scheduleAppointmentReminders (appointmentId establishmentId : string) : M OpResult :=
  tryCatch
    (let* found := selectAppointment appointmentId in
     match found with
     | None => ret {| success := false; error := Some "Agendamento não encontrado" |}
     | Some appointment =>
         let appointmentDate :=
           parseISO env (Appointment.appointment_date (Appointment.row appointment) +:+ "T"
                         +:+ Appointment.appointment_time (Appointment.row appointment)) in
         let reminderDate := subDays env appointmentDate 1 in
         let* w := getWorld in
         if (now w <? reminderDate)%Z then
           match appointmentVariables appointment, Appointment.clients appointment with
           | Some variables, Some client =>
               let* _ := scheduleMessage (Client.phone client) "reminder_24h" reminderDate
                           variables (Some appointmentId) (Some establishmentId) in
               ret {| success := true; error := None |}
           | _, _ => throw "TypeError"
           end
         else ret {| success := true; error := None |}
     end)
    (λ _, ret {| success := false; error := Some "Erro interno" |}).

(** [sendAppointmentConfirmation]: the confirmation template, rendered
    and sent at once. *)
Definition sendAppointmentConfirmation (appointmentId : string) : M OpResult :=
  tryCatch
    (let* found := selectAppointment appointmentId in
     match found with
     | None => ret {| success := false; error := Some "Agendamento não encontrado" |}
     | Some appointment =>
         match appointmentVariables appointment, Appointment.clients appointment with
         | Some variables, Some client =>
             match findTemplate "confirmation" with
             | None => ret {| success := false;
                              error := Some "Template de confirmação não encontrado" |}
             | Some template =>
                 match renderTemplate (content template) variables with
                 | None => throw "SyntaxError"
                 | Some messageContent =>
                     let* result := MessageService.sendTextMessage env
                                      (Client.phone client) messageContent in
                     if MessageService.success result
                     then ret {| success := true; error := None |}
                     else ret {| success := false; error := Some "Falha ao enviar mensagem" |}
                 end
             end
         | _, _ => throw "TypeError"
         end
     end)
    (λ _, ret {| success := false; error := Some "Erro interno" |}).

End WithEnv.
End AutomaticMessageService.

(** ** Reply generation (openaiService) *)
Module OpenAIService.
Import Effects.

Record OpenAIResponse := { message : string; tokensUsed : Z }.

Section WithEnv.
Variable env : Env.

(** [generateResponse]: a failure of the completion call is logged and
    thrown again as a generic error. *)
Definition generateResponse (userMessage : string) (context : ConversationContext.t)
    (conversationHistory : list ChatMessage) : M OpenAIResponse :=
  tryCatch
    (let request := {| cr_userMessage := userMessage; cr_context := context;
                       cr_history := Js.sliceLast 10 conversationHistory |} in
     let* _ := modifyWorld (λ w, with_completion_calls (completion_calls w ++ [request])%list w) in
     match llm_completion env request with
     | CompletionThrows => throw "openai"
     | Completion content total_tokens =>
         ret {| message :=
                  match content with
                  | Some c => if String.eqb c "" then "Desculpe, não consegui gerar uma resposta." else c
                  | None => "Desculpe, não consegui gerar uma resposta."
                  end;
                tokensUsed := default 0%Z total_tokens |}
     end)
    (λ _, throw "Falha ao gerar resposta com IA").

End WithEnv.
End OpenAIService.

(** ** The orchestrator (messageProcessor) *)
Module MessageProcessor.
Import Effects.

Record ProcessingResult := {
  success : bool;
  response : option string;
  error : option string;
  messageId : option string }.

Definition nl : string := AutomaticMessageService.nl.

(** The row of a context as the object the handlers receive as [any]:
    its properties are the columns of the row. *)
Definition optStr (o : option string) : Js.Json :=
  match o with Some s => Js.JStr s | None => Js.JNull end.

Definition contextObject (toISO : Z -> string) (c : ConversationContext.t) : gmap string Js.Json :=
  <["id" := Js.JStr (ConversationContext.id c)]>
  (<["establishment_id" := Js.JStr (ConversationContext.establishment_id c)]>
  (<["client_phone" := Js.JStr (ConversationContext.client_phone c)]>
  (<["client_name" := optStr (ConversationContext.client_name c)]>
  (<["context_data" := Js.JObj (map_to_list (ConversationContext.context_data c))]>
  (<["last_interaction" := Js.JStr (toISO (ConversationContext.last_interaction c))]>
  (<["conversation_state" := Js.JStr (ConversationContext.conversation_state c)]>
  (<["intent" := optStr (ConversationContext.intent c)]>
  (<["sentiment" := optStr (ConversationContext.sentiment c)]>
  (<["created_at" := from_option (λ t, Js.JStr (toISO t)) Js.JNull (ConversationContext.created_at c)]>
  (<["updated_at" := from_option (λ t, Js.JStr (toISO t)) Js.JNull (ConversationContext.updated_at c)]>
   ∅)))))))))).

(** A joined appointment as the object stored in, and read back from,
    the context. *)
Definition appointmentObject (a : Appointment.joined) : Js.Json :=
  let r := Appointment.row a in
  Js.JObj
    [ ("id", Js.JStr (Appointment.id r));
      ("professional_id", Js.JStr (Appointment.professional_id r));
      ("client_id", Js.JStr (Appointment.client_id r));
      ("service_id", Js.JStr (Appointment.service_id r));
      ("appointment_date", Js.JStr (Appointment.appointment_date r));
      ("appointment_time", Js.JStr (Appointment.appointment_time r));
      ("status", Js.JStr (Appointment.status r));
      ("establishment_id", Js.JStr (Appointment.establishment_id r));
      ("clients",
        from_option (λ c, Js.JObj [("name", Js.JStr (Client.name c));
                                   ("phone", Js.JStr (Client.phone c))])
          Js.JNull (Appointment.clients a));
      ("professionals",
        from_option (λ p, Js.JObj [("name", Js.JStr (Professional.name p))])
          Js.JNull (Appointment.professionals a));
      ("services",
        from_option (λ s, Js.JObj [("name", Js.JStr (Service.name s));
                                   ("duration_minutes", Js.JNum (Service.duration_minutes s));
                                   ("price", Js.JNum (Service.price s))])
          Js.JNull (Appointment.services a)) ].

Definition getStatusEmoji (status : string) : string :=
  if String.eqb status "scheduled" then "📅"
  else if String.eqb status "confirmed" then "✅"
  else if String.eqb status "completed" then "✅"
  else if String.eqb status "cancelled" then "❌"
  else if String.eqb status "no_show" then "❌"
  else "📅".

(** [acc[name].push(time)], the groups in the order their names first
    appear. *)
Fixpoint addToGroup (name time : string) (groups : list (string * list string))
    : list (string * list string) :=
  match groups with
  | [] => [(name, [time])]
  | (n, times) :: r =>
      if String.eqb n name then (n, (times ++ [time])%list) :: r
      else (n, times) :: addToGroup name time r
  end.

Definition isCancellable (a : Appointment.joined) : bool :=
  AppointmentService.isActiveStatus (Appointment.status (Appointment.row a)).

(** The patches of the cancellation flow. *)
Definition awaitingPatch (candidates : list Appointment.joined) : gmap string Js.Json :=
  <["awaitingCancellation" := Js.JBool true]>
  (<["cancellableAppointments" := Js.JArr (appointmentObject <$> candidates)]> ∅).

Definition clearedPatch : gmap string Js.Json :=
  <["awaitingCancellation" := Js.JBool false]>
  (<["cancellableAppointments" := Js.JUndefined]> ∅).

Definition repromptText : string :=
  "Por favor, responda com o número do agendamento que deseja cancelar.".

Definition nothingToCancelText : string :=
  "Você não possui agendamentos que possam ser cancelados.".

Section WithEnv.
Variable env : Env.

Definition saveMessage (message : ProcessedMessage.t) : M unit :=
  let* error := dbCall env (InsertMessage (ProcessedMessage.clientPhone message)) in
  if error then throw "store"
  else modifyWorld (λ w, with_messages
         (messages w ++
          [{| StoredMessage.phone_number := ProcessedMessage.clientPhone message;
              StoredMessage.message_content := ProcessedMessage.messageContent message;
              StoredMessage.message_type := ProcessedMessage.messageType message;
              StoredMessage.timestamp := now w;
              StoredMessage.direction := StoredMessage.inbound;
              StoredMessage.external_message_id := None |}])%list w).

Definition saveOutboundMessage (phone content : string) (messageId : option string) : M unit :=
  tryCatch
    (let* error := dbCall env (InsertMessage phone) in
     if error then throw "store"
     else modifyWorld (λ w, with_messages
            (messages w ++
             [{| StoredMessage.phone_number := phone;
                 StoredMessage.message_content := Some content;
                 StoredMessage.message_type := "text";
                 StoredMessage.timestamp := now w;
                 StoredMessage.direction := StoredMessage.outbound;
                 StoredMessage.external_message_id := messageId |}])%list w))
    (λ _, ret tt).

(** [getConversationHistory]: the last [limit] stored messages of the
    phone, oldest first. *)
Definition getConversationHistory (phone : string) (limit : nat) : M (list ChatMessage) :=
  tryCatch
    (let* error := dbCall env (SelectMessages phone) in
     if error then throw "store"
     else
       let* w := getWorld in
       let data :=
         take limit
           (AppointmentService.sortBy
              (λ a b, (StoredMessage.timestamp b <=? StoredMessage.timestamp a)%Z)
              (filter (λ m, String.eqb (StoredMessage.phone_number m) phone = true) (messages w))) in
       ret ((λ msg, {| role := match StoredMessage.direction msg with
                               | StoredMessage.inbound => user
                               | StoredMessage.outbound => assistant
                               end;
                       content := StoredMessage.message_content msg |}) <$> rev data))
    (λ _, ret []).

(** The numbered entry of a cancellable appointment in the listing;
    [None] is the [TypeError] of a joined row that is [null]. *)
Definition cancelEntry (i : nat) (apt : Appointment.joined) : option string :=
  service ← Appointment.services apt;
  professional ← Appointment.professionals apt;
  let date := AppointmentService.formatDateForDisplay env
                (Appointment.appointment_date (Appointment.row apt)) in
  let time := AppointmentService.formatTimeForDisplay
                (Appointment.appointment_time (Appointment.row apt)) in
  Some (pretty (i + 1)%nat +:+ ". *" +:+ Service.name service +:+ "*" +:+ nl
        +:+ "📅 " +:+ date +:+ " às " +:+ time +:+ nl
        +:+ "👨‍💼 " +:+ Professional.name professional +:+ nl +:+ nl).

(** The loop [for (i = 0; i < Math.min(length, 3); i++)] over the entries. *)
Fixpoint cancelEntries (i : nat) (apts : list Appointment.joined) : option string :=
  match apts with
  | [] => Some ""
  | apt :: rest =>
      e ← cancelEntry i apt;
      r ← cancelEntries (S i) rest;
      Some (e +:+ r)
  end.

(** The listing flow shared by both handlers: the numbered candidates are
    shown and stored in the context. *)
Definition listCancellable (header : string) (establishmentId clientPhone : string) : M string :=
  let* appointments := AppointmentService.getClientAppointmentsByPhone env clientPhone
                         (DEFAULT_ESTABLISHMENT_ID env) in
  let cancellableAppointments := List.filter isCancellable appointments in
  match cancellableAppointments with
  | [] => ret nothingToCancelText
  | _ =>
      match cancelEntries 0 (take 3 cancellableAppointments) with
      | None => throw "TypeError"
      | Some entries =>
          let response :=
            header +:+ nl +:+ nl +:+ "Qual agendamento você gostaria de cancelar?" +:+ nl +:+ nl
            +:+ entries +:+ "Responda com o número do agendamento que deseja cancelar." in
          let* _ := ContextService.updateConversationContext env establishmentId clientPhone
                      (awaitingPatch (take 3 cancellableAppointments)) in
          ret response
      end
  end.

(** [message.messageContent?.toLowerCase() || ''] *)
Definition lowerText (message : ProcessedMessage.t) : string :=
  match ProcessedMessage.messageContent message with
  | Some c => toLowerCase env c
  | None => ""
  end.

(** [formatDateForDisplay] and [formatTimeForDisplay] of a value read
    from an [any] object ([substring] is missing on a value that is not a
    string, and the value itself is returned). *)
Definition displayDate (v : Js.Json) : string :=
  AppointmentService.formatDateForDisplay env (Js.jsToString v).

Definition displayTime (v : Js.Json) : string :=
  match v with
  | Js.JStr s => AppointmentService.formatTimeForDisplay s
  | _ => Js.jsToString v
  end.

(** [handleCancellationIntent] *)
Definition handleCancellationIntent (message : ProcessedMessage.t)
    (context : gmap string Js.Json) : M string :=
  tryCatch
    (let messageText := lowerText message in
     if Js.truthy (Js.get context "awaitingCancellation")
        && Js.truthy (Js.get context "cancellableAppointments")
     then
       let candidates := Js.get context "cancellableAppointments" in
       match Js.parseInt (Js.trim messageText), Js.jsProp candidates "length" with
       | None, _ => ret repromptText
       | Some choice, None => if (choice <? 1)%Z then ret repromptText else throw "TypeError"
       | Some choice, Some len =>
           if (choice <? 1)%Z || Js.jsGreater choice len then ret repromptText
           else
             let appointmentToCancel := Js.jsIndex candidates (choice - 1) in
             match Js.jsProp appointmentToCancel "id" with
             | None => throw "TypeError"
             | Some id =>
                 let* result := AppointmentService.cancelAppointment env (Js.jsToString id) in
                 let* _ := ContextService.updateConversationContext env
                             (Js.jsToString (Js.get context "establishment_id"))
                             (ProcessedMessage.clientPhone message) clearedPatch in
                 if AppointmentService.success result then
                   let date := displayDate (default Js.JUndefined
                                 (Js.jsProp appointmentToCancel "appointment_date")) in
                   let time := displayTime (default Js.JUndefined
                                 (Js.jsProp appointmentToCancel "appointment_time")) in
                   match Js.jsProp appointmentToCancel "professionals" ≫= (λ p, Js.jsProp p "name"),
                         Js.jsProp appointmentToCancel "services" ≫= (λ s, Js.jsProp s "name") with
                   | Some professional, Some service =>
                       ret ("❌ *Agendamento cancelado*" +:+ nl +:+ nl
                            +:+ "📅 " +:+ date +:+ " às " +:+ time +:+ nl
                            +:+ "👨‍💼 " +:+ Js.jsToString professional +:+ nl
                            +:+ "💼 " +:+ Js.jsToString service +:+ nl +:+ nl
                            +:+ "Seu agendamento foi cancelado com sucesso.")
                   | _, _ => throw "TypeError"
                   end
                 else ret "Erro ao cancelar agendamento. Tente novamente ou entre em contato conosco."
             end
       end
     else
       listCancellable "❌ *Cancelar agendamento*"
         (Js.jsToString (Js.get context "establishment_id"))
         (ProcessedMessage.clientPhone message))
    (λ _, ret "Desculpe, ocorreu um erro ao processar seu cancelamento. Tente novamente.").

(** The reply that lists today's open slots, grouped by professional. *)
Definition slotsReply (availableSlots : list AppointmentService.AvailableSlot) : string :=
  let slotsByProfessional :=
    fold_left (λ acc slot,
                 addToGroup (AppointmentService.professional_name slot)
                   (AppointmentService.formatTimeForDisplay (AppointmentService.time slot)) acc)
      availableSlots [] in
  "📅 *Horários disponíveis para hoje:*" +:+ nl +:+ nl
  +:+ fold_left (λ response '(professional, times),
                   response +:+ "👨‍💼 *" +:+ professional +:+ "*" +:+ nl
                   +:+ "⏰ " +:+ Js.joinWith ", " (take 6 times)
                   +:+ (if (6 <? length times)%nat then "..." else "") +:+ nl +:+ nl)
        slotsByProfessional ""
  +:+ "Para agendar, me informe:" +:+ nl
  +:+ "• Profissional desejado" +:+ nl
  +:+ "• Horário preferido" +:+ nl
  +:+ "• Serviço desejado".

(** One entry of the client's own bookings. *)
Definition bookingEntry (apt : Appointment.joined) : option string :=
  service ← Appointment.services apt;
  professional ← Appointment.professionals apt;
  let date := AppointmentService.formatDateForDisplay env
                (Appointment.appointment_date (Appointment.row apt)) in
  let time := AppointmentService.formatTimeForDisplay
                (Appointment.appointment_time (Appointment.row apt)) in
  Some (getStatusEmoji (Appointment.status (Appointment.row apt))
        +:+ " *" +:+ Service.name service +:+ "*" +:+ nl
        +:+ "📅 " +:+ date +:+ " às " +:+ time +:+ nl
        +:+ "👨‍💼 " +:+ Professional.name professional +:+ nl
        +:+ "💰 R$ " +:+ AutomaticMessageService.toFixed2 (Service.price service) +:+ nl +:+ nl).

Fixpoint bookingEntries (apts : list Appointment.joined) : option string :=
  match apts with
  | [] => Some ""
  | apt :: rest =>
      e ← bookingEntry apt;
      r ← bookingEntries rest;
      Some (e +:+ r)
  end.

(** [handleSchedulingIntent]: the sub-case is chosen by keywords of the
    message text. *)
Definition handleSchedulingIntent (message : ProcessedMessage.t)
    (context : gmap string Js.Json) : M string :=
  tryCatch
    (let messageText := lowerText message in
     if Js.includes messageText "horário" || Js.includes messageText "disponível"
        || Js.includes messageText "vago"
     then
       let* availableSlots := AppointmentService.getAvailableSlots env
                                (DEFAULT_ESTABLISHMENT_ID env) None None in
       match availableSlots with
       | [] => ret "Não há horários disponíveis para hoje. Gostaria de verificar outro dia?"
       | _ => ret (slotsReply availableSlots)
       end
     else if Js.includes messageText "meus agendamentos" || Js.includes messageText "consultar"
             || Js.includes messageText "ver agendamento"
     then
       let* appointments := AppointmentService.getClientAppointmentsByPhone env
                              (ProcessedMessage.clientPhone message)
                              (DEFAULT_ESTABLISHMENT_ID env) in
       match appointments with
       | [] => ret "Você não possui agendamentos. Gostaria de fazer um novo agendamento?"
       | _ =>
           match bookingEntries (take 5 appointments) with
           | None => throw "TypeError"
           | Some entries =>
               ret ("📋 *Seus agendamentos:*" +:+ nl +:+ nl +:+ entries
                    +:+ (if (5 <? length appointments)%nat
                         then "... e mais " +:+ pretty (length appointments - 5)%nat
                              +:+ " agendamento(s)"
                         else ""))
           end
       end
     else if Js.includes messageText "cancelar" || Js.includes messageText "desmarcar"
     then
       listCancellable "❌ *Cancelar agendamento:*"
         (Js.jsToString (Js.get context "establishment_id"))
         (ProcessedMessage.clientPhone message)
     else if Js.includes messageText "confirmar" || Js.includes messageText "confirmo"
     then
       let* appointments := AppointmentService.getClientAppointmentsByPhone env
                              (ProcessedMessage.clientPhone message)
                              (DEFAULT_ESTABLISHMENT_ID env) in
       match List.filter (λ apt, String.eqb (Appointment.status (Appointment.row apt)) "scheduled")
               appointments with
       | [] => ret "Não há agendamentos pendentes de confirmação."
       | appointment :: _ =>
           let* result := AppointmentService.updateAppointmentStatus env
                            (Appointment.id (Appointment.row appointment)) "confirmed" in
           if AppointmentService.success result then
             let date := AppointmentService.formatDateForDisplay env
                           (Appointment.appointment_date (Appointment.row appointment)) in
             let time := AppointmentService.formatTimeForDisplay
                           (Appointment.appointment_time (Appointment.row appointment)) in
             let* _ := tryCatch
                         (let* _ := AutomaticMessageService.scheduleAppointmentReminders env
                                      (Appointment.id (Appointment.row appointment))
                                      (Js.jsToString (Js.get context "establishment_id")) in
                          ret tt)
                         (λ _, ret tt) in
             match Appointment.professionals appointment, Appointment.services appointment with
             | Some professional, Some service =>
                 ret ("✅ *Agendamento confirmado!*" +:+ nl +:+ nl
                      +:+ "📅 " +:+ date +:+ " às " +:+ time +:+ nl
                      +:+ "👨‍💼 " +:+ Professional.name professional +:+ nl
                      +:+ "💼 " +:+ Service.name service +:+ nl +:+ nl
                      +:+ "Obrigado! Nos vemos em breve! 😊")
             | _, _ => throw "TypeError"
             end
           else ret "Erro ao confirmar agendamento. Tente novamente ou entre em contato conosco."
       end
     else
       ret ("📅 *Agendamentos*" +:+ nl +:+ nl +:+ "Eu posso ajudar você com:" +:+ nl +:+ nl
            +:+ "• 🔍 Consultar horários disponíveis" +:+ nl
            +:+ "• 📋 Ver seus agendamentos" +:+ nl
            +:+ "• ✅ Confirmar agendamentos" +:+ nl
            +:+ "• ❌ Cancelar agendamentos" +:+ nl +:+ nl
            +:+ "O que você gostaria de fazer?"))
    (λ _, ret "Desculpe, ocorreu um erro ao processar sua solicitação de agendamento. Tente novamente.").

Definition with_intent (i : string) (c : ConversationContext.t) : ConversationContext.t :=
  {| ConversationContext.id := ConversationContext.id c;
     ConversationContext.establishment_id := ConversationContext.establishment_id c;
     ConversationContext.client_phone := ConversationContext.client_phone c;
     ConversationContext.client_name := ConversationContext.client_name c;
     ConversationContext.context_data := ConversationContext.context_data c;
     ConversationContext.last_interaction := ConversationContext.last_interaction c;
     ConversationContext.conversation_state := ConversationContext.conversation_state c;
     ConversationContext.intent := Some i;
     ConversationContext.sentiment := ConversationContext.sentiment c;
     ConversationContext.created_at := ConversationContext.created_at c;
     ConversationContext.updated_at := ConversationContext.updated_at c |}.

Definition failure (e : string) : ProcessingResult :=
  {| success := false; response := None; error := Some e; messageId := None |}.

(** The reply of a turn, by the resolved intent. *)
Definition replyFor (intent : Intent.IntentType) (message : ProcessedMessage.t)
    (messageContent : string) (context : ConversationContext.t)
    (conversationHistory : list ChatMessage) : M string :=
  match intent with
  | Intent.scheduling => handleSchedulingIntent message (contextObject (toISOString env) context)
  | Intent.cancel => handleCancellationIntent message (contextObject (toISOString env) context)
  | _ =>
      let* aiResponse := OpenAIService.generateResponse env messageContent context
                           conversationHistory in
      ret (OpenAIService.message aiResponse)
  end.

Definition textOnlyResult : ProcessingResult :=
  {| success := true;
     response := Some "Mensagem recebida. No momento, só posso responder mensagens de texto.";
     error := None; messageId := None |}.

(** The part of [processMessage] that follows the loading of the context:
    welcome a new client, resolve the intent, produce the reply, send it
    and record the exchange. *)
Definition answerTurn (message : ProcessedMessage.t) (messageContent : string)
    (context : ConversationContext.t) : M ProcessingResult :=
  let isNewClient :=
    match ConversationContext.context_data context !! "messageCount" with
    | Some (Js.JNum 0) => true
    | _ => false
    end in
  let* _ := if isNewClient
            then let* _ := AutomaticMessageService.sendWelcomeMessage env
                             (ProcessedMessage.clientPhone message) in ret tt
            else ret tt in
  let* intent := IntentService.detectIntent env messageContent (Some context) in
  let* context :=
    if bool_decide (Some (IntentService.intentName intent) = ConversationContext.intent context)
    then ret context
    else
      let* _ := ContextService.updateConversationContext env
                  (ConversationContext.establishment_id context)
                  (ConversationContext.client_phone context)
                  {[ "intent" := Js.JStr (IntentService.intentName intent) ]} in
      ret (with_intent (IntentService.intentName intent) context) in
  let* conversationHistory :=
    getConversationHistory (ProcessedMessage.clientPhone message) 10 in
  let* responseMessage :=
    replyFor intent message messageContent context conversationHistory in
  let* sendResult := MessageService.sendTextMessage env
                       (ProcessedMessage.clientPhone message) responseMessage in
  if MessageService.success sendResult then
    let* _ := saveOutboundMessage (ProcessedMessage.clientPhone message)
                responseMessage (MessageService.messageId sendResult) in
    let* _ := ContextService.updateConversationContext env
                (ConversationContext.establishment_id context)
                (ConversationContext.client_phone context)
                (<["lastMessage" := Js.JStr messageContent]>
                 {[ "lastResponse" := Js.JStr responseMessage ]}) in
    ret {| success := true; response := Some responseMessage; error := None;
           messageId :=
             match MessageService.messageId sendResult with
             | Some m => if String.eqb m "" then None else Some m
             | None => None
             end |}
  else ret (failure "Falha ao enviar resposta").

(** [processMessage]: one turn of the conversation.  (The in-memory
    counters and the metric and error tables of the monitoring service are
    not part of the state; its calls never throw.) *)
Definition processMessage (message : ProcessedMessage.t) : M ProcessingResult :=
  tryCatch
    (let* _ := saveMessage message in
     match ProcessedMessage.messageContent message with
     | Some messageContent =>
         if negb (String.eqb (ProcessedMessage.messageType message) "text")
            || String.eqb messageContent ""
         then ret textOnlyResult
         else
           let* found := ContextService.getConversationContext env "default"
                           (ProcessedMessage.clientPhone message) in
           match found with
           | None => ret (failure "Falha ao obter contexto da conversação")
           | Some context => answerTurn message messageContent context
           end
     | None => ret textOnlyResult
     end)
    (λ _, ret (failure "Falha no processamento da mensagem")).

End WithEnv.
End MessageProcessor.

(** ** Beyond the specification: the rest of the services *)

(** ** Optional strings, as the routes and the middleware read them *)
Module JsString.

(** [a || b] for an optional string [a]: [undefined] and the empty string
    are falsy. *)
Definition orElse (a : option string) (b : string) : string :=
  match a with
  | Some s => if String.eqb s "" then b else s
  | None => b
  end.

(** [a] as a condition. *)
Definition nonEmpty (a : option string) : bool :=
  match a with
  | Some s => negb (String.eqb s "")
  | None => false
  end.

(** [s.split(sep)[0]] for a one-character separator: the text before its
    first occurrence, the whole string when there is none. *)
Fixpoint beforeChar (sep : ascii) (s : string) : string :=
  match s with
  | EmptyString => EmptyString
  | String c s' => if Ascii.eqb c sep then EmptyString else String c (beforeChar sep s')
  end.

End JsString.

(** ** Rate limiting (middleware/rateLimiter) *)
Module RateLimiter.

(** A record of the store: the requests counted in the current window
    and the instant the window ends. *)
Record Entry := { count : Z; resetTime : Z }.

(** What the middleware reads of a request. *)
Record Request := { ip : option string; remoteAddress : option string }.

Inductive Outcome :=
  | Next                          (* [next()] *)
  | TooManyRequests (retryAfter : Z).   (* status 429 *)

(** The three rate-limit headers, as the numbers they are rendered from,
    and what became of the request. *)
Record Response := {
  limit : Z;
  remaining : Z;
  reset : Z;
  outcome : Outcome }.

(** [getKey]: the client is known by its address. *)
Definition getKey (req : Request) : string :=
  "rate_limit:" +:+ JsString.orElse (ip req) (JsString.orElse (remoteAddress req) "unknown").

(** [Math.ceil(a / 1000)] *)
Definition ceilSeconds (a : Z) : Z := (- ((- a) / 1000))%Z.

Section Limiter.
Variables windowMs maxRequests : Z.

(** [cleanup]: the records whose window ended before [now] are deleted. *)
Definition cleanup (now : Z) (store : gmap string Entry) : gmap string Entry :=
  filter (λ kv, ¬ (resetTime kv.2 < now)%Z) store.

(** The record the middleware works on: a fresh one when there is none
    or its window has ended. *)
Definition currentEntry (key : string) (now : Z) (store : gmap string Entry) : Entry :=
  match store !! key with
  | Some e => if (resetTime e <? now)%Z
              then {| count := 0; resetTime := (now + windowMs)%Z |}
              else e
  | None => {| count := 0; resetTime := (now + windowMs)%Z |}
  end.

(** [middleware] at instant [now = Date.now()]. *)
Definition middleware (req : Request) (now : Z) (store : gmap string Entry)
    : gmap string Entry * Response :=
  let key := getKey req in
  let record := currentEntry key now store in
  let record := {| count := (count record + 1)%Z; resetTime := resetTime record |} in
  (<[key := record]> store,
   {| limit := maxRequests;
      remaining := Z.max 0 (maxRequests - count record);
      reset := resetTime record;
      outcome :=
        if (maxRequests <? count record)%Z
        then TooManyRequests (ceilSeconds (resetTime record - now))
        else Next |}).

End Limiter.
End RateLimiter.

(** ** The webhook route (routes/webhook) *)
Module Webhook.
Import Effects.

(** A media part of a message; a [fileName] is read of documents only. *)
Record Media := { caption : option string; fileName : option string }.

(** The [message] object of a webhook that passed [UazapiWebhookSchema]. *)
Record MessageBody := {
  conversation : option string;
  extendedTextMessage : option string;      (* its [text] *)
  imageMessage : option Media;
  audioMessage : bool;                      (* the object is there *)
  videoMessage : option Media;
  documentMessage : option Media }.

(** [extractMessageContent]: the content and the type of a message. *)
Definition extractMessageContent (message : MessageBody) : string * string :=
  if JsString.nonEmpty (conversation message)
  then (default "" (conversation message), "text")
  else if JsString.nonEmpty (extendedTextMessage message)
  then (default "" (extendedTextMessage message), "text")
  else match imageMessage message with
  | Some image => (JsString.orElse (caption image) "[Imagem]", "image")
  | None =>
  if audioMessage message then ("[Áudio]", "audio")
  else match videoMessage message with
  | Some video => (JsString.orElse (caption video) "[Vídeo]", "video")
  | None =>
  match documentMessage message with
  | Some document =>
      (JsString.orElse (caption document)
         ("[Documento: " +:+ JsString.orElse (fileName document) "arquivo" +:+ "]"),
       "document")
  | None => ("[Mensagem não suportada]", "unknown")
  end end end.

(** [extractPhoneNumber]: the part of the address before the [@];
    [None] is the error thrown when it is empty. *)
Definition extractPhoneNumber (remoteJid : string) : option string :=
  let phone := JsString.beforeChar "@" remoteJid in
  if String.eqb phone "" then None else Some phone.

(** A webhook that passed the schema (the timestamp an integer number of
    seconds). *)
Record WebhookData := {
  instanceName : string;
  remoteJid : string;
  fromMe : bool;
  id : string;
  messageTimestamp : Z;
  pushName : option string;
  message : MessageBody }.

(** A row of [uazapi_configurations], as far as the route reads it. *)
Record InstanceConfig := {
  instance_name : string;
  status : string;
  establishment_id : string;
  ai_enabled : bool }.

(** A row of [whatsapp_messages]. *)
Record WhatsappMessage := {
  message_id : string;
  wm_establishment_id : string;
  client_phone : string;
  client_name : string;
  message_content : string;
  message_type : string;
  created_at : Z }.

(** What the route acts on: the tables of the services, its own two
    tables. *)
Record State := {
  world : World;
  uazapi_configurations : list InstanceConfig;
  whatsapp_messages : list WhatsappMessage }.

Inductive Response :=
  | Ignored                                        (* 200, [status: 'ignored'] *)
  | NotConfigured                                  (* 404 *)
  | ServerError                                    (* 500 *)
  | Accepted (messageId : string) (processed : bool).   (* 200, [status: 'success'] *)

(** The instants a [Date] can hold, in milliseconds. *)
Definition validTime (ms : Z) : bool := (Z.abs ms <=? 8640000000000000)%Z.

Section Route.
Variable env : Env.
(** How the store answers the route's two requests, by instance name and
    by message id. *)
Variable selectConfig : string -> DbOutcome.
Variable insertMessage : string -> DbOutcome.

(** [getInstanceConfig]: the one connected instance of the name, [None]
    ([null]) when the store fails or has not exactly one. *)
Definition getInstanceConfig (name : string) (configs : list InstanceConfig)
    : option InstanceConfig :=
  match selectConfig name with
  | DbOk =>
      match filter (λ c, instance_name c = name ∧ status c = "connected") configs with
      | [c] => Some c
      | _ => None
      end
  | _ => None
  end.

(** The handler of [POST /webhook], after the token check and the schema. *)
Definition post (webhookData : WebhookData) (st : State) : Response * State :=
  if fromMe webhookData then (Ignored, st)
  else
    match getInstanceConfig (instanceName webhookData) (uazapi_configurations st) with
    | None => (NotConfigured, st)
    | Some instanceConfig =>
        let '(content, type) := extractMessageContent (message webhookData) in
        match extractPhoneNumber (remoteJid webhookData) with
        | None => (ServerError, st)
        | Some clientPhone =>
            let clientName := JsString.orElse (pushName webhookData) "Cliente" in
            let processedMessage :=
              {| ProcessedMessage.messageId := id webhookData;
                 ProcessedMessage.clientPhone := clientPhone;
                 ProcessedMessage.messageContent := Some content;
                 ProcessedMessage.messageType := type |} in
            if negb (validTime (messageTimestamp webhookData * 1000)) then (ServerError, st)
            else
              match insertMessage (id webhookData) with
              | DbOk =>
                  let saved :=
                    whatsapp_messages st ++
                    [{| message_id := id webhookData;
                        wm_establishment_id := establishment_id instanceConfig;
                        client_phone := clientPhone;
                        client_name := clientName;
                        message_content := content;
                        message_type := type;
                        created_at := messageTimestamp webhookData * 1000 |}] in
                  if ai_enabled instanceConfig then
                    (Accepted (id webhookData) true,
                     {| world := (MessageProcessor.processMessage env processedMessage
                                    (world st)).2;
                        uazapi_configurations := uazapi_configurations st;
                        whatsapp_messages := saved |})
                  else
                    (Accepted (id webhookData) false,
                     {| world := world st;
                        uazapi_configurations := uazapi_configurations st;
                        whatsapp_messages := saved |})
              | _ => (ServerError, st)
              end
        end
    end.

End Route.
End Webhook.

(** ** Sending with retries (messageService) *)
Module MessageRetry.
Import Effects MessageService.

Section WithEnv.
Variable env : Env.




End WithEnv.
End MessageRetry.

(** ** Housekeeping of the contexts (contextService) *)
Module ContextAdmin.
Import Effects.

(** The row a closing update leaves. *)
Definition closedAt (t : Z) (c : ConversationContext.t) : ConversationContext.t :=
  {| ConversationContext.id := ConversationContext.id c;
     ConversationContext.establishment_id := ConversationContext.establishment_id c;
     ConversationContext.client_phone := ConversationContext.client_phone c;
     ConversationContext.client_name := ConversationContext.client_name c;
     ConversationContext.context_data := ConversationContext.context_data c;
     ConversationContext.last_interaction := ConversationContext.last_interaction c;
     ConversationContext.conversation_state := "closed";
     ConversationContext.intent := ConversationContext.intent c;
     ConversationContext.sentiment := ConversationContext.sentiment c;
     ConversationContext.created_at := ConversationContext.created_at c;
     ConversationContext.updated_at := Some t |}.

(** The rows the closing update selects: active contexts of the
    establishment whose last interaction is before the cutoff. *)
Definition isInactive (establishmentId : string) (cutoffTime : Z) (c : ConversationContext.t)
    : bool :=
  String.eqb (ConversationContext.establishment_id c) establishmentId
  && String.eqb (ConversationContext.conversation_state c) "active"
  && (ConversationContext.last_interaction c <? cutoffTime)%Z.

Section WithStore.
(** [d.setHours(d.getHours() - h)]: the instant [h] hours of the local
    clock before an instant; [None] when no [Date] can hold it, and
    [toISOString] throws. *)
Variable hoursBefore : Z -> Z -> option Z.
(** How the store answers the requests of this module. *)
Variable store : DbOutcome.

(** [closeInactiveContexts], for a whole number of hours: the number of
    contexts closed. *)
Definition closeInactiveContexts (establishmentId : string) (inactivityHours : Z) : M nat :=
  tryCatch
    (let* w := getWorld in
     match hoursBefore (now w) inactivityHours with
     | None => throw "RangeError"
     | Some cutoffTime =>
         match store with
         | DbThrows => throw "store"
         | DbError => ret 0
         | DbOk =>
             let data :=
               filter (λ kc, isInactive establishmentId cutoffTime kc.2 = true)
                 (conversation_contexts w) in
             let* _ := modifyWorld (λ w, with_conversation_contexts
                         ((λ c, if isInactive establishmentId cutoffTime c
                                then closedAt (now w) c else c) <$> conversation_contexts w) w) in
             ret (size data)
         end
     end)
    (λ _, ret 0).

(** [getActiveContexts]: the active contexts of the establishment, the
    most recent first, at most [limit] of them. *)
Definition getActiveContexts (establishmentId : string) (limit : nat)
    : M (list ConversationContext.t) :=
  tryCatch
    (let* w := getWorld in
     match store with
     | DbThrows => throw "store"
     | DbError => ret []
     | DbOk =>
         ret (take limit
                (AppointmentService.sortBy
                   (λ a b, (ConversationContext.last_interaction b
                            <=? ConversationContext.last_interaction a)%Z)
                   (filter (λ c, String.eqb (ConversationContext.establishment_id c) establishmentId
                                 && String.eqb (ConversationContext.conversation_state c) "active"
                                 = true)
                      (map_to_list (conversation_contexts w)).*2)))
     end)
    (λ _, ret []).

End WithStore.
End ContextAdmin.

(** ** Booking (appointmentService, automaticMessageService) *)
Module Booking.
Import Effects.

(** The data of a new appointment.  (The two amounts are validated as
    numbers and stored with the row; no function reads them.) *)
Record AppointmentData := {
  professional_id : string;
  client_id : string;
  service_id : string;
  appointment_date : string;
  appointment_time : string;
  total_price : Z;
  commission_value : Z;
  establishment_id : string }.

Record CreateResult := {
  success : bool;
  data : option Appointment.t;
  error : option string }.

(** The two requests of this module to the store. *)
Inductive StoreOp :=
  | SelectSlot (professionalId date time : string)
  | InsertAppointment (appointmentData : AppointmentData).

Section WithEnv.
Variable env : Env.
Variable store : StoreOp -> DbOutcome.

(** [scheduleFollowUp]: the follow-up template, stored for the day after
    the appointment; the result of storing it is not looked at. *)
Definition scheduleFollowUp (appointmentId establishmentId : string)
    : M AutomaticMessageService.OpResult :=
  tryCatch
    (let* found := AutomaticMessageService.selectAppointment env appointmentId in
     match found with
     | None => ret {| AutomaticMessageService.success := false;
                      AutomaticMessageService.error := Some "Agendamento não encontrado" |}
     | Some appointment =>
         let appointmentDate :=
           parseISO env (Appointment.appointment_date (Appointment.row appointment) +:+ "T"
                         +:+ Appointment.appointment_time (Appointment.row appointment)) in
         let followUpDate := addDays env appointmentDate 1 in
         match Appointment.clients appointment, Appointment.services appointment,
               Appointment.professionals appointment with
         | Some client, Some service, Some professional =>
             let variables := [ ("client_name", Client.name client);
                                ("service_name", Service.name service);
                                ("professional_name", Professional.name professional) ] in
             let* _ := AutomaticMessageService.scheduleMessage env (Client.phone client)
                         "follow_up" followUpDate variables
                         (Some appointmentId) (Some establishmentId) in
             ret {| AutomaticMessageService.success := true;
                    AutomaticMessageService.error := None |}
         | _, _, _ => throw "TypeError"
         end
     end)
    (λ _, ret {| AutomaticMessageService.success := false;
                 AutomaticMessageService.error := Some "Erro interno" |}).

(** The appointments that hold a slot. *)
Definition holds (professionalId date time : string) (a : Appointment.t) : bool :=
  String.eqb (Appointment.professional_id a) professionalId
  && String.eqb (Appointment.appointment_date a) date
  && String.eqb (Appointment.appointment_time a) time
  && AppointmentService.isActiveStatus (Appointment.status a).

(** [checkAvailability]: no scheduled or confirmed appointment holds the
    slot; [false] when the store fails. *)
Definition checkAvailability (professionalId date time : string) : M bool :=
  tryCatch
    (match store (SelectSlot professionalId date time) with
     | DbThrows => throw "store"
     | DbError => ret false
     | DbOk =>
         let* w := getWorld in
         let data := take 1 (List.filter (holds professionalId date time) (appointments w)) in
         ret (length data =? 0)%nat
     end)
    (λ _, ret false).

(** [AppointmentSchema.parse]: the four identifiers must be UUIDs. *)
Definition validData (d : AppointmentData) : bool :=
  zodUuid env (professional_id d) && zodUuid env (client_id d)
  && zodUuid env (service_id d) && zodUuid env (establishment_id d).

Definition failed (e : string) : CreateResult :=
  {| success := false; data := None; error := Some e |}.

(** The row the store returns for an insert. *)
Definition newRow (d : AppointmentData) (w : World) : Appointment.t :=
  {| Appointment.id := uuid env (fresh w);
     Appointment.professional_id := professional_id d;
     Appointment.client_id := client_id d;
     Appointment.service_id := service_id d;
     Appointment.appointment_date := appointment_date d;
     Appointment.appointment_time := appointment_time d;
     Appointment.status := "scheduled";
     Appointment.establishment_id := establishment_id d |}.

(** [createAppointment] *)
Definition createAppointment (appointmentData : AppointmentData) : M CreateResult :=
  tryCatch
    (if negb (validData appointmentData) then throw "ZodError"
     else
       let* isAvailable := checkAvailability (professional_id appointmentData)
                             (appointment_date appointmentData)
                             (appointment_time appointmentData) in
       if negb isAvailable then ret (failed "Horário não disponível para agendamento")
       else
         match store (InsertAppointment appointmentData) with
         | DbThrows => throw "store"
         | DbError => ret (failed "Erro interno ao criar agendamento")
         | DbOk =>
             let* w := getWorld in
             let data := newRow appointmentData w in
             let* _ := modifyWorld (λ w, with_fresh (S (fresh w))
                         (with_appointments (appointments w ++ [data])%list w)) in
             let* _ := tryCatch
                         (let* _ := AutomaticMessageService.sendAppointmentConfirmation env
                                      (Appointment.id data) in
                          let* _ := scheduleFollowUp (Appointment.id data)
                                      "appointment_followup" in
                          ret tt)
                         (λ _, ret tt) in
             ret {| success := true; data := Some data; error := None |}
         end)
    (λ e, ret (failed (if String.eqb e "ZodError" then "Dados inválidos" else "Erro interno"))).

End WithEnv.
End Booking.

(* ===================================================================== *)
(** * Part II: the vocabulary of the properties                           *)
(* ===================================================================== *)

(** ** Keyword stage *)
Section KeywordStageTerms.
Import Intent.

(** The specification's reading of a score: how many keywords of the
    intent occur in the normalized text. *)
Definition keywordsOf (i : IntentType) : list string :=
  default [] (snd <$> List.find (λ e, bool_decide (fst e = i)) INTENT_KEYWORDS).

Definition countHits (normalized : string) (keywords : list string) : nat :=
  length (List.filter (Js.includes normalized) keywords).

Definition keywordHits (normalized : string) (i : IntentType) : nat :=
  countHits normalized (keywordsOf i).

(** The position of an intent in the declaration order. *)
Definition declarationIndex (i : IntentType) : nat :=
  match i with
  | greeting => 0 | scheduling => 1 | reschedule => 2 | cancel => 3
  | services_info => 4 | prices_info => 5 | availability => 6 | confirmation => 7
  | complaint => 8 | compliment => 9 | farewell => 10 | help => 11 | other => 12
  end.

(** The score a table of keywords gives an intent. *)
Fixpoint tableHits (table : list (IntentType * list string)) (normalized : string)
    (j : IntentType) : nat :=
  match table with
  | [] => 0
  | (i, keywords) :: rest =>
      (if decide (j = i) then countHits normalized keywords else 0)
      + tableHits rest normalized j
  end.

End KeywordStageTerms.

(** ** LLM stage *)
Section LlmGateTerms.
Import Intent IntentService Effects.

(** The intent the LLM stage settles on, given the oracle's reply. *)
Definition analysisIntent (suggested : IntentType) (reply : AnalysisReply) : IntentType :=
  match reply with
  | AnalysisObject a => default other (pa_intent a ≫= intentOfString)
  | _ => suggested
  end.

(** The prompt of the LLM stage. *)
Definition promptOf (message : string) (suggested : IntentType)
    (context : option ConversationContext.t) : AnalysisPrompt :=
  {| ap_message := message; ap_suggested := suggested; ap_context := context |}.

(** The LLM stage as a function of what the LLM answers: the keyword
    suggestion stands when the prompt cannot be built or the answer is
    unusable. *)
Definition stageIntent (llm : AnalysisPrompt -> AnalysisReply) (message : string)
    (suggested : IntentType) (context : option ConversationContext.t) : IntentType :=
  if historySliceable context
  then analysisIntent suggested (llm (promptOf message suggested context))
  else suggested.

End LlmGateTerms.

(** ** Availability *)
Section AvailabilityTerms.
Import Effects AppointmentService.
Variable env : Env.

(** The date an availability query is about. *)
Definition targetDateOf (date : option string) (w : World) : string :=
  match date with
  | Some d => if String.eqb d "" then formatToday env (now w) else d
  | None => formatToday env (now w)
  end.

End AvailabilityTerms.

(** ** Templates *)
Section RenderingTerms.
Import Effects AutomaticMessageService.

(** A template read as text and placeholders. *)
Inductive Token :=
  | Text (s : string)
  | Hole (name : string).

Definition tokenText (t : Token) : string :=
  match t with
  | Text s => s
  | Hole name => placeholder name
  end.

Fixpoint flatten (tokens : list Token) : string :=
  match tokens with
  | [] => ""
  | t :: rest => tokenText t +:+ flatten rest
  end.

Definition noChar (c : ascii) (s : string) : bool :=
  allChars (λ x, negb (Ascii.eqb x c)) s.

(** In a well-formed template every opening brace starts a placeholder
    whose name has no brace. *)
Definition wellFormedToken (t : Token) : bool :=
  match t with
  | Text s => noChar "{" s
  | Hole name => noChar "{" name && noChar "}" name
  end.

Definition wellFormed (tokens : list Token) : bool := forallb wellFormedToken tokens.

(** A variable map whose keys are literal names and whose values bring
    neither an opening brace nor a dollar sign. *)
Definition plainVariables (variables : list (string * string)) : bool :=
  forallb (λ kv, literalKey kv.1 && noChar "{" kv.2 && noChar "$" kv.2) variables.

(** [variables[name]] *)
Fixpoint lookupVariable (name : string) (variables : list (string * string)) : option string :=
  match variables with
  | [] => None
  | (k, v) :: rest => if String.eqb k name then Some v else lookupVariable name rest
  end.

(** The specification's rendering: a placeholder whose name is a key is
    replaced by the value, every other token is kept. *)
Definition fill (variables : list (string * string)) (t : Token) : Token :=
  match t with
  | Text s => Text s
  | Hole name =>
      match lookupVariable name variables with
      | Some v => Text v
      | None => Hole name
      end
  end.

Definition fillOne (key value : string) (t : Token) : Token :=
  match t with
  | Text s => Text s
  | Hole name => if String.eqb key name then Text value else Hole name
  end.

End RenderingTerms.

(** ** The sweep *)
Section SweepTerms.
Import Effects AutomaticMessageService.

(** Whether the gateway accepts the text of a scheduled message. *)
Definition delivered (env : Env) (m : ScheduledMessage.t) : bool :=
  match gateway env (MessageService.formatPhoneNumber (ScheduledMessage.client_phone m))
          (ScheduledMessage.message_content m) with
  | GatewayAccepted _ => true
  | _ => false
  end.

Definition payload (m : ScheduledMessage.t) : string * string :=
  (MessageService.formatPhoneNumber (ScheduledMessage.client_phone m),
   ScheduledMessage.message_content m).

Definition isDue (t : Z) (m : ScheduledMessage.t) : Prop :=
  ScheduledMessage.status m = ScheduledMessage.pending ∧ (ScheduledMessage.scheduled_for m <= t)%Z.


(** What the updates of a run over [l], started at instant [t], make of a
    stored row. *)
Fixpoint settleRow (env : Env) (l : list ScheduledMessage.t) (t : Z)
    (r : ScheduledMessage.t) : ScheduledMessage.t :=
  match l with
  | [] => r
  | m :: rest =>
      settleRow env rest (t + 1000)
        (if String.eqb (ScheduledMessage.id r) (ScheduledMessage.id m)
         then ScheduledMessage.with_status
                (if delivered env m then ScheduledMessage.sent else ScheduledMessage.failed)
                (if delivered env m then Some t else None) r
         else r)
  end.

End SweepTerms.

(** ** Context store *)
Section ContextStoreTerms.
Import Effects ContextService.
Variable env : Env.


Definition historyOf (c : ConversationContext.t) : list Js.Json :=
  match ConversationContext.context_data c !! "lastTopics" with
  | Some (Js.JArr topics) => topics
  | _ => []
  end.


Definition historyAt (w : World) (key : string * string) : list Js.Json :=
  from_option historyOf [] (conversation_contexts w !! key).


(** The context an update starts from: the stored row of the key, or the
    row that is created for it. *)
Definition currentOf (establishmentId clientPhone : string) (w : World) : ConversationContext.t :=
  default (newContext env establishmentId clientPhone None w)
    (conversation_contexts w !! (establishmentId, clientPhone)).


(** A patch that records an exchange: it carries the inbound message and
    does not overwrite the history itself. *)
Definition appendsExchange (u : gmap string Js.Json) : Prop :=
  Js.truthy (Js.get u "lastMessage") = true ∧ u !! "lastTopics" = None.

(** Each call of a sequence of updates leaves at most ten entries; a call
    that succeeds appends its exchange to the entries there were and keeps
    the last ten of them, in order and in their stored form. *)
Fixpoint historyStaysBounded (key : string * string) (patches : list (gmap string Js.Json))
    (w : World) : Prop :=
  match patches with
  | [] => True
  | u :: rest =>
      let run := updateConversationContext env key.1 key.2 u w in
      let entry := topicEntry (toISOString env (now w)) u in
      length (historyAt run.2 key) <= 10
      ∧ (run.1 = Ok true ->
         historyAt run.2 key
         = Js.storedElement <$> Js.sliceLast 10 (historyAt w key ++ [entry]))
      ∧ (run.1 = Ok true -> length (historyAt w key) = 10 ->
         historyAt run.2 key = Js.storedElement <$> (drop 1 (historyAt w key) ++ [entry]))
      ∧ historyStaysBounded key rest run.2
  end.

End ContextStoreTerms.

(** ** Frames *)
Section FramesTerms.
Import Effects.

(** A computation that leaves an observation of the world as it was. *)
Definition keeps {A B} (obs : World -> B) (m : M A) : Prop :=
  ∀ w, obs (m w).2 = obs w.

(** A computation that never throws. *)
Definition total {A} (m : M A) : Prop :=
  ∀ w, ∃ a, (m w).1 = Ok a.

End FramesTerms.

(** ** The turn *)
Section OrchestratorTerms.
Import Effects Intent IntentService MessageProcessor.
Variable env : Env.

(** The intent [detectIntent] resolves: the keyword stage's when it is
    confident, otherwise what the LLM stage settles on. *)
Definition resolvedIntent (message : string) (context : option ConversationContext.t)
    : IntentType :=
  let kr := detectIntentByKeywords (toLowerCase env) message in
  if highConfidence kr then kw_intent kr
  else stageIntent (llm_analysis env) message (kw_intent kr) context.

(** The welcome text posted to a client whose context is new. *)
Definition welcomePosts (phone : string) (context : ConversationContext.t)
    : list (string * string) :=
  match ConversationContext.context_data context !! "messageCount",
        AutomaticMessageService.findTemplate "welcome" with
  | Some (Js.JNum 0), Some template =>
      [(MessageService.formatPhoneNumber phone, AutomaticMessageService.content template)]
  | _, _ => []
  end.

(** The context a turn works on: the stored row of the client, or the row
    created for a client that has none. *)
Definition turnContext (phone : string) (w : World) : ConversationContext.t :=
  default (ContextService.newContext env "default" phone None w)
    (conversation_contexts w !! ("default", phone)).

End OrchestratorTerms.

(** ** Concrete environments and worlds *)
Module Demo.
Import Effects.

Definition isHex (c : ascii) : bool :=
  let n := nat_of_ascii c in
  ((48 <=? n) && (n <=? 57) || (97 <=? n) && (n <=? 102) || (65 <=? n) && (n <=? 70))%nat.

(** The check of [z.string().uuid()]: 8-4-4-4-12 hexadecimal digits with
    a version digit from 1 to 5. *)
Definition isUuid (s : string) : bool :=
  let l := list_ascii_of_string s in
  (length l =? 36)%nat
  && forallb (λ ic, if bool_decide (ic.1 ∈ [8; 13; 18; 23]%nat)
                    then Ascii.eqb ic.2 "-" else isHex ic.2)
       (imap pair l)
  && match l !! 14%nat with
     | Some v => bool_decide (v ∈ ["1"; "2"; "3"; "4"; "5"]%char)
     | None => false
     end.

(** A deployment in which every collaborator answers: the classifier
    says [cancel], reply generation returns a greeting, the gateway
    accepts.  Instants are rendered by a stand-in for [toISOString]; the
    services only store and forward the text. *)
Definition demoEnv : Env :=
  {| toLowerCase := Js.toLowerCaseLatin1;
     toISOString := λ t, "T" +:+ pretty t;
     formatDate := λ d, if String.eqb d "2025-01-10" then "10 de janeiro de 2025" else d;
     formatToday := λ _, "2025-01-10";
     parseISO := λ _, 0%Z;
     subDays := λ t n, (t - n * 86400000)%Z;
     addDays := λ t n, (t + n * 86400000)%Z;
     uuid := λ n, "id-" +:+ pretty n;
     zodUuid := isUuid;
     regexReplace := λ _ _ _, None;
     DEFAULT_ESTABLISHMENT_ID := "est-1";
     db := λ _, DbOk;
     llm_analysis := λ _, AnalysisObject {| pa_intent := Some "cancel";
                                            pa_confidence := Some (9 # 10);
                                            pa_sentiment := Some "neutral";
                                            pa_requiresHuman := Js.JBool false |};
     llm_completion := λ _, Completion (Some "Bom dia!") None;
     gateway := λ _ _, GatewayAccepted (Some "m1") |}.

(** The same deployment while the LLM is unreachable: both of its calls
    reject. *)
Definition outageEnv : Env :=
  {| toLowerCase := toLowerCase demoEnv; toISOString := toISOString demoEnv;
     formatDate := formatDate demoEnv; formatToday := formatToday demoEnv;
     parseISO := parseISO demoEnv; subDays := subDays demoEnv; addDays := addDays demoEnv;
     uuid := uuid demoEnv; zodUuid := zodUuid demoEnv; regexReplace := regexReplace demoEnv;
     DEFAULT_ESTABLISHMENT_ID := DEFAULT_ESTABLISHMENT_ID demoEnv;
     db := db demoEnv;
     llm_analysis := λ _, AnalysisThrows;
     llm_completion := λ _, CompletionThrows;
     gateway := gateway demoEnv |}.

Definition clientPhone : string := "5511999990000".

Definition professionalId : string := "7d9f1a52-3c4b-4e6d-8f10-2a3b4c5d6e01".
Definition serviceId : string := "7d9f1a52-3c4b-4e6d-8f10-2a3b4c5d6e02".
Definition clientId : string := "7d9f1a52-3c4b-4e6d-8f10-2a3b4c5d6e03".
Definition firstBooking : string := "7d9f1a52-3c4b-4e6d-8f10-2a3b4c5d6e11".
Definition secondBooking : string := "7d9f1a52-3c4b-4e6d-8f10-2a3b4c5d6e12".
Definition thirdBooking : string := "7d9f1a52-3c4b-4e6d-8f10-2a3b4c5d6e13".

Definition booking (id time : string) : Appointment.t :=
  {| Appointment.id := id; Appointment.professional_id := professionalId;
     Appointment.client_id := clientId; Appointment.service_id := serviceId;
     Appointment.appointment_date := "2025-01-10"; Appointment.appointment_time := time;
     Appointment.status := "scheduled"; Appointment.establishment_id := "est-1" |}.

(** A salon with one professional, one service and a client who has three
    open bookings and has not written before. *)
Definition salon : World :=
  {| conversation_contexts := ∅;
     professionals := [ {| Professional.id := professionalId; Professional.name := "Ana";
                           Professional.establishment_id := "est-1";
                           Professional.active := true |} ];
     services := [ {| Service.id := serviceId; Service.name := "Corte";
                      Service.duration_minutes := 30; Service.price := 5000 |} ];
     clients := [ {| Client.id := clientId; Client.name := "Bia"; Client.phone := clientPhone;
                     Client.establishment_id := "est-1" |} ];
     appointments := [ booking firstBooking "09:00:00"; booking secondBooking "10:00:00";
                       booking thirdBooking "11:00:00" ];
     messages := []; scheduled_messages := []; posted := [];
     analysis_calls := []; completion_calls := [];
     now := 1000; fresh := 0 |}.

Definition inbound (text : string) : ProcessedMessage.t :=
  {| ProcessedMessage.messageId := "wamid-1"; ProcessedMessage.clientPhone := clientPhone;
     ProcessedMessage.messageContent := Some text; ProcessedMessage.messageType := "text" |}.

(** The world after the client asked to cancel: the three candidates are
    listed and stored in the context. *)
Definition afterListing : World :=
  (MessageProcessor.processMessage demoEnv (inbound "quero cancelar") salon).2.

(** The world after the client then answered with the number 2. *)
Definition afterChoice : World :=
  (MessageProcessor.processMessage demoEnv (inbound "2") afterListing).2.

(** The deployment while only the classifier is unreachable. *)
Definition classifierDownEnv : Env :=
  {| toLowerCase := toLowerCase demoEnv; toISOString := toISOString demoEnv;
     formatDate := formatDate demoEnv; formatToday := formatToday demoEnv;
     parseISO := parseISO demoEnv; subDays := subDays demoEnv; addDays := addDays demoEnv;
     uuid := uuid demoEnv; zodUuid := zodUuid demoEnv; regexReplace := regexReplace demoEnv;
     DEFAULT_ESTABLISHMENT_ID := DEFAULT_ESTABLISHMENT_ID demoEnv;
     db := db demoEnv;
     llm_analysis := λ _, AnalysisThrows;
     llm_completion := llm_completion demoEnv;
     gateway := gateway demoEnv |}.

(** What the context of the client holds under a key of [context_data]. *)
Definition storedUnder (key : string) (w : World) : option Js.Json :=
  conversation_contexts w !! ("default", clientPhone)
    ≫= λ c, ConversationContext.context_data c !! key.

(** The deployment while the store refuses to update appointments. *)
Definition cancelFailsEnv : Env :=
  {| toLowerCase := toLowerCase demoEnv; toISOString := toISOString demoEnv;
     formatDate := formatDate demoEnv; formatToday := formatToday demoEnv;
     parseISO := parseISO demoEnv; subDays := subDays demoEnv; addDays := addDays demoEnv;
     uuid := uuid demoEnv; zodUuid := zodUuid demoEnv; regexReplace := regexReplace demoEnv;
     DEFAULT_ESTABLISHMENT_ID := DEFAULT_ESTABLISHMENT_ID demoEnv;
     db := λ op, match op with UpdateAppointment _ => DbError | _ => DbOk end;
     llm_analysis := llm_analysis demoEnv;
     llm_completion := llm_completion demoEnv;
     gateway := gateway demoEnv |}.

(** The row of the client's context with the two keys of the cancellation
    flow copied from [context_data] onto the row itself: the object the
    choice branch of the handler is written for. *)
Definition liftedContext (w : World) : gmap string Js.Json :=
  match conversation_contexts w !! ("default", clientPhone) with
  | Some c =>
      <["awaitingCancellation" :=
          Js.get (ConversationContext.context_data c) "awaitingCancellation"]>
      (<["cancellableAppointments" :=
           Js.get (ConversationContext.context_data c) "cancellableAppointments"]>
       (MessageProcessor.contextObject (toISOString demoEnv) c))
  | None => ∅
  end.

End Demo.

(** ** Concrete inputs *)
Section InstancesTerms.
Import Effects Demo MessageProcessor AutomaticMessageService.

Definition clientKey : string * string := ("default", clientPhone).

(** The example of the specification, as tokens. *)
Definition hiTokens : list Token := [Text "Hi "; Hole "a"; Text " "; Hole "b"].



(** The patch [processMessage] records after it has answered. *)
Definition exchange (n : nat) : gmap string Js.Json :=
  <["lastMessage" := Js.JStr ("pergunta " +:+ pretty n)]>
    {[ "lastResponse" := Js.JStr ("resposta " +:+ pretty n) ]}.

(** The world after [n] exchanges with the client. *)
Definition talk (n : nat) (w : World) : World :=
  fold_left
    (λ w i, (ContextService.updateConversationContext demoEnv clientKey.1 clientKey.2 (exchange i) w).2)
    (seq 1 n) w.

Definition tenExchanges : World := talk 10 salon.

End InstancesTerms.

(** ** Beyond the specification *)

(** ** Rate limiting *)
Section RateLimiterTerms.
Import RateLimiter.

(** The middleware serving a log of requests, each with the instant it
    arrives at: the store it leaves and the responses, in order. *)
Fixpoint serve (windowMs maxRequests : Z) (log : list (Request * Z))
    (store : gmap string Entry) : gmap string Entry * list Response :=
  match log with
  | [] => (store, [])
  | (req, now) :: rest =>
      let '(store1, response) := middleware windowMs maxRequests req now store in
      let '(store2, responses) := serve windowMs maxRequests rest store1 in
      (store2, response :: responses)
  end.

(** The requests of a log that come from the client of a key. *)
Definition ofClient (key : string) (log : list (Request * Z)) : list (Request * Z) :=
  filter (λ rq, getKey rq.1 = key) log.

(** The responses that went to the client of a key. *)
Fixpoint answersTo (key : string) (log : list (Request * Z)) (responses : list Response)
    : list Response :=
  match log, responses with
  | (req, _) :: log', r :: responses' =>
      if decide (getKey req = key) then r :: answersTo key log' responses'
      else answersTo key log' responses'
  | _, _ => []
  end.

(** The response a client gets to its [n]-th request of a window that
    ends at [resetTime]. *)
Definition nthAnswer (maxRequests resetTime : Z) (n now : Z) : Response :=
  {| limit := maxRequests;
     remaining := Z.max 0 (maxRequests - n);
     reset := resetTime;
     outcome := if (maxRequests <? n)%Z
                then TooManyRequests (ceilSeconds (resetTime - now))
                else Next |}.


(** Two stores that differ only by records that have expired at [c]. *)
Definition upToExpired (c : Z) (s1 s2 : gmap string Entry) : Prop :=
  ∀ k, s1 !! k = s2 !! k
       ∨ (s1 !! k = None ∧ ∃ e, s2 !! k = Some e ∧ (resetTime e < c)%Z).

(** A visitor, and the store after three requests of theirs against a
    limit of two. *)
Definition visitor : Request := {| ip := Some "203.0.113.7"; remoteAddress := None |}.


Definition strangers : gmap string Entry :=
  {[ "rate_limit:198.51.100.1" := {| count := 7; resetTime := 500 |};
     "rate_limit:198.51.100.2" := {| count := 1; resetTime := 2500 |} ]}.

End RateLimiterTerms.

(** ** Phone numbers and webhooks *)
Section WebhookTerms.
Import Webhook.

(** The digits of a number, with Brazil's country code before eleven
    digits that do not start with it. *)
Definition nationalNumber (digits : string) : string :=
  if negb (String.prefix "55" digits) && (String.length digits =? 11)%nat
  then "55" +:+ digits else digits.

(** What a turn may change besides the stored messages: the texts posted
    to the gateway, the calls made to the LLM, and the other tables. *)
Definition beyondMessages (w : Effects.World)
    : list (string * string) * list Effects.AnalysisPrompt * list Effects.CompletionRequest
      * gmap (string * string) ConversationContext.t * list Appointment.t
      * list ScheduledMessage.t :=
  (Effects.posted w, Effects.analysis_calls w, Effects.completion_calls w,
   Effects.conversation_contexts w, Effects.appointments w, Effects.scheduled_messages w).

(** A message that carries written text. *)
Definition isWritten (message : MessageBody) : bool :=
  JsString.nonEmpty (conversation message) || JsString.nonEmpty (extendedTextMessage message).

(** A photo with no caption, sent to a connected instance with the
    assistant enabled. *)
Definition photo : WebhookData :=
  {| instanceName := "salao"; remoteJid := "5511999990000@s.whatsapp.net";
     fromMe := false; id := "3EB0C767D26A1B2E4F"; messageTimestamp := 1736500000;
     pushName := Some "Ana";
     message := {| conversation := None; extendedTextMessage := None;
                   imageMessage := Some {| caption := None; fileName := None |};
                   audioMessage := false; videoMessage := None;
                   documentMessage := None |} |}.

Definition connected : State :=
  {| world := Demo.salon;
     uazapi_configurations :=
       [{| instance_name := "salao"; status := "connected";
           establishment_id := "default"; ai_enabled := true |}];
     whatsapp_messages := [] |}.

End WebhookTerms.

(** ** Sending with retries *)
Section RetryTerms.
Import Effects.
Variable env : Env.




End RetryTerms.

(** ** What a turn adds *)
Section GrowthTerms.
Import Effects.

(** A computation that takes every world to one related to it. *)
Definition moves {A} (R : World -> World -> Prop) (m : M A) : Prop :=
  ∀ w, R w (m w).2.

(** The list [proj] of the world gained at most [n] entries, at its end,
    each of which satisfies [P]. *)
Definition gained {X} (proj : World -> list X) (P : X -> Prop) (n : nat) (w w' : World) : Prop :=
  ∃ l, proj w' = proj w ++ l ∧ length l <= n ∧ Forall P l.

End GrowthTerms.

(** ** What a turn may change *)
Section TurnFrameTerms.
Import Effects.

(** An appointment as it was, or confirmed. *)
Definition confirmedOrSame (a a' : Appointment.t) : Prop :=
  a' = a ∨ a' = Appointment.with_status "confirmed" a.

(** The appointments are the same rows in the same order, some of them
    confirmed. *)
Definition bookingsKept (w w' : World) : Prop :=
  Forall2 confirmedOrSame (appointments w) (appointments w').

(** What stays of a context whatever is recorded in it: its state, its
    identity and the day it was created. *)
Definition contextKept (c c' : ConversationContext.t) : Prop :=
  ConversationContext.conversation_state c' = ConversationContext.conversation_state c
  ∧ ConversationContext.id c' = ConversationContext.id c
  ∧ ConversationContext.establishment_id c' = ConversationContext.establishment_id c
  ∧ ConversationContext.client_phone c' = ConversationContext.client_phone c
  ∧ ConversationContext.created_at c' = ConversationContext.created_at c.

(** Only the context of [key] may have changed, and if there was one it
    is still there and kept. *)
Definition contextsKept (key : string * string) (w w' : World) : Prop :=
  (∀ k, k ≠ key -> conversation_contexts w' !! k = conversation_contexts w !! k)
  ∧ (∀ c, conversation_contexts w !! key = Some c ->
          ∃ c', conversation_contexts w' !! key = Some c' ∧ contextKept c c').

(** The row stored under a key is the row of that key. *)
Definition rowOfItsKey (key : string * string) (w : World) : Prop :=
  ∀ c, conversation_contexts w !! key = Some c ->
       ConversationContext.establishment_id c = key.1
       ∧ ConversationContext.client_phone c = key.2.

End TurnFrameTerms.

(** ** Bookings and the slots they hold *)
Section BookingTerms.
Import Effects AppointmentService.
Variable env : Env.

(** The slot of an appointment: professional, date and time. *)
Definition slotOf (a : Appointment.t) : string * string * string :=
  (Appointment.professional_id a, Appointment.appointment_date a,
   Appointment.appointment_time a).

(** The slots held by scheduled or confirmed appointments, one entry for
    each appointment. *)
Definition heldSlots (l : list Appointment.t) : list (string * string * string) :=
  slotOf <$> List.filter (λ a, isActiveStatus (Appointment.status a)) l.

(** No slot is held twice. *)
Definition noClash (l : list Appointment.t) : Prop := NoDup (heldSlots l).

(** A slot that an availability query for a business, a date and an
    optional professional is to offer in a world: it is on the grid, it
    belongs to an active professional of the business that the filter
    admits, and no scheduled or confirmed appointment holds it. *)
Definition isOpen (establishmentId targetDate : string) (professionalId : option string)
    (w : World) (slot : AvailableSlot) : Prop :=
  date slot = targetDate
  ∧ time slot ∈ timeSlots
  ∧ (∃ p, p ∈ professionals w
          ∧ Professional.id p = professional_id slot
          ∧ Professional.name p = professional_name slot
          ∧ Professional.establishment_id p = establishmentId
          ∧ Professional.active p = true
          ∧ optMatches professionalId (Professional.id p) = true)
  ∧ (professional_id slot, targetDate, time slot) ∉ heldSlots (appointments w).

(** The slots an availability query answers with. *)
Definition offered (establishmentId : string) (date professionalId : option string)
    (w : World) : list AvailableSlot :=
  match (getAvailableSlots env establishmentId date professionalId w).1 with
  | Ok slots => slots
  | Thrown _ => []
  end.

End BookingTerms.

(** ** Templates and what is scheduled *)
Section TemplateTerms.
Import Effects AutomaticMessageService.

(** A template read as tokens: [acc] is the text or the name read so
    far, [inHole] tells which. *)
Fixpoint tokenize (s : string) (inHole : bool) (acc : string) : list Token :=
  match s with
  | EmptyString => if inHole then [Text ("{" +:+ acc)] else [Text acc]
  | String c s' =>
      if inHole then
        if Ascii.eqb c "}" then Hole acc :: tokenize s' false ""
        else tokenize s' true (acc +:+ String c EmptyString)
      else if Ascii.eqb c "{" then Text acc :: tokenize s' true ""
      else tokenize s' false (acc +:+ String c EmptyString)
  end.

(** The names a template declares are the names of its placeholders. *)
Definition declaresItsHoles (template : MessageTemplate) : bool :=
  let tokens := tokenize (content template) false "" in
  String.eqb (flatten tokens) (content template)
  && wellFormed tokens
  && forallb (λ t, match t with
                   | Hole name => bool_decide (name ∈ variables template)
                   | Text _ => true
                   end) tokens.

(** The instant of the reminder of an appointment: one day before it. *)
Definition reminderInstant (env : Env) (a : Appointment.t) : Z :=
  subDays env (parseISO env (Appointment.appointment_date a +:+ "T"
                             +:+ Appointment.appointment_time a)) 1.

(** The row [scheduleMessage] stores in a world. *)
Definition queuedRow (env : Env) (w : World) (clientPhone text : string) (scheduledFor : Z)
    (appointmentId establishmentId : string) : ScheduledMessage.t :=
  {| ScheduledMessage.id := uuid env (fresh w);
     ScheduledMessage.client_phone := clientPhone;
     ScheduledMessage.message_content := text;
     ScheduledMessage.scheduled_for := scheduledFor;
     ScheduledMessage.status := ScheduledMessage.pending;
     ScheduledMessage.sent_at := None;
     ScheduledMessage.appointment_id := Some appointmentId;
     ScheduledMessage.establishment_id := Some establishmentId |}.

End TemplateTerms.

(** ** The history of a conversation *)
Section HistoryTerms.
Import Effects.

(** The stored messages of a phone. *)
Definition ofPhone (phone : string) (w : World) : list StoredMessage.t :=
  filter (λ m, String.eqb (StoredMessage.phone_number m) phone = true) (messages w).

(** A stored message as an entry of the chat history. *)
Definition toChat (msg : StoredMessage.t) : ChatMessage :=
  {| role := match StoredMessage.direction msg with
             | StoredMessage.inbound => user
             | StoredMessage.outbound => assistant
             end;
     content := StoredMessage.message_content msg |}.

(** The active contexts of an establishment. *)
Definition activeOf (establishmentId : string) (w : World) : list ConversationContext.t :=
  filter (λ c, String.eqb (ConversationContext.establishment_id c) establishmentId
               && String.eqb (ConversationContext.conversation_state c) "active" = true)
    (map_to_list (conversation_contexts w)).*2.

End HistoryTerms.

(** ** More concrete inputs *)
Section MoreInstancesTerms.
Import Effects Demo.

(** The variables of the confirmation of the client's first booking. *)
Definition confirmationVariables : list (string * string) :=
  [ ("client_name", "Bia"); ("date", "10 de janeiro de 2025"); ("time", "09:00");
    ("professional_name", "Ana"); ("service_name", "Corte"); ("price", "50.00") ].

Definition confirmationTemplate : AutomaticMessageService.MessageTemplate :=
  default {| AutomaticMessageService.id := ""; AutomaticMessageService.name := "";
             AutomaticMessageService.content := "";
             AutomaticMessageService.type := AutomaticMessageService.confirmation;
             AutomaticMessageService.variables := [] |}
    (AutomaticMessageService.findTemplate "confirmation").

(** The confirmation as the client reads it. *)
Definition confirmationText : string :=
  default "" (AutomaticMessageService.renderTemplate demoEnv
                (AutomaticMessageService.content confirmationTemplate) confirmationVariables).

(** The rows the first booking of the client refers to. *)
Definition bia : Client.t :=
  {| Client.id := clientId; Client.name := "Bia"; Client.phone := clientPhone;
     Client.establishment_id := "est-1" |}.

End MoreInstancesTerms.

(* ===================================================================== *)
(** * Part III: lemmas and theorems                                       *)
(* ===================================================================== *)

(** ** Keyword stage of the classifier *)
Section KeywordStage.
Import Intent.

Lemma inner_loop_score normalized intent keywords scores j :
  fold_left
    (fun scores keyword =>
       if Js.includes normalized keyword then bump intent scores else scores)
    keywords scores j
  = scores j + (if decide (j = intent) then countHits normalized keywords else 0).
Proof.
  revert scores. induction keywords as [|k ks IH]; intros scores; simpl.
  - unfold countHits; simpl. destruct (decide _); lia.
  - rewrite IH. unfold countHits. simpl.
    destruct (Js.includes normalized k); simpl; [|reflexivity].
    unfold bump. destruct (decide (j = intent)); lia.
Qed.

Lemma outer_loop_score normalized table scores j :
  fold_left
    (fun scores '(intent, keywords) =>
       fold_left
         (fun scores keyword =>
            if Js.includes normalized keyword then bump intent scores else scores)
         keywords scores)
    table scores j
  = scores j + tableHits table normalized j.
Proof.
  revert scores. induction table as [|[i ks] rest IH]; intros scores; simpl.
  - lia.
  - rewrite IH, inner_loop_score. lia.
Qed.

Lemma tableHits_lookup table normalized j :
  NoDup (fst <$> table) ->
  tableHits table normalized j
  = countHits normalized
      (default [] (snd <$> List.find (λ e, bool_decide (fst e = j)) table)).
Proof.
  induction table as [|[i ks] rest IH]; intros Hnd; simpl; [reflexivity|].
  apply NoDup_cons in Hnd as [Hi Hnd].
  destruct (decide (j = i)) as [->|Hne].
  - rewrite bool_decide_eq_true_2 by reflexivity. simpl.
    assert (tableHits rest normalized i = 0) as ->; [|lia].
    clear IH Hnd. induction rest as [|[i' ks'] rest IH]; simpl; [reflexivity|].
    simpl in Hi. rewrite not_elem_of_cons in Hi. destruct Hi as [Hne Hi].
    destruct (decide (i = i')); [done|]. simpl. auto.
  - rewrite bool_decide_eq_false_2 by (simpl; congruence). simpl. auto.
Qed.

Lemma scoreMessage_hits normalized j :
  scoreMessage normalized j = keywordHits normalized j.
Proof.
  unfold scoreMessage. rewrite outer_loop_score. cbv beta. rewrite Nat.add_0_l.
  apply tableHits_lookup.
  apply (bool_decide_unpack _). vm_compute. reflexivity.
Qed.

(** What the second loop leaves in [(maxScore, detectedIntent)]. *)
Lemma pick_loop (scores : IntentType -> nat) (keys : list IntentType) m0 d0 :
  let r := fold_left
             (fun '((maxScore, detectedIntent) : nat * IntentType) intent =>
                if (maxScore <? scores intent)%nat then (scores intent, intent)
                else (maxScore, detectedIntent))
             keys (m0, d0) in
  m0 <= r.1
  ∧ (∀ i, i ∈ keys -> scores i <= r.1)
  ∧ ((r = (m0, d0) ∧ ∀ i, i ∈ keys -> scores i <= m0)
     ∨ (m0 < r.1 ∧ scores r.2 = r.1
        ∧ ∃ before after, keys = (before ++ r.2 :: after)%list
                          ∧ ∀ i, i ∈ before -> scores i < r.1)).
Proof.
  revert m0 d0. induction keys as [|k ks IH]; intros m0 d0; simpl.
  - split; [lia|]. split; [intros i Hi; inversion Hi|].
    left. split; [reflexivity|]. intros i Hi; inversion Hi.
  - destruct (Nat.ltb_spec m0 (scores k)) as [Hlt|Hge].
    + specialize (IH (scores k) k). simpl in IH.
      destruct IH as (Hle & Hall & Hcase).
      split; [lia|]. split.
      { intros i Hi. apply elem_of_cons in Hi as [->|Hi]; [exact Hle|auto]. }
      right. destruct Hcase as [[Heq Hmax]|(Hlt' & Hsc & before & after & Hk & Hbefore)].
      * rewrite Heq. simpl. split; [lia|]. split; [reflexivity|].
        exists [], ks. split; [reflexivity|]. intros i Hi; inversion Hi.
      * split; [lia|]. split; [exact Hsc|].
        exists (k :: before), after. split; [simpl; congruence|].
        intros i Hi. apply elem_of_cons in Hi as [->|Hi]; [lia|auto].
    + specialize (IH m0 d0). simpl in IH.
      destruct IH as (Hle & Hall & Hcase).
      split; [lia|]. split.
      { intros i Hi. apply elem_of_cons in Hi as [->|Hi]; [lia|auto]. }
      destruct Hcase as [[Heq Hmax]|(Hlt' & Hsc & before & after & Hk & Hbefore)].
      * left. split; [exact Heq|].
        intros i Hi. apply elem_of_cons in Hi as [->|Hi]; [lia|auto].
      * right. split; [lia|]. split; [exact Hsc|].
        exists (k :: before), after. split; [simpl; congruence|].
        intros i Hi. apply elem_of_cons in Hi as [->|Hi]; [lia|auto].
Qed.

Lemma scoreKeys_complete i : i ∈ scoreKeys.
Proof. destruct i; unfold scoreKeys; set_solver. Qed.

Lemma scoreKeys_before before d after i :
  scoreKeys = (before ++ d :: after)%list ->
  declarationIndex i < declarationIndex d -> i ∈ before.
Proof.
  intros Hk Hlt.
  assert (Hidx : ∀ j, scoreKeys !! declarationIndex j = Some j) by (intros []; reflexivity).
  assert (Hnd : NoDup scoreKeys) by (apply (bool_decide_unpack _); vm_compute; reflexivity).
  assert (Hlen : declarationIndex d = length before).
  { pose proof (Hidx d) as Hd. rewrite Hk in Hd.
    assert (Hd' : (before ++ d :: after) !! length before = Some d)
      by (rewrite lookup_app_r, Nat.sub_diag by lia; reflexivity).
    rewrite Hk in Hnd. eapply NoDup_lookup; eauto. }
  pose proof (Hidx i) as Hi. rewrite Hk, lookup_app_l in Hi by lia.
  eapply list_elem_of_lookup_2; eauto.
Qed.

End KeywordStage.

(** ** C3 and C6: the two classification stages *)
Section Classification.
Import Intent IntentService Effects.

Lemma pickMax_spec (scores : IntentType -> nat) :
  let r := pickMax scores in
  (∀ i, scores i <= r.1)
  ∧ ((r = (0, other) ∧ ∀ i, scores i = 0)
     ∨ (0 < r.1 ∧ scores r.2 = r.1
        ∧ ∀ i, declarationIndex i < declarationIndex r.2 -> scores i < r.1)).
Proof.
  pose proof (pick_loop scores scoreKeys 0 other) as H.
  unfold pickMax. cbv zeta in *. destruct H as (_ & Hall & Hcase).
  split; [intros i; apply Hall, scoreKeys_complete|].
  destruct Hcase as [[Heq Hzero]|(Hpos & Hsc & before & after & Hk & Hbefore)].
  - left. split; [exact Heq|]. intros i.
    specialize (Hzero i (scoreKeys_complete i)). lia.
  - right. split; [exact Hpos|]. split; [exact Hsc|].
    intros i Hi. apply Hbefore. eapply scoreKeys_before; eauto.
Qed.

(** C3.  Keyword-stage classification reads the message only through its
    case-folded form; the score of an intent is the number of its keywords
    the folded text includes; the winner has the highest score, and every
    intent declared before it has a strictly smaller one; with no hit the
    result is [other] at confidence 0.1, otherwise the confidence is
    min(0.8, hits * 0.3). *)
Theorem keyword_stage_classification (toLowerCase : string -> string) (message : string) :
  let r := detectIntentByKeywords toLowerCase message in
  let hits := keywordHits (toLowerCase message) in
  r = detectIntentByKeywords (λ s, s) (toLowerCase message)
  ∧ (∀ i, scoreMessage (toLowerCase message) i = hits i)
  ∧ (∀ i, hits i <= hits (kw_intent r))
  ∧ (∀ i, 0 < hits (kw_intent r) ->
          declarationIndex i < declarationIndex (kw_intent r) ->
          hits i < hits (kw_intent r))
  ∧ (hits (kw_intent r) = 0 -> kw_intent r = other ∧ kw_confidence r = 1 # 10)
  ∧ (0 < hits (kw_intent r) ->
     kw_confidence r == Qmin (8 # 10) (inject_Z (Z.of_nat (hits (kw_intent r))) * (3 # 10))).
Proof.
  cbv zeta. split; [reflexivity|].
  split; [intros i; apply scoreMessage_hits|].
  unfold detectIntentByKeywords.
  pose proof (pickMax_spec (scoreMessage (toLowerCase message))) as H. cbv zeta in H.
  destruct (pickMax (scoreMessage (toLowerCase message))) as [m d] eqn:Hp. simpl in *.
  destruct H as (Hall & Hcase).
  assert (Hd : keywordHits (toLowerCase message) d = m).
  { destruct Hcase as [[Heq Hzero]|(_ & Hsc & _)].
    - inversion Heq; subst. rewrite <- scoreMessage_hits. apply Hzero.
    - rewrite <- scoreMessage_hits. exact Hsc. }
  split; [intros i; rewrite Hd, <- scoreMessage_hits; apply Hall|].
  split.
  { intros i Hpos Hi. rewrite Hd, <- scoreMessage_hits.
    destruct Hcase as [[Heq _]|(_ & _ & Hbefore)]; [inversion Heq; subst; lia|auto]. }
  split.
  - intros Hz. rewrite Hd in Hz. subst m.
    destruct Hcase as [[Heq _]|(Hpos & _)]; [|lia].
    inversion Heq; subst. split; reflexivity.
  - intros Hpos. rewrite Hd in *.
    destruct (Nat.ltb_spec 0 m); [|lia]. apply Q.min_comm.
Qed.

(** The confidences the keyword stage can return. *)
Lemma keyword_confidence_values (toLowerCase : string -> string) (message : string) :
  let c := kw_confidence (detectIntentByKeywords toLowerCase message) in
  c = 1 # 10 ∨ c == 3 # 10 ∨ c == 6 # 10 ∨ c == 8 # 10.
Proof.
  cbv zeta. unfold detectIntentByKeywords.
  destruct (pickMax _) as [m d]. simpl.
  destruct m as [|[|[|m]]]; simpl.
  - left; reflexivity.
  - right; left. reflexivity.
  - right; right; left. reflexivity.
  - right; right; right. apply Q.min_r.
    unfold Qle; simpl. lia.
Qed.

End Classification.

Section LlmGate.
Import Intent IntentService Effects.
Variable env : Env.

Lemma analyzeIntent_run message suggested context w :
  ∃ a, analyzeIntent env message (Some suggested) context w
       = (Ok a, if historySliceable context
                then with_analysis_calls
                       (analysis_calls w ++ [promptOf message suggested context]) w
                else w)
       ∧ intent a = stageIntent (llm_analysis env) message suggested context.
Proof.
  unfold analyzeIntent, stageIntent, promptOf, tryCatch, bind, askClassifier. simpl.
  destruct (historySliceable context); simpl; [|eexists; split; reflexivity].
  destruct (llm_analysis env _); simpl; eexists; split; reflexivity.
Qed.

(** C6.  Above a keyword-stage confidence of 0.6 the keyword-stage intent
    is returned and nothing is sent to the LLM; at 0.6 or below intent
    resolution hands over to the LLM stage, which consults the LLM once,
    with the message, the keyword-stage intent and the context (unless the
    stored history is a value the prompt cannot be built from, when the
    stage falls back to the keyword-stage intent on its own). *)
Theorem llm_stage_gate (message : string) (context : option ConversationContext.t) (w : World) :
  let kr := detectIntentByKeywords (toLowerCase env) message in
  let p := promptOf message (kw_intent kr) context in
  let run := detectIntent env message context w in
  if Qle_bool (kw_confidence kr) (6 # 10)
  then run = tryCatch
               (let* aiAnalysis := analyzeIntent env message (Some (kw_intent kr)) context in
                ret (intent aiAnalysis))
               (λ _, ret other) w
       ∧ run.1 = Ok (stageIntent (llm_analysis env) message (kw_intent kr) context)
       ∧ analysis_calls run.2
         = analysis_calls w ++ (if historySliceable context then [p] else [])
  else run = (Ok (kw_intent kr), w) ∧ analysis_calls run.2 = analysis_calls w.
Proof.
  cbv zeta. unfold detectIntent, highConfidence.
  set (kr := detectIntentByKeywords (toLowerCase env) message).
  destruct (Qlt_le_dec (6 # 10) (kw_confidence kr)) as [Hhigh|Hlow].
  - assert (Qle_bool (kw_confidence kr) (6 # 10) = false) as ->.
    { destruct (Qle_bool _ _) eqn:E; [|reflexivity].
      apply Qle_bool_iff in E. exfalso. eapply Qlt_not_le; eauto. }
    split; reflexivity.
  - assert (Qle_bool (kw_confidence kr) (6 # 10) = true) as ->
      by (apply Qle_bool_iff; exact Hlow).
    destruct (analyzeIntent_run message (kw_intent kr) context w) as (a & Hrun & Hint).
    unfold tryCatch, bind. rewrite Hrun. simpl. rewrite Hint.
    split; [reflexivity|]. split; [reflexivity|].
    destruct (historySliceable context); simpl; [reflexivity|].
    rewrite app_nil_r. reflexivity.
Qed.

End LlmGate.

(** ** C9: the availability engine *)
Section Availability.
Import Effects AppointmentService.
Variable env : Env.

(** The grid of the specification, written out. *)
Lemma timeSlots_grid :
  timeSlots =
  ["08:00:00"; "08:30:00"; "09:00:00"; "09:30:00"; "10:00:00"; "10:30:00";
   "11:00:00"; "11:30:00"; "12:00:00"; "12:30:00"; "13:00:00"; "13:30:00";
   "14:00:00"; "14:30:00"; "15:00:00"; "15:30:00"; "16:00:00"; "16:30:00";
   "17:00:00"; "17:30:00"].
Proof. vm_compute. reflexivity. Qed.

Lemma freeSlots_spec targetDate existing professional slot :
  slot ∈ freeSlots targetDate existing professional ->
  date slot = targetDate
  ∧ time slot ∈ timeSlots
  ∧ professional_id slot = Professional.id professional
  ∧ professional_name slot = Professional.name professional
  ∧ ∀ apt, apt ∈ existing ->
           Appointment.professional_id apt = Professional.id professional ->
           Appointment.appointment_time apt ≠ time slot.
Proof.
  unfold freeSlots. intros Hin.
  apply list_elem_of_bind in Hin as (timeSlot & Hslot & Hts).
  destruct (existsb _ existing) eqn:Hocc; [inversion Hslot|].
  apply list_elem_of_singleton in Hslot as ->. simpl.
  repeat split; try reflexivity; [exact Hts|].
  intros apt Hapt Hprof Htime.
  assert (existsb
            (λ apt, String.eqb (Appointment.professional_id apt) (Professional.id professional)
                    && String.eqb (Appointment.appointment_time apt) timeSlot) existing = true)
    as Hex; [|congruence].
  apply existsb_exists. exists apt. split; [apply list_elem_of_In; exact Hapt|].
  rewrite Hprof, Htime, !String.eqb_refl. reflexivity.
Qed.

(** C9.  [getAvailableSlots] always returns, leaves the store as it is,
    and every slot it returns is for the target date, at a time of the
    half-hour grid from 08:00 to 17:30, for an active professional of the
    business (the requested one when a filter is given), and no appointment
    of that professional in status scheduled or confirmed has that date
    and time. *)
Theorem available_slots_free (establishmentId : string) (date professionalId : option string)
    (w : World) :
  ∃ slots,
    getAvailableSlots env establishmentId date professionalId w = (Ok slots, w)
    ∧ ∀ slot, slot ∈ slots ->
        AppointmentService.date slot = targetDateOf env date w
        ∧ time slot ∈ timeSlots
        ∧ (∃ p, p ∈ professionals w
                ∧ Professional.id p = professional_id slot
                ∧ Professional.name p = professional_name slot
                ∧ Professional.establishment_id p = establishmentId
                ∧ Professional.active p = true
                ∧ optMatches professionalId (Professional.id p) = true)
        ∧ ∀ apt, apt ∈ appointments w ->
                 isActiveStatus (Appointment.status apt) = true ->
                 Appointment.professional_id apt = professional_id slot ->
                 Appointment.appointment_date apt = AppointmentService.date slot ->
                 Appointment.appointment_time apt ≠ time slot.
Proof.
  unfold getAvailableSlots, tryCatch, bind, getWorld, dbCall. simpl.
  fold (targetDateOf env date w).
  destruct (db env (SelectProfessionals establishmentId)); simpl;
    [|exists []; split; [reflexivity|]; intros slot Hin; inversion Hin..].
  destruct (db env (SelectAppointmentsOn (targetDateOf env date w))); simpl;
    [|exists []; split; [reflexivity|]; intros slot Hin; inversion Hin..].
  eexists; split; [reflexivity|]. intros slot Hin.
  apply list_elem_of_bind in Hin as (p & Hslot & Hp).
  apply list_elem_of_filter in Hp as [Hpf Hp].
  apply freeSlots_spec in Hslot as (Hdate & Htime & Hid & Hname & Hfree).
  apply andb_prop in Hpf as [Hpf Hopt]. apply andb_prop in Hpf as [Hest Hact].
  apply String.eqb_eq in Hest.
  split; [exact Hdate|]. split; [exact Htime|]. split.
  { exists p. repeat split; auto. }
  intros apt Hapt Hst Hprof Hd. apply Hfree; [|congruence].
  apply list_elem_of_filter. split; [|exact Hapt].
  rewrite Hst, andb_true_r. apply String.eqb_eq. congruence.
Qed.

End Availability.

(** ** C5: template rendering *)
Section Rendering.
Import Effects AutomaticMessageService.

#[local] Arguments String.append !_ _ / : simpl nomatch.

Lemma str_app_assoc (a b c : string) : (a +:+ b) +:+ c = a +:+ (b +:+ c).
Proof. induction a as [|x a IH]; simpl; [reflexivity|]. rewrite IH. reflexivity. Qed.

Lemma str_app_cons x a b : String x a +:+ b = String x (a +:+ b).
Proof. reflexivity. Qed.

Lemma prefix_cons a s1 b s2 :
  String.prefix (String a s1) (String b s2)
  = if Ascii.eqb a b then String.prefix s1 s2 else false.
Proof.
  cbn [String.prefix]. destruct (ascii_dec a b) as [->|Hne].
  - rewrite Ascii.eqb_refl. reflexivity.
  - apply Ascii.eqb_neq in Hne. rewrite Hne. reflexivity.
Qed.

Lemma prefix_nil s : String.prefix "" s = true.
Proof. destruct s; reflexivity. Qed.

Lemma placeholder_cons key : placeholder key = String "{" (key +:+ "}").
Proof. reflexivity. Qed.

Lemma placeholder_skip key :
  String.length (placeholder key) - 1 = String.length (key +:+ "}").
Proof. rewrite placeholder_cons. cbn [String.length]. lia. Qed.

Lemma replaceFrom_step pattern v b c s :
  replaceFrom pattern v 0 b (String c s)
  = if String.prefix pattern (String c s)
    then expandReplacement pattern b (dropChars (String.length pattern) (String c s)) v
         +:+ replaceFrom pattern v (String.length pattern - 1) (b +:+ String c EmptyString) s
    else String c (replaceFrom pattern v 0 (b +:+ String c EmptyString) s).
Proof. reflexivity. Qed.

Lemma noChar_app c a b : noChar c (a +:+ b) = noChar c a && noChar c b.
Proof.
  unfold noChar. induction a as [|x a IH]; simpl; [reflexivity|].
  rewrite IH, andb_assoc. reflexivity.
Qed.

Lemma expand_plain matched before after v :
  noChar "$" v = true -> expandReplacement matched before after v = v.
Proof.
  induction v as [|a v IH]; simpl; [reflexivity|].
  intros H. apply andb_prop in H as [Ha Hv].
  destruct (Ascii.eqb a "$"); [discriminate|]. rewrite IH by exact Hv. reflexivity.
Qed.

Lemma replaceFrom_before pattern v skip b1 b2 s :
  noChar "$" v = true ->
  replaceFrom pattern v skip b1 s = replaceFrom pattern v skip b2 s.
Proof.
  intros Hv. revert skip b1 b2.
  induction s as [|c s IH]; intros skip b1 b2; cbn [replaceFrom]; [reflexivity|].
  destruct skip as [|k]; [|apply IH].
  destruct (String.prefix pattern (String c s)).
  - rewrite !expand_plain by exact Hv. f_equal. apply IH.
  - f_equal. apply IH.
Qed.

Lemma replaceFrom_skip pattern v x b s :
  noChar "$" v = true ->
  replaceFrom pattern v (String.length x) b (x +:+ s) = replaceFrom pattern v 0 b s.
Proof.
  intros Hv. revert b. induction x as [|c x IH]; intros b; simpl; [reflexivity|].
  rewrite IH. apply replaceFrom_before, Hv.
Qed.

Lemma replaceFrom_text key v b s rest :
  noChar "$" v = true -> noChar "{" s = true ->
  replaceFrom (placeholder key) v 0 b (s +:+ rest)
  = s +:+ replaceFrom (placeholder key) v 0 b rest.
Proof.
  intros Hv. revert b. induction s as [|c s IH]; intros b Hs; [reflexivity|].
  unfold noChar in Hs. cbn [allChars] in Hs. apply andb_prop in Hs as [Hc Hs].
  rewrite !str_app_cons, replaceFrom_step, placeholder_cons, prefix_cons.
  rewrite Ascii.eqb_sym. apply negb_true_iff in Hc. rewrite Hc.
  f_equal. rewrite <- placeholder_cons, <- (IH b Hs). apply replaceFrom_before, Hv.
Qed.

Lemma prefix_hole key name rest :
  noChar "}" key = true -> noChar "}" name = true ->
  String.prefix (key +:+ "}") ((name +:+ "}") +:+ rest) = String.eqb key name.
Proof.
  unfold noChar. revert name. induction key as [|c key IH]; intros name Hk Hn.
  - destruct name as [|d name].
    { change (String.prefix (String "}" "") (String "}" rest) = true).
      rewrite prefix_cons, Ascii.eqb_refl. apply prefix_nil. }
    cbn [allChars] in Hn. apply andb_prop in Hn as [Hd _]. apply negb_true_iff in Hd.
    change ("" +:+ "}") with (String "}" ""). rewrite !str_app_cons, prefix_cons.
    rewrite Ascii.eqb_sym, Hd. reflexivity.
  - cbn [allChars] in Hk. apply andb_prop in Hk as [Hc Hk]. apply negb_true_iff in Hc.
    destruct name as [|d name].
    + change ("" +:+ "}") with (String "}" ""). rewrite !str_app_cons, prefix_cons, Hc.
      reflexivity.
    + cbn [allChars] in Hn. apply andb_prop in Hn as [_ Hn].
      rewrite !str_app_cons, prefix_cons. cbn [String.eqb].
      destruct (Ascii.eqb c d); [|reflexivity]. apply IH; assumption.
Qed.

Lemma replaceFrom_hole key v b name rest :
  noChar "$" v = true ->
  noChar "{" key && noChar "}" key = true ->
  noChar "{" name && noChar "}" name = true ->
  replaceFrom (placeholder key) v 0 b (placeholder name +:+ rest)
  = tokenText (fillOne key v (Hole name)) +:+ replaceFrom (placeholder key) v 0 b rest.
Proof.
  intros Hv Hk Hn.
  apply andb_prop in Hk as [Hk1 Hk2]. apply andb_prop in Hn as [Hn1 Hn2].
  rewrite (placeholder_cons name), str_app_cons, replaceFrom_step.
  rewrite (placeholder_cons key) at 1. rewrite prefix_cons, Ascii.eqb_refl.
  rewrite prefix_hole by assumption. cbn [fillOne].
  destruct (String.eqb_spec key name) as [->|Hne]; cbn [tokenText].
  - rewrite expand_plain by exact Hv. f_equal.
    rewrite placeholder_skip, replaceFrom_skip by exact Hv. apply replaceFrom_before, Hv.
  - rewrite replaceFrom_text; [|exact Hv|rewrite noChar_app, Hn1; reflexivity].
    rewrite (placeholder_cons name), str_app_cons. f_equal. f_equal.
    apply replaceFrom_before, Hv.
Qed.

Lemma literalKey_no_brace key :
  literalKey key = true -> noChar "{" key && noChar "}" key = true.
Proof.
  unfold literalKey, noChar. intros H. apply andb_prop in H as [H _].
  induction key as [|c key IH]; simpl in *; [reflexivity|].
  apply andb_prop in H as [Hc H]. specialize (IH H). apply andb_prop in IH as [-> ->].
  rewrite !andb_true_r.
  destruct (Ascii.eqb_spec c "{") as [->|_]; [discriminate|].
  destruct (Ascii.eqb_spec c "}") as [->|_]; [discriminate|reflexivity].
Qed.

Lemma replace_tokens key v b tokens :
  literalKey key = true -> noChar "$" v = true -> wellFormed tokens = true ->
  replaceFrom (placeholder key) v 0 b (flatten tokens) = flatten (fillOne key v <$> tokens).
Proof.
  intros Hk Hv. apply literalKey_no_brace in Hk.
  induction tokens as [|t tokens IH]; intros Hwf; [reflexivity|].
  simpl in Hwf. apply andb_prop in Hwf as [Ht Hwf]. specialize (IH Hwf).
  rewrite fmap_cons. destruct t as [s|name].
  - cbn [flatten tokenText fillOne]. cbn [wellFormedToken] in Ht.
    rewrite replaceFrom_text by assumption. rewrite IH. reflexivity.
  - cbn [flatten]. change (tokenText (Hole name)) with (placeholder name).
    cbn [wellFormedToken] in Ht.
    rewrite replaceFrom_hole by assumption. rewrite IH. reflexivity.
Qed.

Lemma fillOne_wellFormed key v tokens :
  noChar "{" v = true -> wellFormed tokens = true ->
  wellFormed (fillOne key v <$> tokens) = true.
Proof.
  intros Hv. induction tokens as [|t tokens IH]; intros Hwf; [reflexivity|].
  simpl in Hwf. apply andb_prop in Hwf as [Ht Hwf].
  rewrite fmap_cons. simpl. rewrite IH by exact Hwf. rewrite andb_true_r.
  destruct t as [s|name]; simpl; [exact Ht|].
  destruct (String.eqb key name); simpl; assumption.
Qed.

Lemma fill_cons key v rest t : fill rest (fillOne key v t) = fill ((key, v) :: rest) t.
Proof.
  destruct t as [s|name]; simpl; [reflexivity|].
  destruct (String.eqb key name); reflexivity.
Qed.

Lemma fill_nil (tokens : list Token) : fill [] <$> tokens = tokens.
Proof.
  induction tokens as [|[s|n] ts IH]; [reflexivity|..];
    rewrite fmap_cons, IH; reflexivity.
Qed.

Section WithEnv.
Variable env : Env.

Lemma render_tokens variables tokens :
  plainVariables variables = true -> wellFormed tokens = true ->
  renderTemplate env (flatten tokens) variables = Some (flatten (fill variables <$> tokens)).
Proof.
  revert tokens. induction variables as [|[key v] rest IH]; intros tokens Hp Hwf.
  - rewrite fill_nil. reflexivity.
  - simpl in Hp. apply andb_prop in Hp as [Hkv Hp].
    apply andb_prop in Hkv as [Hkv Hd]. apply andb_prop in Hkv as [Hk Hb].
    simpl renderTemplate. unfold replaceKey. rewrite Hk.
    rewrite replace_tokens by assumption.
    rewrite IH; [|exact Hp|apply fillOne_wellFormed; assumption].
    f_equal. f_equal. rewrite <- list_fmap_compose.
    apply list_fmap_ext. intros i t _. apply fill_cons.
Qed.

Lemma lookupVariable_plain name variables v :
  plainVariables variables = true -> lookupVariable name variables = Some v ->
  noChar "{" v = true.
Proof.
  induction variables as [|[k x] rest IH]; simpl; [discriminate|].
  intros Hp Hl. apply andb_prop in Hp as [Hkv Hp].
  destruct (String.eqb k name).
  - inversion Hl; subst. apply andb_prop in Hkv as [Hkv _]. apply andb_prop in Hkv as [_ H].
    exact H.
  - auto.
Qed.

Lemma fill_wellFormed variables tokens :
  plainVariables variables = true -> wellFormed tokens = true ->
  wellFormed (fill variables <$> tokens) = true.
Proof.
  intros Hp. induction tokens as [|t tokens IH]; intros Hwf; [reflexivity|].
  simpl in Hwf. apply andb_prop in Hwf as [Ht Hwf].
  rewrite fmap_cons. simpl. rewrite IH by exact Hwf. rewrite andb_true_r.
  destruct t as [s|name]; simpl; [exact Ht|].
  destruct (lookupVariable name variables) as [v|] eqn:Hl; simpl; [|exact Ht].
  eapply lookupVariable_plain; eauto.
Qed.

Lemma fill_fill variables t : fill variables (fill variables t) = fill variables t.
Proof.
  destruct t as [s|name]; simpl; [reflexivity|].
  destruct (lookupVariable name variables) as [v|] eqn:Hl; simpl; [reflexivity|].
  rewrite Hl. reflexivity.
Qed.

(** C5, as the code has it.  For a well-formed template and plain
    variables, rendering replaces exactly the placeholders whose name is a
    key and keeps every other one verbatim, and rendering the result again
    with the same variables returns it unchanged; the example of the
    specification is an instance. *)
Theorem render_fills_and_is_idempotent (tokens : list Token)
    (variables : list (string * string)) :
  wellFormed tokens = true ->
  plainVariables variables = true ->
  let rendered := flatten (fill variables <$> tokens) in
  renderTemplate env (flatten tokens) variables = Some rendered
  ∧ renderTemplate env rendered variables = Some rendered
  ∧ renderTemplate env "Hi {a} {b}" [("a", "X")] = Some "Hi X {b}".
Proof.
  intros Hwf Hp. cbv zeta. split; [apply render_tokens; assumption|]. split; [|reflexivity].
  rewrite render_tokens; [|exact Hp|apply fill_wellFormed; assumption].
  f_equal. f_equal. rewrite <- list_fmap_compose.
  apply list_fmap_ext. intros i t _. apply fill_fill.
Qed.

End WithEnv.
End Rendering.

(** ** C4: the sweep over due scheduled messages *)
Section Sweep.
Import Effects AutomaticMessageService.

Lemma insertBy_perm {A} (le : A -> A -> bool) x (l : list A) :
  AppointmentService.insertBy le x l ≡ₚ x :: l.
Proof.
  induction l as [|y l IH]; simpl; [reflexivity|].
  destruct (le x y); [reflexivity|]. rewrite IH. apply Permutation_swap.
Qed.

Lemma sortBy_perm {A} (le : A -> A -> bool) (l : list A) :
  AppointmentService.sortBy le l ≡ₚ l.
Proof.
  unfold AppointmentService.sortBy.
  induction l as [|x l IH]; simpl; [reflexivity|].
  rewrite insertBy_perm, IH. reflexivity.
Qed.

Lemma insertBy_sorted {A} (key : A -> Z) x (l : list A) :
  Sorted Z.le (key <$> l) ->
  Sorted Z.le (key <$> AppointmentService.insertBy (λ a b, (key a <=? key b)%Z) x l).
Proof.
  induction l as [|y l IH]; intros Hs; simpl.
  - repeat constructor.
  - destruct (Z.leb_spec (key x) (key y)) as [Hle|Hgt].
    + simpl. constructor; [exact Hs|]. constructor. exact Hle.
    + rewrite fmap_cons in Hs. apply Sorted_inv in Hs as [Hs Hhd].
      rewrite fmap_cons. constructor; [apply IH, Hs|].
      destruct l as [|z l]; simpl.
      * constructor. lia.
      * destruct (Z.leb_spec (key x) (key z)); simpl; constructor; [lia|].
        inversion Hhd; subst. assumption.
Qed.

Lemma sortBy_sorted {A} (key : A -> Z) (l : list A) :
  Sorted Z.le (key <$> AppointmentService.sortBy (λ a b, (key a <=? key b)%Z) l).
Proof.
  unfold AppointmentService.sortBy.
  induction l as [|x l IH]; simpl; [constructor|]. apply insertBy_sorted, IH.
Qed.

Variable env : Env.
Hypothesis update_ok : ∀ id, db env (UpdateScheduledStatus id) = DbOk.

Lemma sendTextMessage_run phone message w :
  ∃ r, MessageService.sendTextMessage env phone message w
       = (Ok r, with_posted (posted w ++ [(MessageService.formatPhoneNumber phone, message)]) w)
       ∧ MessageService.success r
         = match gateway env (MessageService.formatPhoneNumber phone) message with
           | GatewayAccepted _ => true
           | _ => false
           end.
Proof.
  unfold MessageService.sendTextMessage, tryCatch, bind, modifyWorld. simpl.
  destruct (gateway env _ _); simpl; eexists; split; reflexivity.
Qed.

Lemma sendScheduledMessage_run m w :
  ∃ w', sendScheduledMessage env m w = (Ok tt, w')
        ∧ posted w' = posted w ++ [payload m]
        ∧ now w' = now w
        ∧ scheduled_messages w'
          = setDelivery (ScheduledMessage.id m)
              (if delivered env m then ScheduledMessage.sent else ScheduledMessage.failed)
              (if delivered env m then Some (now w) else None) (scheduled_messages w).
Proof using update_ok.
  unfold sendScheduledMessage, tryCatch, bind.
  destruct (sendTextMessage_run (ScheduledMessage.client_phone m)
              (ScheduledMessage.message_content m) w) as (r & -> & Hr).
  unfold dbCall. rewrite update_ok. simpl. unfold modifyWorld.
  eexists. split; [reflexivity|]. simpl. rewrite Hr. fold (delivered env m).
  repeat split; reflexivity.
Qed.

Lemma sendEach_run l w :
  ∃ w', sendEach env l w = (Ok tt, w')
        ∧ posted w' = posted w ++ (payload <$> l)
        ∧ scheduled_messages w' = settleRow env l (now w) <$> scheduled_messages w.
Proof using update_ok.
  revert w. induction l as [|m l IH]; intros w.
  - exists w. simpl. rewrite app_nil_r. split; [reflexivity|]. split; [reflexivity|].
    induction (scheduled_messages w) as [|r rs IHr]; [reflexivity|].
    rewrite fmap_cons, <- IHr. reflexivity.
  - destruct (sendScheduledMessage_run m w) as (w1 & Hrun & Hp & Hn & Hs).
    destruct (IH (with_now (now w1 + 1000) w1)) as (w2 & Hrun2 & Hp2 & Hs2).
    exists w2. cbn [sendEach]. unfold bind at 1. rewrite Hrun.
    unfold bind at 1, sleep, modifyWorld. rewrite Hrun2.
    split; [reflexivity|]. split.
    + rewrite Hp2. simpl. rewrite Hp, <- app_assoc. reflexivity.
    + rewrite Hs2. simpl. rewrite Hs, Hn. unfold setDelivery.
      rewrite <- list_fmap_compose. apply list_fmap_ext. intros i r _. reflexivity.
Qed.



Lemma dueMessages_elem t rows m :
  m ∈ dueMessages t rows ↔ m ∈ rows ∧ isDue t m.
Proof.
  unfold dueMessages. rewrite sortBy_perm, list_elem_of_filter. unfold isDue. tauto.
Qed.



End Sweep.

(** ** C7 and C8: the conversation context store *)
Section ContextStore.
Import Effects ContextService.

Lemma toStored_array items :
  Js.toStored (Js.JArr items) = Js.JArr (Js.storedElement <$> items).
Proof.
  reflexivity.
Qed.

Lemma storeObject_lookup (o : gmap string Js.Json) k :
  Js.storeObject o !! k
  = match o !! k with
    | Some v => if Js.isUndefined v then None else Some (Js.toStored v)
    | None => None
    end.
Proof.
  unfold Js.storeObject. rewrite lookup_fmap, map_lookup_filter.
  destruct (o !! k) as [v|]; simpl; [|reflexivity].
  destruct (Js.isUndefined v) eqn:E; reflexivity.
Qed.

Lemma mergeOtherKeys_lookup (updates contextData : gmap string Js.Json) k :
  mergeOtherKeys updates contextData !! k
  = if bool_decide (k ∈ reservedKeys) then contextData !! k
    else match updates !! k with
         | Some v => Some v
         | None => contextData !! k
         end.
Proof.
  unfold mergeOtherKeys.
  apply (map_fold_weak_ind
           (λ r (m : gmap string Js.Json),
              r !! k = if bool_decide (k ∈ reservedKeys) then contextData !! k
                       else match m !! k with
                            | Some v => Some v
                            | None => contextData !! k
                            end)).
  - rewrite lookup_empty. destruct (bool_decide _); reflexivity.
  - intros i x m r Hi IH.
    destruct (decide (i = k)) as [->|Hne].
    + rewrite lookup_insert_eq.
      destruct (bool_decide (k ∈ reservedKeys)) eqn:E.
      * rewrite IH. reflexivity.
      * apply lookup_insert_eq.
    + rewrite (lookup_insert_ne m) by exact Hne.
      destruct (bool_decide (i ∈ reservedKeys)); [exact IH|].
      rewrite lookup_insert_ne by exact Hne. exact IH.
Qed.

Variable env : Env.

Lemma update_run e p (u : gmap string Js.Json) w :
  ∃ b w', updateConversationContext env e p u w = (Ok b, w')
    ∧ (∀ k, k ≠ (e, p) -> conversation_contexts w' !! k = conversation_contexts w !! k)
    ∧ if b
      then ∃ cd, nextContextData (toISOString env (now w)) u
                   (ConversationContext.context_data (currentOf env e p w)) = Some cd
                 ∧ conversation_contexts w' !! (e, p)
                   = Some (applyUpdate (now w) u cd (currentOf env e p w))
      else conversation_contexts w' !! (e, p) = conversation_contexts w !! (e, p)
           ∨ (conversation_contexts w !! (e, p) = None
              ∧ conversation_contexts w' !! (e, p) = Some (newContext env e p None w)).
Proof.
  unfold updateConversationContext, getConversationContext, createConversationContext,
    currentOf, tryCatch, bind, getWorld, modifyWorld, dbCall, ret, throw.
  destruct (db env (SelectContext e p)); simpl;
    try (exists false, w; split; [reflexivity|]; split; [reflexivity|left; first [reflexivity|congruence]]).
  destruct (conversation_contexts w !! (e, p)) as [c|] eqn:Hc; simpl.
  - destruct (nextContextData _ u (ConversationContext.context_data c)) as [cd|] eqn:Hcd; simpl;
      [|exists false, w; split; [reflexivity|]; split; [reflexivity|left; first [reflexivity|congruence]]].
    destruct (db env (UpdateContext e p)); simpl;
      try (exists false, w; split; [reflexivity|]; split; [reflexivity|left; first [reflexivity|congruence]]).
    eexists true, _. split; [reflexivity|]. simpl. split.
    + intros k Hk. apply lookup_alter_ne. congruence.
    + exists cd. split; [reflexivity|]. rewrite lookup_alter_eq, Hc. reflexivity.
  - destruct (db env (InsertContext e p)); simpl;
      try (exists false, w; split; [reflexivity|]; split; [reflexivity|left; first [reflexivity|congruence]]).
    destruct (nextContextData _ u _) as [cd|] eqn:Hcd; simpl.
    + destruct (db env (UpdateContext e p)); simpl.
      * eexists true, _. split; [reflexivity|]. simpl. split.
        -- intros k Hk. rewrite lookup_alter_ne, lookup_insert_ne by congruence. reflexivity.
        -- exists cd. split; [reflexivity|]. rewrite lookup_alter_eq, lookup_insert_eq. reflexivity.
      * eexists false, _. split; [reflexivity|]. simpl. split.
        -- intros k Hk. rewrite lookup_insert_ne by congruence. reflexivity.
        -- right. split; [first [reflexivity|congruence]|]. rewrite lookup_insert_eq. reflexivity.
      * eexists false, _. split; [reflexivity|]. simpl. split.
        -- intros k Hk. rewrite lookup_insert_ne by congruence. reflexivity.
        -- right. split; [first [reflexivity|congruence]|]. rewrite lookup_insert_eq. reflexivity.
    + eexists false, _. split; [reflexivity|]. simpl. split.
      * intros k Hk. rewrite lookup_insert_ne by congruence. reflexivity.
      * right. split; [first [reflexivity|congruence]|]. rewrite lookup_insert_eq. reflexivity.
Qed.

Lemma sliceLast_cap {A} (l : list A) :
  (if (10 <? length l)%nat then Js.sliceLast 10 l else l) = Js.sliceLast 10 l.
Proof.
  unfold Js.sliceLast. destruct (Nat.ltb_spec 10 (length l)); [reflexivity|].
  replace (length l - 10) with 0 by lia. reflexivity.
Qed.

Lemma sliceLast_length {A} (l : list A) : length (Js.sliceLast 10 l) <= 10.
Proof. unfold Js.sliceLast. rewrite length_drop. lia. Qed.

Lemma sliceLast_evicts {A} (l : list A) x :
  length l = 10 -> Js.sliceLast 10 (l ++ [x]) = drop 1 l ++ [x].
Proof.
  intros Hl. unfold Js.sliceLast. rewrite length_app, Hl. simpl.
  rewrite drop_app_le by lia. reflexivity.
Qed.

(** The history an update reads from the current data. *)
Lemma current_topics (cur : gmap string Js.Json) topics :
  Js.jsOr (Js.get cur "lastTopics") (Js.JArr []) = Js.JArr topics ->
  topics = match cur !! "lastTopics" with
           | Some (Js.JArr l) => l
           | _ => []
           end.
Proof.
  unfold Js.jsOr, Js.get. destruct (cur !! "lastTopics") as [[| |[]|n|s|l|o]|]; simpl;
    try (intros H; inversion H; reflexivity).
  - destruct (n =? 0)%Z; simpl; intros H; inversion H; reflexivity.
  - destruct (String.eqb s ""); simpl; intros H; inversion H; reflexivity.
Qed.


Lemma next_history iso (u cur cd : gmap string Js.Json) :
  nextContextData iso u cur = Some cd ->
  Js.truthy (Js.get u "lastMessage") = true ->
  u !! "lastTopics" = None ->
  cd !! "lastTopics"
  = Some (Js.JArr (Js.sliceLast 10
                     (match cur !! "lastTopics" with
                      | Some (Js.JArr l) => l
                      | _ => []
                      end ++ [topicEntry iso u]))).
Proof.
  unfold nextContextData, pushTopic. intros Hcd Ht Hu. rewrite Ht in Hcd.
  destruct (Js.jsOr _ _) as [| | | | |topics|] eqn:Hor; try discriminate.
  inversion Hcd; subst. rewrite mergeOtherKeys_lookup, Hu.
  assert (bool_decide ("lastTopics" ∈ reservedKeys) = false) as ->
    by (vm_compute; reflexivity).
  rewrite lookup_insert_eq, sliceLast_cap. f_equal. f_equal. f_equal. f_equal.
  apply current_topics. unfold Js.get in *.
  rewrite !lookup_insert_ne in Hor by discriminate. exact Hor.
Qed.



Lemma history_step e p (u : gmap string Js.Json) w :
  appendsExchange u ->
  length (historyAt w (e, p)) <= 10 ->
  let run := updateConversationContext env e p u w in
  let entry := topicEntry (toISOString env (now w)) u in
  length (historyAt run.2 (e, p)) <= 10
  ∧ (run.1 = Ok true ->
     historyAt run.2 (e, p)
     = Js.storedElement <$> Js.sliceLast 10 (historyAt w (e, p) ++ [entry])).
Proof.
  intros [Ht Hu] Hlen. cbv zeta.
  destruct (update_run e p u w) as (b & w' & -> & _ & Hb). simpl.
  destruct b.
  - destruct Hb as (cd & Hcd & Hw').
    pose proof (next_history _ _ _ _ Hcd Ht Hu) as Hh.
    assert (Hbefore : match ConversationContext.context_data (currentOf env e p w) !! "lastTopics" with
                      | Some (Js.JArr l) => l
                      | _ => []
                      end = historyAt w (e, p)).
    { unfold currentOf, historyAt. destruct (conversation_contexts w !! (e, p)); reflexivity. }
    rewrite Hbefore in Hh.
    assert (Hafter : historyAt w' (e, p)
                     = Js.storedElement <$>
                         Js.sliceLast 10 (historyAt w (e, p)
                                          ++ [topicEntry (toISOString env (now w)) u])).
    { unfold historyAt at 1. rewrite Hw'. simpl. unfold historyOf. simpl.
      rewrite storeObject_lookup, Hh. reflexivity. }
    rewrite Hafter. split; [|intros _; reflexivity].
    rewrite length_fmap. apply sliceLast_length.
  - split; [|discriminate].
    destruct Hb as [Hsame|[Hnone Hnew]].
    + unfold historyAt in *. rewrite Hsame. exact Hlen.
    + unfold historyAt. rewrite Hnew.
      change (length (@nil Js.Json) <= 10). simpl. lia.
Qed.

(** C7.  Starting from a context with at most ten entries (a new context
    has none), over every sequence of updates that append exchanges the
    rolling history never has more than ten entries; an update that
    succeeds keeps the last ten of the old entries and the new one, so on a
    full history it drops the oldest entry and keeps the rest in order. *)
Theorem history_never_exceeds_ten (e p : string) (patches : list (gmap string Js.Json))
    (w : World) :
  Forall appendsExchange patches ->
  length (historyAt w (e, p)) <= 10 ->
  historyStaysBounded env (e, p) patches w.
Proof.
  revert w. induction patches as [|u rest IH]; intros w Hall Hlen; [exact I|].
  apply Forall_cons in Hall as [Hu Hall].
  destruct (history_step e p u w Hu Hlen) as (Hle & Hsucc).
  cbn [historyStaysBounded]. cbv zeta. simpl fst. simpl snd.
  split; [exact Hle|]. split; [exact Hsucc|]. split.
  - intros Hok Hfull. rewrite (Hsucc Hok), sliceLast_evicts by exact Hfull. reflexivity.
  - apply IH; assumption.
Qed.

End ContextStore.

(** ** Frames and totality of the effectful functions *)
Section Frames.
Import Effects.
Context {B : Type} (obs : World -> B).

Lemma keeps_ret {A} (a : A) : keeps obs (ret a).
Proof. intros w. reflexivity. Qed.

Lemma keeps_throw {A} e : keeps obs (throw e : M A).
Proof. intros w. reflexivity. Qed.

Lemma keeps_getWorld : keeps obs getWorld.
Proof. intros w. reflexivity. Qed.

Lemma keeps_dbCall env op : keeps obs (dbCall env op).
Proof. intros w. unfold dbCall. destruct (db env op); reflexivity. Qed.

Lemma keeps_bind {A C} (m : M A) (f : A -> M C) :
  keeps obs m -> (∀ a, keeps obs (f a)) -> keeps obs (bind m f).
Proof.
  intros Hm Hf w. unfold bind. specialize (Hm w).
  destruct (m w) as [[a|e] w']; simpl in *; [|exact Hm].
  rewrite (Hf a w'). exact Hm.
Qed.

Lemma keeps_tryCatch {A} (m : M A) (h : string -> M A) :
  keeps obs m -> (∀ e, keeps obs (h e)) -> keeps obs (tryCatch m h).
Proof.
  intros Hm Hh w. unfold tryCatch. specialize (Hm w).
  destruct (m w) as [[a|e] w']; simpl in *; [exact Hm|].
  rewrite (Hh e w'). exact Hm.
Qed.

Lemma keeps_modify (f : World -> World) :
  (∀ w, obs (f w) = obs w) -> keeps obs (modifyWorld f).
Proof. intros Hf w. apply Hf. Qed.

Lemma total_ret {A} (a : A) : total (ret a).
Proof. intros w. exists a. reflexivity. Qed.

Lemma total_tryCatch {A} (m : M A) (h : string -> M A) :
  (∀ e, total (h e)) -> total (tryCatch m h).
Proof.
  intros Hh w. unfold tryCatch. destruct (m w) as [[a|e] w']; [exists a; reflexivity|].
  apply Hh.
Qed.

Lemma total_bind {A C} (m : M A) (f : A -> M C) :
  total m -> (∀ a, total (f a)) -> total (bind m f).
Proof.
  intros Hm Hf w. unfold bind. destruct (Hm w) as [a Ha].
  destruct (m w) as [[a'|e] w']; simpl in Ha; [|discriminate].
  apply Hf.
Qed.

End Frames.

(** Steps through a computation built from the combinators, splitting on
    every [match] and [if] it meets. *)
Ltac keeps_step :=
  first
    [ apply keeps_ret | apply keeps_throw | apply keeps_getWorld | apply keeps_dbCall
    | apply keeps_tryCatch | apply keeps_bind
    | apply keeps_modify; intros; reflexivity
    | match goal with
      | |- keeps _ (match ?x with _ => _ end) => destruct x
      | |- keeps _ (if ?x then _ else _) => destruct x
      | |- keeps _ (let '(_, _) := ?x in _) => destruct x
      | |- keeps _ (let _ := _ in _) => cbv zeta
      end
    | progress intros ].

Ltac keeps_auto := repeat keeps_step.

Section ServiceFrames.
Import Effects.
Variable env : Env.

Lemma keeps_posted_getContext e p :
  keeps posted (ContextService.getConversationContext env e p).
Proof.
  unfold ContextService.getConversationContext, ContextService.createConversationContext.
  keeps_auto.
Qed.

Lemma keeps_posted_update e p u :
  keeps posted (ContextService.updateConversationContext env e p u).
Proof.
  unfold ContextService.updateConversationContext. keeps_auto.
Qed.

Lemma keeps_posted_detectIntent message context :
  keeps posted (IntentService.detectIntent env message context).
Proof.
  unfold IntentService.detectIntent, IntentService.analyzeIntent, IntentService.askClassifier.
  keeps_auto; try (intros w; reflexivity).
Qed.

Lemma keeps_posted_saveMessage message :
  keeps posted (MessageProcessor.saveMessage env message).
Proof. unfold MessageProcessor.saveMessage. keeps_auto. Qed.

Lemma keeps_posted_saveOutbound phone content mid :
  keeps posted (MessageProcessor.saveOutboundMessage env phone content mid).
Proof. unfold MessageProcessor.saveOutboundMessage. keeps_auto. Qed.

Lemma keeps_posted_history phone limit :
  keeps posted (MessageProcessor.getConversationHistory env phone limit).
Proof. unfold MessageProcessor.getConversationHistory. keeps_auto. Qed.

Lemma keeps_posted_search params :
  keeps posted (AppointmentService.searchAppointments env params).
Proof. unfold AppointmentService.searchAppointments. keeps_auto. Qed.

Lemma keeps_posted_clientAppointments phone est :
  keeps posted (AppointmentService.getClientAppointmentsByPhone env phone est).
Proof.
  unfold AppointmentService.getClientAppointmentsByPhone. keeps_auto; try apply keeps_posted_search.
Qed.

Lemma keeps_posted_slots est date prof :
  keeps posted (AppointmentService.getAvailableSlots env est date prof).
Proof. unfold AppointmentService.getAvailableSlots. keeps_auto. Qed.

Lemma keeps_posted_cancel id :
  keeps posted (AppointmentService.cancelAppointment env id).
Proof. unfold AppointmentService.cancelAppointment. keeps_auto. Qed.

Lemma keeps_posted_updateStatus id st :
  keeps posted (AppointmentService.updateAppointmentStatus env id st).
Proof. unfold AppointmentService.updateAppointmentStatus. keeps_auto. Qed.

Lemma keeps_posted_scheduleMessage phone tid t vars aid eid :
  keeps posted (AutomaticMessageService.scheduleMessage env phone tid t vars aid eid).
Proof. unfold AutomaticMessageService.scheduleMessage. keeps_auto. Qed.

Lemma keeps_posted_reminders aid eid :
  keeps posted (AutomaticMessageService.scheduleAppointmentReminders env aid eid).
Proof.
  unfold AutomaticMessageService.scheduleAppointmentReminders,
    AutomaticMessageService.selectAppointment.
  keeps_auto; try apply keeps_posted_scheduleMessage.
Qed.

Lemma keeps_posted_listCancellable header e p :
  keeps posted (MessageProcessor.listCancellable env header e p).
Proof.
  unfold MessageProcessor.listCancellable. keeps_auto;
    try first [apply keeps_posted_clientAppointments | apply keeps_posted_update].
Qed.

Lemma keeps_posted_handleCancellation message context :
  keeps posted (MessageProcessor.handleCancellationIntent env message context).
Proof.
  unfold MessageProcessor.handleCancellationIntent. keeps_auto;
    try first [apply keeps_posted_listCancellable | apply keeps_posted_cancel
          | apply keeps_posted_update].
Qed.

Lemma keeps_posted_handleScheduling message context :
  keeps posted (MessageProcessor.handleSchedulingIntent env message context).
Proof.
  unfold MessageProcessor.handleSchedulingIntent. keeps_auto;
    try first [apply keeps_posted_listCancellable | apply keeps_posted_slots
          | apply keeps_posted_clientAppointments | apply keeps_posted_updateStatus
          | apply keeps_posted_reminders].
Qed.

Lemma keeps_posted_generateResponse message context history :
  keeps posted (OpenAIService.generateResponse env message context history).
Proof. unfold OpenAIService.generateResponse. keeps_auto. Qed.

End ServiceFrames.

(** ** C2: what a turn does when a collaborator fails *)
Section Orchestrator.
Import Effects Intent IntentService MessageProcessor.
Variable env : Env.

Lemma run_of_total {A B} (obs : World -> B) (m : M A) w :
  total m -> keeps obs m -> ∃ a w', m w = (Ok a, w') ∧ obs w' = obs w.
Proof.
  intros Ht Hk. specialize (Ht w). specialize (Hk w).
  destruct (m w) as [o w'] eqn:E. simpl in *. destruct Ht as [a ->].
  exists a, w'. split; [reflexivity|exact Hk].
Qed.

Lemma detectIntent_run message context w :
  ∃ w', detectIntent env message context w = (Ok (resolvedIntent env message context), w')
        ∧ posted w' = posted w.
Proof.
  unfold detectIntent, resolvedIntent, tryCatch. cbv zeta.
  destruct (highConfidence _); [eexists; split; reflexivity|].
  destruct (analyzeIntent_run env message
              (kw_intent (detectIntentByKeywords (toLowerCase env) message)) context w)
    as (a & Hrun & Hint).
  unfold bind. rewrite Hrun. simpl. rewrite Hint. eexists; split; [reflexivity|].
  destruct (historySliceable context); reflexivity.
Qed.

Lemma total_update e p u : total (ContextService.updateConversationContext env e p u).
Proof. apply total_tryCatch. intros. apply total_ret. Qed.

Lemma total_history phone limit : total (getConversationHistory env phone limit).
Proof. apply total_tryCatch. intros. apply total_ret. Qed.

Lemma total_saveOutbound phone content mid : total (saveOutboundMessage env phone content mid).
Proof. apply total_tryCatch. intros. apply total_ret. Qed.

Lemma total_handleScheduling message context : total (handleSchedulingIntent env message context).
Proof. apply total_tryCatch. intros. apply total_ret. Qed.

Lemma total_handleCancellation message context :
  total (handleCancellationIntent env message context).
Proof. apply total_tryCatch. intros. apply total_ret. Qed.

Lemma total_getContext e p : total (ContextService.getConversationContext env e p).
Proof. apply total_tryCatch. intros. apply total_ret. Qed.

Lemma sendWelcomeMessage_run phone w :
  ∃ r w', AutomaticMessageService.sendWelcomeMessage env phone w = (Ok r, w')
          ∧ posted w' = posted w ++
              match AutomaticMessageService.findTemplate "welcome" with
              | Some template => [(MessageService.formatPhoneNumber phone,
                                   AutomaticMessageService.content template)]
              | None => []
              end.
Proof.
  unfold AutomaticMessageService.sendWelcomeMessage, tryCatch.
  destruct (AutomaticMessageService.findTemplate "welcome") as [template|].
  - unfold bind.
    destruct (sendTextMessage_run env phone (AutomaticMessageService.content template) w)
      as (r & -> & _).
    destruct (MessageService.success r); eexists _, _; split; reflexivity.
  - eexists _, _. split; [reflexivity|]. simpl. rewrite app_nil_r. reflexivity.
Qed.

(** The steps of [answerTurn] up to the reply: the welcome, the intent
    and its recording, the history. *)
Lemma answerTurn_prefix message messageContent context w :
  let intent := resolvedIntent env messageContent (Some context) in
  ∃ context' history w1,
    posted w1 = posted w ++ welcomePosts (ProcessedMessage.clientPhone message) context
    ∧ answerTurn env message messageContent context w
      = (let* responseMessage := replyFor env intent message messageContent context' history in
         let* sendResult := MessageService.sendTextMessage env
                              (ProcessedMessage.clientPhone message) responseMessage in
         if MessageService.success sendResult then
           let* _ := saveOutboundMessage env (ProcessedMessage.clientPhone message)
                       responseMessage (MessageService.messageId sendResult) in
           let* _ := ContextService.updateConversationContext env
                       (ConversationContext.establishment_id context')
                       (ConversationContext.client_phone context')
                       (<["lastMessage" := Js.JStr messageContent]>
                        {[ "lastResponse" := Js.JStr responseMessage ]}) in
           ret {| success := true; response := Some responseMessage; error := None;
                  messageId :=
                    match MessageService.messageId sendResult with
                    | Some m => if String.eqb m "" then None else Some m
                    | None => None
                    end |}
         else ret (failure "Falha ao enviar resposta")) w1.
Proof.
  cbv zeta. unfold answerTurn.
  (* the welcome *)
  assert (∃ wa, (if match ConversationContext.context_data context !! "messageCount" with
                    | Some (Js.JNum 0) => true
                    | _ => false
                    end
                 then let* _ := AutomaticMessageService.sendWelcomeMessage env
                                  (ProcessedMessage.clientPhone message) in ret tt
                 else ret tt) w = (Ok tt, wa)
                ∧ posted wa = posted w
                    ++ welcomePosts (ProcessedMessage.clientPhone message) context)
    as (wa & Hwelcome & Hpa).
  { unfold welcomePosts.
    destruct (ConversationContext.context_data context !! "messageCount") as [[| | |[| |]| | |]|];
      try (exists w; split; [reflexivity|];
           try destruct (AutomaticMessageService.findTemplate "welcome");
           rewrite app_nil_r; reflexivity).
    destruct (sendWelcomeMessage_run (ProcessedMessage.clientPhone message) w)
      as (r & wa & Hrun & Hp).
    exists wa. unfold bind. rewrite Hrun. split; [reflexivity|exact Hp]. }
  unfold bind at 1. rewrite Hwelcome.
  (* the intent *)
  destruct (detectIntent_run messageContent (Some context) wa) as (wb & Hdetect & Hpb).
  unfold bind at 1. rewrite Hdetect.
  (* recording the intent *)
  set (intent := resolvedIntent env messageContent (Some context)).
  assert (∃ context' wc,
            (if bool_decide (Some (intentName intent) = ConversationContext.intent context)
             then ret context
             else let* _ := ContextService.updateConversationContext env
                              (ConversationContext.establishment_id context)
                              (ConversationContext.client_phone context)
                              {[ "intent" := Js.JStr (intentName intent) ]} in
                  ret (with_intent (intentName intent) context)) wb = (Ok context', wc)
            ∧ posted wc = posted wb) as (context' & wc & Hrecord & Hpc).
  { destruct (bool_decide _); [exists context, wb; split; reflexivity|].
    destruct (run_of_total posted _ wb
                (total_update (ConversationContext.establishment_id context)
                   (ConversationContext.client_phone context)
                   {[ "intent" := Js.JStr (intentName intent) ]})
                (keeps_posted_update env _ _ _)) as (b & wc & Hrun & Hp).
    exists (with_intent (intentName intent) context), wc.
    unfold bind. rewrite Hrun. split; [reflexivity|exact Hp]. }
  unfold bind at 1. rewrite Hrecord.
  (* the history *)
  destruct (run_of_total posted _ wc
              (total_history (ProcessedMessage.clientPhone message) 10)
              (keeps_posted_history env _ _)) as (history & wd & Hhistory & Hpd).
  unfold bind at 1. rewrite Hhistory.
  exists context', history, wd. split; [|reflexivity].
  rewrite Hpd, Hpc, Hpb. exact Hpa.
Qed.

Lemma replyFor_completes intent message messageContent context history w :
  (∀ request, llm_completion env request ≠ CompletionThrows) ->
  ∃ reply w', replyFor env intent message messageContent context history w = (Ok reply, w')
              ∧ posted w' = posted w.
Proof.
  intros Hcompletes.
  assert (∃ reply w', (let* aiResponse := OpenAIService.generateResponse env messageContent
                                            context history in
                       ret (OpenAIService.message aiResponse)) w = (Ok reply, w')
                      ∧ posted w' = posted w) as Hgen.
  { unfold OpenAIService.generateResponse, tryCatch, bind, modifyWorld. cbv zeta.
    match goal with |- context [llm_completion env ?r] =>
      pose proof (Hcompletes r) as Hr; destruct (llm_completion env r) end;
      [congruence|]. eexists _, _. split; reflexivity. }
  destruct intent; try exact Hgen; unfold replyFor.
  - apply (run_of_total posted); [apply total_handleScheduling|apply keeps_posted_handleScheduling].
  - apply (run_of_total posted); [apply total_handleCancellation|apply keeps_posted_handleCancellation].
Qed.

Lemma replyFor_throws intent message messageContent context history w :
  (∀ request, llm_completion env request = CompletionThrows) ->
  intent ≠ scheduling -> intent ≠ cancel ->
  ∃ w', replyFor env intent message messageContent context history w
        = (Thrown "Falha ao gerar resposta com IA", w')
        ∧ posted w' = posted w.
Proof.
  intros Hthrows Hs Hc.
  destruct intent; try congruence; unfold replyFor;
    unfold OpenAIService.generateResponse, tryCatch, bind, modifyWorld; cbv zeta;
    rewrite Hthrows; eexists; split; reflexivity.
Qed.

Lemma answerTurn_replies message messageContent context w :
  (∀ request, llm_completion env request ≠ CompletionThrows) ->
  ∃ r reply w',
    answerTurn env message messageContent context w = (Ok r, w')
    ∧ posted w' = posted w ++ welcomePosts (ProcessedMessage.clientPhone message) context
                    ++ [(MessageService.formatPhoneNumber (ProcessedMessage.clientPhone message),
                         reply)]
    ∧ (success r = true -> response r = Some reply).
Proof.
  intros Hcompletes.
  destruct (answerTurn_prefix message messageContent context w)
    as (context' & history & w1 & Hp1 & ->).
  destruct (replyFor_completes (resolvedIntent env messageContent (Some context)) message
              messageContent context' history w1 Hcompletes) as (reply & w2 & Hreply & Hp2).
  unfold bind at 1. rewrite Hreply.
  destruct (sendTextMessage_run env (ProcessedMessage.clientPhone message) reply w2)
    as (sendResult & Hsend & _).
  unfold bind at 1. rewrite Hsend.
  assert (posted (with_posted
            (posted w2 ++ [(MessageService.formatPhoneNumber
                              (ProcessedMessage.clientPhone message), reply)]) w2)
          = posted w ++ welcomePosts (ProcessedMessage.clientPhone message) context
              ++ [(MessageService.formatPhoneNumber (ProcessedMessage.clientPhone message),
                   reply)]) as Hp3.
  { simpl. rewrite Hp2, Hp1, <- app_assoc. reflexivity. }
  destruct (MessageService.success sendResult).
  - destruct (run_of_total posted _
                (with_posted
                   (posted w2 ++ [(MessageService.formatPhoneNumber
                                     (ProcessedMessage.clientPhone message), reply)]) w2)
                (total_saveOutbound (ProcessedMessage.clientPhone message) reply
                   (MessageService.messageId sendResult))
                (keeps_posted_saveOutbound env _ _ _)) as (u & w4 & Hsave & Hp4).
    unfold bind at 1. rewrite Hsave.
    destruct (run_of_total posted _ w4
                (total_update (ConversationContext.establishment_id context')
                   (ConversationContext.client_phone context')
                   (<["lastMessage" := Js.JStr messageContent]>
                    {[ "lastResponse" := Js.JStr reply ]}))
                (keeps_posted_update env _ _ _)) as (b & w5 & Hupdate & Hp5).
    unfold bind at 1. rewrite Hupdate.
    eexists _, reply, w5. split; [reflexivity|]. split; [|reflexivity].
    rewrite Hp5, Hp4. exact Hp3.
  - eexists _, reply, _. split; [reflexivity|]. split; [exact Hp3|]. discriminate.
Qed.

Lemma answerTurn_throws message messageContent context w :
  (∀ request, llm_completion env request = CompletionThrows) ->
  resolvedIntent env messageContent (Some context) ≠ scheduling ->
  resolvedIntent env messageContent (Some context) ≠ cancel ->
  ∃ w', answerTurn env message messageContent context w
        = (Thrown "Falha ao gerar resposta com IA", w')
        ∧ posted w' = posted w ++ welcomePosts (ProcessedMessage.clientPhone message) context.
Proof.
  intros Hthrows Hs Hc.
  destruct (answerTurn_prefix message messageContent context w)
    as (context' & history & w1 & Hp1 & ->).
  destruct (replyFor_throws (resolvedIntent env messageContent (Some context)) message
              messageContent context' history w1 Hthrows Hs Hc) as (w2 & Hreply & Hp2).
  unfold bind at 1. rewrite Hreply. exists w2. split; [reflexivity|].
  rewrite Hp2. exact Hp1.
Qed.

Lemma saveMessage_run message w :
  (∃ e w', saveMessage env message w = (Thrown e, w') ∧ posted w' = posted w)
  ∨ (∃ w', saveMessage env message w = (Ok tt, w')
           ∧ posted w' = posted w
           ∧ turnContext env (ProcessedMessage.clientPhone message) w'
             = turnContext env (ProcessedMessage.clientPhone message) w).
Proof.
  unfold saveMessage, bind, dbCall.
  destruct (db env _); [right|left..]; eexists _; try eexists _; repeat split.
Qed.

Lemma saveMessage_ok message w :
  db env (InsertMessage (ProcessedMessage.clientPhone message)) = DbOk ->
  ∃ w', saveMessage env message w = (Ok tt, w')
        ∧ posted w' = posted w
        ∧ turnContext env (ProcessedMessage.clientPhone message) w'
          = turnContext env (ProcessedMessage.clientPhone message) w.
Proof.
  intros Hdb. unfold saveMessage, bind, dbCall. rewrite Hdb.
  eexists _. repeat split.
Qed.

Lemma getContext_run phone w :
  ∃ found w',
    ContextService.getConversationContext env "default" phone w = (Ok found, w')
    ∧ posted w' = posted w
    ∧ (found = None ∨ found = Some (turnContext env phone w))
    ∧ (db env (SelectContext "default" phone) = DbOk ->
       db env (InsertContext "default" phone) = DbOk ->
       found = Some (turnContext env phone w)).
Proof.
  unfold ContextService.getConversationContext, ContextService.createConversationContext,
    turnContext, tryCatch, bind, dbCall, getWorld.
  destruct (db env (SelectContext "default" phone)); simpl;
    [destruct (conversation_contexts w !! ("default", phone)) as [c|]; simpl;
     [|destruct (db env (InsertContext "default" phone)); simpl]|..];
    eexists _, _; (split; [reflexivity|]); (split; [reflexivity|]);
    (split; [first [right; reflexivity | left; reflexivity]
            |intros; first [reflexivity | discriminate]]).
Qed.

Lemma processMessage_text message messageContent :
  ProcessedMessage.messageType message = "text" ->
  ProcessedMessage.messageContent message = Some messageContent ->
  messageContent ≠ "" ->
  processMessage env message
  = tryCatch
      (let* _ := saveMessage env message in
       let* found := ContextService.getConversationContext env "default"
                       (ProcessedMessage.clientPhone message) in
       match found with
       | None => ret (failure "Falha ao obter contexto da conversação")
       | Some context => answerTurn env message messageContent context
       end)
      (λ _, ret (failure "Falha no processamento da mensagem")).
Proof.
  intros Htype Hcontent Hne. unfold processMessage. rewrite Htype, Hcontent.
  assert (String.eqb messageContent "" = false) as ->
    by (apply String.eqb_neq; exact Hne).
  reflexivity.
Qed.

Lemma tryCatch_ok {A} (m : M A) h w a w' :
  m w = (Ok a, w') -> tryCatch m h w = (Ok a, w').
Proof. intros H. unfold tryCatch. rewrite H. reflexivity. Qed.

Lemma tryCatch_thrown {A} (m : M A) h w e w' :
  m w = (Thrown e, w') -> tryCatch m h w = h e w'.
Proof. intros H. unfold tryCatch. rewrite H. reflexivity. Qed.

Lemma processMessage_total message : total (processMessage env message).
Proof. apply total_tryCatch. intros. apply total_ret. Qed.

(** C2, as the code has it.  A turn never propagates a failure, and a
    failure of the classifier costs the turn nothing: whatever the
    classifier does, the reply is posted once the inbound message and the
    context are stored and reply generation returns.  A failure of reply generation is not
    answered: the turn ends with an unsuccessful result and posts no reply
    (at most the welcome text that preceded it). *)
Theorem turn_outcome_under_failures (message : ProcessedMessage.t) (messageContent : string)
    (w : World) :
  ProcessedMessage.messageType message = "text" ->
  ProcessedMessage.messageContent message = Some messageContent ->
  messageContent ≠ "" ->
  let phone := ProcessedMessage.clientPhone message in
  let run := processMessage env message w in
  (∃ r, run.1 = Ok r)
  ∧ ((∀ request, llm_completion env request ≠ CompletionThrows) ->
     db env (InsertMessage phone) = DbOk ->
     db env (SelectContext "default" phone) = DbOk ->
     db env (InsertContext "default" phone) = DbOk ->
     ∃ r reply,
       run.1 = Ok r
       ∧ posted run.2 = posted w ++ welcomePosts phone (turnContext env phone w)
                          ++ [(MessageService.formatPhoneNumber phone, reply)]
       ∧ (success r = true -> response r = Some reply))
  ∧ ((∀ request, llm_completion env request = CompletionThrows) ->
     (∀ context, resolvedIntent env messageContent (Some context) ≠ scheduling
                 ∧ resolvedIntent env messageContent (Some context) ≠ cancel) ->
     ∃ e, run.1 = Ok (failure e)
          ∧ (posted run.2 = posted w
             ∨ posted run.2 = posted w ++ welcomePosts phone (turnContext env phone w))).
Proof.
  intros Htype Hcontent Hne. cbv zeta.
  split; [apply processMessage_total|].
  rewrite (processMessage_text message messageContent Htype Hcontent Hne).
  split.
  - intros Hcompletes Hinsert Hselect Hcreate.
    destruct (saveMessage_ok message w Hinsert) as (w1 & Hsave & Hp1 & Hc1).
    destruct (getContext_run (ProcessedMessage.clientPhone message) w1)
      as (found & w2 & Hget & Hp2 & _ & Hfound).
    destruct (answerTurn_replies message messageContent
                (turnContext env (ProcessedMessage.clientPhone message) w) w2 Hcompletes)
      as (r & reply & w3 & Hturn & Hp3 & Hr).
    erewrite tryCatch_ok;
      [|unfold bind at 1; rewrite Hsave; unfold bind at 1;
        rewrite Hget, (Hfound Hselect Hcreate), Hc1; exact Hturn].
    exists r, reply. split; [reflexivity|]. split; [|exact Hr].
    cbn [snd]. rewrite Hp3, Hp2, Hp1. reflexivity.
  - intros Hthrows Hintent.
    destruct (saveMessage_run message w)
      as [(e & w1 & Hsave & Hp1)|(w1 & Hsave & Hp1 & Hc1)].
    { erewrite tryCatch_thrown; [|unfold bind at 1; rewrite Hsave; reflexivity].
      eexists. split; [reflexivity|left; exact Hp1]. }
    destruct (getContext_run (ProcessedMessage.clientPhone message) w1)
      as (found & w2 & Hget & Hp2 & [->| ->] & _).
    { erewrite tryCatch_ok;
        [|unfold bind at 1; rewrite Hsave; unfold bind at 1; rewrite Hget; reflexivity].
      eexists. split; [reflexivity|left]. cbn [snd]. rewrite Hp2. exact Hp1. }
    destruct (Hintent (turnContext env (ProcessedMessage.clientPhone message) w)) as [Hs Hc].
    destruct (answerTurn_throws message messageContent
                (turnContext env (ProcessedMessage.clientPhone message) w) w2 Hthrows Hs Hc)
      as (w3 & Hturn & Hp3).
    erewrite tryCatch_thrown;
      [|unfold bind at 1; rewrite Hsave; unfold bind at 1; rewrite Hget, Hc1; exact Hturn].
    eexists. split; [reflexivity|right]. cbn [snd ret].
    rewrite Hp3, Hp2, Hp1. reflexivity.
Qed.

End Orchestrator.

(** ** C1 and C10: the cancellation sub-flow *)
Section CancellationFlow.
Import Effects MessageProcessor.
Variable env : Env.

Lemma keeps_appointments_getContext e p :
  keeps appointments (ContextService.getConversationContext env e p).
Proof.
  unfold ContextService.getConversationContext, ContextService.createConversationContext.
  keeps_auto.
Qed.

Lemma keeps_appointments_update e p u :
  keeps appointments (ContextService.updateConversationContext env e p u).
Proof.
  unfold ContextService.updateConversationContext. keeps_auto;
    try apply keeps_appointments_getContext.
Qed.

Lemma keeps_appointments_clientAppointments phone est :
  keeps appointments (AppointmentService.getClientAppointmentsByPhone env phone est).
Proof.
  unfold AppointmentService.getClientAppointmentsByPhone, AppointmentService.searchAppointments.
  keeps_auto.
Qed.

Lemma keeps_appointments_listCancellable header e p :
  keeps appointments (listCancellable env header e p).
Proof.
  unfold listCancellable. keeps_auto;
    try apply keeps_appointments_clientAppointments;
    try apply keeps_appointments_update.
Qed.

Lemma contextObject_has_no_flag toISO c :
  Js.get (contextObject toISO c) "awaitingCancellation" = Js.JUndefined.
Proof. reflexivity. Qed.

Lemma contextObject_establishment toISO c :
  Js.jsToString (Js.get (contextObject toISO c) "establishment_id")
  = ConversationContext.establishment_id c.
Proof. reflexivity. Qed.

(** C1.  The handler looks for the flag and the candidates on the row of
    the context, where no update ever puts them (they are stored inside
    [context_data]): on every stored context the reply of a cancel turn is
    the listing flow, whatever the text and whatever the context holds,
    and no appointment is touched. *)
Theorem cancel_turn_always_lists (message : ProcessedMessage.t) (messageContent : string)
    (context : ConversationContext.t) (history : list ChatMessage) :
  replyFor env Intent.cancel message messageContent context history
  = tryCatch
      (listCancellable env "❌ *Cancelar agendamento*"
         (ConversationContext.establishment_id context)
         (ProcessedMessage.clientPhone message))
      (λ _, ret "Desculpe, ocorreu um erro ao processar seu cancelamento. Tente novamente.")
  ∧ ∀ w, appointments
           (replyFor env Intent.cancel message messageContent context history w).2
         = appointments w.
Proof.
  assert (replyFor env Intent.cancel message messageContent context history
          = tryCatch
              (listCancellable env "❌ *Cancelar agendamento*"
                 (ConversationContext.establishment_id context)
                 (ProcessedMessage.clientPhone message))
              (λ _, ret "Desculpe, ocorreu um erro ao processar seu cancelamento. Tente novamente."))
    as Heq.
  { unfold replyFor, handleCancellationIntent.
    rewrite contextObject_has_no_flag, contextObject_establishment. reflexivity. }
  split; [exact Heq|]. rewrite Heq. intros w.
  apply (keeps_tryCatch appointments); [apply keeps_appointments_listCancellable|].
  intros e. apply keeps_ret.
Qed.

End CancellationFlow.

Section TwoTurns.
Import Effects Demo.

(** C10.  The branch that clears the sub-state does so whatever the
    cancellation returns, but only a context object that carries the flag
    and the candidates itself reaches it (the first three facts, with a
    cancellation that fails).  The stored context keeps both inside
    [context_data], so through [processMessage] a valid choice clears
    nothing: after the listing has stored the flag and three candidates,
    the answer 2 gets the same listing again, no cancellation is attempted,
    all three bookings stay scheduled, and the flag and the candidates are
    still stored; this with a cancellation that would fail as with one that
    would succeed. *)
Theorem valid_choice_restarts_listing :
  (MessageProcessor.handleCancellationIntent cancelFailsEnv (inbound "2")
     (liftedContext afterListing) afterListing).1
  = Ok "Erro ao cancelar agendamento. Tente novamente ou entre em contato conosco."
  ∧ storedUnder "awaitingCancellation"
      (MessageProcessor.handleCancellationIntent cancelFailsEnv (inbound "2")
         (liftedContext afterListing) afterListing).2 = Some (Js.JBool false)
  ∧ storedUnder "cancellableAppointments"
      (MessageProcessor.handleCancellationIntent cancelFailsEnv (inbound "2")
         (liftedContext afterListing) afterListing).2 = None
  ∧ storedUnder "awaitingCancellation" afterListing = Some (Js.JBool true)
  ∧ (∃ candidates, storedUnder "cancellableAppointments" afterListing = Some (Js.JArr candidates)
                   ∧ length candidates = 3)
  ∧ (MessageProcessor.processMessage demoEnv (inbound "2") afterListing).1
    = (MessageProcessor.processMessage demoEnv (inbound "quero cancelar") salon).1
  ∧ Appointment.status <$> appointments afterChoice = ["scheduled"; "scheduled"; "scheduled"]
  ∧ storedUnder "awaitingCancellation" afterChoice = Some (Js.JBool true)
  ∧ storedUnder "cancellableAppointments" afterChoice
    = storedUnder "cancellableAppointments" afterListing
  ∧ (MessageProcessor.processMessage cancelFailsEnv (inbound "2") afterListing).1
    = (MessageProcessor.processMessage demoEnv (inbound "2") afterListing).1
  ∧ storedUnder "awaitingCancellation"
      (MessageProcessor.processMessage cancelFailsEnv (inbound "2") afterListing).2
    = Some (Js.JBool true).
Proof.
  split; [vm_compute; reflexivity|].
  split; [vm_compute; reflexivity|].
  split; [vm_compute; reflexivity|].
  split; [vm_compute; reflexivity|].
  split; [eexists; split; vm_compute; reflexivity|].
  split; [vm_compute; reflexivity|].
  split; [vm_compute; reflexivity|].
  split; [vm_compute; reflexivity|].
  split; [vm_compute; reflexivity|].
  split; vm_compute; reflexivity.
Qed.

End TwoTurns.

(** ** The theorems at concrete inputs *)
Section Instances.
Import Effects Demo MessageProcessor AutomaticMessageService.


(** The example of the specification, rendered once and again. *)
Lemma render_fills_and_is_idempotent_witness :
  renderTemplate demoEnv "Hi {a} {b}" [("a", "X")] = Some "Hi X {b}"
  ∧ renderTemplate demoEnv "Hi X {b}" [("a", "X")] = Some "Hi X {b}".
Proof.
  destruct (render_fills_and_is_idempotent demoEnv hiTokens [("a", "X")] eq_refl eq_refl)
    as (Hfirst & Hagain & _).
  split; [exact Hfirst|exact Hagain].
Defined.

(** A value that brings its own placeholder is expanded again by the next
    rendering. *)
Lemma render_again_differs :
  renderTemplate demoEnv "{a}" [("a", "{a}!")] = Some "{a}!"
  ∧ renderTemplate demoEnv "{a}!" [("a", "{a}!")] = Some "{a}!!"
  ∧ ¬ (∀ template variables rendered,
         renderTemplate demoEnv template variables = Some rendered ->
         renderTemplate demoEnv rendered variables = Some rendered).
Proof.
  split; [vm_compute; reflexivity|]. split; [vm_compute; reflexivity|].
  intros Hidem.
  specialize (Hidem "{a}" [("a", "{a}!")] "{a}!" ltac:(vm_compute; reflexivity)).
  vm_compute in Hidem. discriminate Hidem.
Qed.

(** The eleventh exchange on a full history. *)
Lemma history_never_exceeds_ten_witness :
  length (historyAt tenExchanges clientKey) = 10
  ∧ historyStaysBounded demoEnv clientKey [exchange 11] tenExchanges.
Proof.
  split; [vm_compute; reflexivity|].
  apply (history_never_exceeds_ten demoEnv "default" clientPhone [exchange 11] tenExchanges).
  - constructor; [|constructor]. split; vm_compute; reflexivity.
  - vm_compute. lia.
Defined.



(** With the classifier down the greeting is answered; with the whole LLM
    down the turn fails and only the welcome text reaches the new client. *)
Lemma turn_outcome_under_failures_witness :
  (∃ r reply,
     (processMessage classifierDownEnv (inbound "bom dia") salon).1 = Ok r
     ∧ posted (processMessage classifierDownEnv (inbound "bom dia") salon).2
       = posted salon ++ welcomePosts clientPhone (turnContext classifierDownEnv clientPhone salon)
           ++ [(MessageService.formatPhoneNumber clientPhone, reply)]
     ∧ (MessageProcessor.success r = true -> MessageProcessor.response r = Some reply))
  ∧ (∃ e, (processMessage outageEnv (inbound "bom dia") salon).1 = Ok (failure e)).
Proof.
  split.
  - pose proof (turn_outcome_under_failures classifierDownEnv (inbound "bom dia") "bom dia" salon
                  eq_refl eq_refl ltac:(discriminate)) as H.
    cbv zeta in H. destruct H as (_ & Hreply & _).
    apply Hreply; [intros request; discriminate|reflexivity..].
  - pose proof (turn_outcome_under_failures outageEnv (inbound "bom dia") "bom dia" salon
                  eq_refl eq_refl ltac:(discriminate)) as H.
    cbv zeta in H. destruct H as (_ & _ & Hfail).
    destruct Hfail as (e & He & _).
    + intros request. reflexivity.
    + intros context. unfold resolvedIntent, stageIntent.
      generalize (IntentService.historySliceable (Some context)).
      intros [|]; vm_compute; split; discriminate.
    + exists e. exact He.
Defined.

(** With the LLM down, the greeting of a known client gets no answer: not
    every text message is replied to when reply generation fails. *)
Lemma reply_failure_is_not_answered :
  (processMessage outageEnv (inbound "bom dia") afterListing).1
  = Ok (failure "Falha no processamento da mensagem")
  ∧ posted (processMessage outageEnv (inbound "bom dia") afterListing).2 = posted afterListing
  ∧ ¬ (∀ env message w,
         ProcessedMessage.messageType message = "text" ->
         (∀ request, llm_completion env request = CompletionThrows) ->
         ∃ reply,
           (MessageService.formatPhoneNumber (ProcessedMessage.clientPhone message), reply)
           ∈ drop (length (posted w)) (posted (processMessage env message w).2)).
Proof.
  split; [vm_compute; reflexivity|].
  split; [vm_compute; reflexivity|].
  intros Hreplies.
  destruct (Hreplies outageEnv (inbound "bom dia") afterListing eq_refl (λ _, eq_refl))
    as [reply Hposted].
  assert (drop (length (posted afterListing))
            (posted (processMessage outageEnv (inbound "bom dia") afterListing).2) = [])
    as Hnone by (vm_compute; reflexivity).
  rewrite Hnone in Hposted. inversion Hposted.
Qed.

End Instances.

(* ===================================================================== *)
(** * Part IV: properties beyond the specification                        *)
(* ===================================================================== *)

(** ** The rate limiter *)
Section RateLimiterFacts.
Import RateLimiter.
Variables windowMs maxRequests : Z.

Lemma middleware_at req now (store : gmap string Entry) :
  let e := currentEntry windowMs (getKey req) now store in
  middleware windowMs maxRequests req now store
  = (<[getKey req := {| count := count e + 1; resetTime := resetTime e |}]> store,
     nthAnswer maxRequests (resetTime e) (count e + 1) now).
Proof. reflexivity. Qed.

Lemma currentEntry_agree key now (s1 s2 : gmap string Entry) :
  s1 !! key = s2 !! key ->
  currentEntry windowMs key now s1 = currentEntry windowMs key now s2.
Proof. intros H. unfold currentEntry. rewrite H. reflexivity. Qed.



Lemma serve_agree key (log : list (Request * Z)) (s1 s2 : gmap string Entry) :
  s1 !! key = s2 !! key ->
  answersTo key log (serve windowMs maxRequests log s1).2
  = (serve windowMs maxRequests (ofClient key log) s2).2.
Proof.
  revert s1 s2. induction log as [|[req now] log IH]; intros s1 s2 Hagree; [reflexivity|].
  unfold ofClient. rewrite filter_cons. cbn [fst].
  cbn [serve]. rewrite middleware_at. cbv zeta.
  destruct (decide (getKey req = key)) as [Hk|Hk].
  - cbn [serve]. rewrite middleware_at. cbv zeta.
    rewrite Hk. rewrite (currentEntry_agree key now s1 s2 Hagree).
    specialize (IH (<[key := {| count := count (currentEntry windowMs key now s2) + 1;
                                resetTime := resetTime (currentEntry windowMs key now s2) |}]> s1)
                   (<[key := {| count := count (currentEntry windowMs key now s2) + 1;
                                resetTime := resetTime (currentEntry windowMs key now s2) |}]> s2)).
    rewrite !lookup_insert_eq in IH. specialize (IH eq_refl).
    fold (ofClient key log).
    destruct (serve windowMs maxRequests log _) as [sa ra].
    destruct (serve windowMs maxRequests (ofClient key log) _) as [sb rb].
    simpl in *. rewrite decide_True by exact Hk. f_equal. exact IH.
  - specialize (IH (<[getKey req := {| count := count (currentEntry windowMs (getKey req) now s1) + 1;
                                       resetTime := resetTime (currentEntry windowMs (getKey req) now s1) |}]> s1)
                   s2).
    rewrite lookup_insert_ne in IH by exact Hk. specialize (IH Hagree).
    fold (ofClient key log).
    destruct (serve windowMs maxRequests log _) as [sa ra].
    simpl in *. rewrite decide_False by exact Hk. exact IH.
Qed.

(** X2.  Clients are counted apart: the responses a client gets in a log
    of requests are the ones it would get if the requests of all other
    clients were left out. *)
Theorem other_clients_do_not_count (key : string) (log : list (Request * Z))
    (store : gmap string Entry) :
  answersTo key log (serve windowMs maxRequests log store).2
  = (serve windowMs maxRequests (ofClient key log) store).2.
Proof. apply serve_agree. reflexivity. Qed.

Lemma serve_upToExpired c (log : list (Request * Z)) (s1 s2 : gmap string Entry) :
  upToExpired c s1 s2 ->
  Forall (λ rq, (c <= rq.2)%Z) log ->
  (serve windowMs maxRequests log s1).2 = (serve windowMs maxRequests log s2).2.
Proof.
  revert s1 s2. induction log as [|[req now] log IH]; intros s1 s2 HR Hall; [reflexivity|].
  apply Forall_cons in Hall as [Hnow Hall]. simpl in Hnow.
  cbn [serve]. rewrite !middleware_at. cbv zeta.
  assert (currentEntry windowMs (getKey req) now s1
          = currentEntry windowMs (getKey req) now s2) as Hcur.
  { unfold currentEntry. destruct (HR (getKey req)) as [->|[-> (e & -> & He)]]; [reflexivity|].
    destruct (Z.ltb_spec (resetTime e) now); [reflexivity|lia]. }
  rewrite Hcur.
  specialize (IH (<[getKey req := {| count := count (currentEntry windowMs (getKey req) now s2) + 1;
                                     resetTime := resetTime (currentEntry windowMs (getKey req) now s2) |}]> s1)
                 (<[getKey req := {| count := count (currentEntry windowMs (getKey req) now s2) + 1;
                                     resetTime := resetTime (currentEntry windowMs (getKey req) now s2) |}]> s2)).
  assert (Hnext : upToExpired c
            (<[getKey req := {| count := count (currentEntry windowMs (getKey req) now s2) + 1;
                                resetTime := resetTime (currentEntry windowMs (getKey req) now s2) |}]> s1)
            (<[getKey req := {| count := count (currentEntry windowMs (getKey req) now s2) + 1;
                                resetTime := resetTime (currentEntry windowMs (getKey req) now s2) |}]> s2)).
  { intros k. destruct (decide (getKey req = k)) as [<-|Hne].
    - left. rewrite !lookup_insert_eq. reflexivity.
    - rewrite !lookup_insert_ne by exact Hne. apply HR. }
  specialize (IH Hnext Hall).
  destruct (serve windowMs maxRequests log _) as [sa ra].
  destruct (serve windowMs maxRequests log _) as [sb rb].
  simpl in *. f_equal. exact IH.
Qed.

(** X3.  The periodic cleanup is not observable: deleting the expired
    records at an instant changes no response to a request that arrives
    at or after it. *)
Theorem cleanup_changes_no_response (c : Z) (log : list (Request * Z))
    (store : gmap string Entry) :
  Forall (λ rq, (c <= rq.2)%Z) log ->
  (serve windowMs maxRequests log (cleanup c store)).2
  = (serve windowMs maxRequests log store).2.
Proof.
  apply serve_upToExpired. intros k. unfold cleanup. rewrite map_lookup_filter.
  destruct (store !! k) as [e|]; simpl; [|left; reflexivity].
  destruct (decide (resetTime e < c)%Z) as [Hexp|Hlive].
  - right. rewrite option_guard_False by (simpl; lia). split; [reflexivity|]. eauto.
  - left. rewrite option_guard_True by (simpl; lia). reflexivity.
Qed.



End RateLimiterFacts.

(** ** Phone numbers *)
Section PhoneNumbers.
Import MessageService JsString.

Lemma keepDigits_digits s : AutomaticMessageService.allChars isDigit (keepDigits s) = true.
Proof.
  induction s as [|c s IH]; simpl; [reflexivity|].
  destruct (isDigit c) eqn:E; simpl; [rewrite E|]; exact IH.
Qed.

Lemma keepDigits_id s : AutomaticMessageService.allChars isDigit s = true -> keepDigits s = s.
Proof.
  induction s as [|c s IH]; simpl; [reflexivity|].
  intros H. apply andb_prop in H as [-> Hs]. rewrite IH by exact Hs. reflexivity.
Qed.

Lemma keepDigits_app a b : keepDigits (a +:+ b) = keepDigits a +:+ keepDigits b.
Proof.
  induction a as [|c a IH]; simpl; [reflexivity|].
  destruct (isDigit c); simpl; rewrite IH; reflexivity.
Qed.

Lemma digits_have_no_at s :
  AutomaticMessageService.allChars isDigit s = true -> Js.includes s "@" = false.
Proof.
  induction s as [|c s IH]; [reflexivity|].
  cbn [Js.includes AutomaticMessageService.allChars].
  intros H. apply andb_prop in H as [Hc Hs]. rewrite (IH Hs), orb_false_r, prefix_cons.
  destruct (Ascii.eqb_spec "@" c) as [<-|_]; [discriminate Hc|reflexivity].
Qed.

Lemma beforeChar_digits s rest :
  AutomaticMessageService.allChars isDigit s = true ->
  beforeChar "@" (s +:+ String "@" rest) = s.
Proof.
  induction s as [|c s IH]; simpl; [reflexivity|].
  intros H. apply andb_prop in H as [Hc Hs]. rewrite (IH Hs).
  destruct (Ascii.eqb_spec c "@") as [->|_]; [discriminate Hc|reflexivity].
Qed.

Lemma allDigits_app a b :
  AutomaticMessageService.allChars isDigit (a +:+ b)
  = AutomaticMessageService.allChars isDigit a && AutomaticMessageService.allChars isDigit b.
Proof.
  induction a as [|c a IH]; simpl; [reflexivity|]. rewrite IH, andb_assoc. reflexivity.
Qed.

Lemma str_app_empty s : s +:+ "" = s.
Proof.
  induction s as [|c s IH]; [reflexivity|].
  change (String c (s +:+ "") = String c s). rewrite IH. reflexivity.
Qed.

Lemma formatPhoneNumber_digits phone :
  formatPhoneNumber phone = nationalNumber (keepDigits phone) +:+ "@c.us"
  ∧ AutomaticMessageService.allChars isDigit (nationalNumber (keepDigits phone)) = true.
Proof.
  assert (Hd : AutomaticMessageService.allChars isDigit (nationalNumber (keepDigits phone)) = true).
  { unfold nationalNumber. destruct (_ && _); [|apply keepDigits_digits].
    rewrite allDigits_app, keepDigits_digits. reflexivity. }
  split; [|exact Hd].
  unfold formatPhoneNumber. cbv zeta. fold (nationalNumber (keepDigits phone)).
  rewrite (digits_have_no_at _ Hd). reflexivity.
Qed.

Lemma nationalNumber_idem d : nationalNumber (nationalNumber d) = nationalNumber d.
Proof.
  unfold nationalNumber.
  destruct (negb (String.prefix "55" d) && (String.length d =? 11)%nat) eqn:E.
  - change ("55" +:+ d) with (String "5" (String "5" d)).
    rewrite !prefix_cons, prefix_nil. reflexivity.
  - rewrite E. reflexivity.
Qed.

(** X5.  Addresses have a normal form.  [formatPhoneNumber] always
    yields digits followed by [@c.us] (the suffix is never found already
    there), formatting a formatted address changes nothing, and
    [extractPhoneNumber] gives the digits back, throwing exactly when the
    phone had no digit at all. *)
Theorem format_phone_number_normal_form (phone : string) :
  formatPhoneNumber phone = beforeChar "@" (formatPhoneNumber phone) +:+ "@c.us"
  ∧ AutomaticMessageService.allChars isDigit (beforeChar "@" (formatPhoneNumber phone)) = true
  ∧ formatPhoneNumber (formatPhoneNumber phone) = formatPhoneNumber phone
  ∧ Webhook.extractPhoneNumber (formatPhoneNumber phone)
    = if String.eqb (keepDigits phone) "" then None
      else Some (beforeChar "@" (formatPhoneNumber phone)).
Proof.
  destruct (formatPhoneNumber_digits phone) as [Hshape Hd].
  assert (Hb : beforeChar "@" (formatPhoneNumber phone) = nationalNumber (keepDigits phone)).
  { rewrite Hshape. apply (beforeChar_digits _ "c.us" Hd). }
  rewrite Hb. split; [exact Hshape|]. split; [exact Hd|]. split.
  - destruct (formatPhoneNumber_digits (formatPhoneNumber phone)) as [-> _].
    rewrite Hshape, keepDigits_app, (keepDigits_id _ Hd). simpl keepDigits.
    rewrite str_app_empty.
    rewrite nationalNumber_idem. reflexivity.
  - unfold Webhook.extractPhoneNumber. cbv zeta. rewrite Hb.
    unfold nationalNumber.
    destruct (negb (String.prefix "55" (keepDigits phone))
              && (String.length (keepDigits phone) =? 11)%nat) eqn:E.
    + destruct (keepDigits phone); [discriminate E|reflexivity].
    + reflexivity.
Qed.

End PhoneNumbers.

(** ** The webhook route *)
Section WebhookRoute.
Import Effects Webhook MessageProcessor.
Variable env : Env.
Variable selectConfig : string -> DbOutcome.
Variable insertMessage : string -> DbOutcome.

Lemma extracted_type_text message :
  (extractMessageContent message).2 = "text" ↔ isWritten message = true.
Proof.
  unfold extractMessageContent, isWritten.
  destruct (JsString.nonEmpty (conversation message)); [split; reflexivity|].
  destruct (JsString.nonEmpty (extendedTextMessage message)); [split; reflexivity|].
  destruct (imageMessage message); [split; discriminate|].
  destruct (audioMessage message); [split; discriminate|].
  destruct (videoMessage message); [split; discriminate|].
  destruct (documentMessage message); split; discriminate.
Qed.

Lemma orElse_nonEmpty a b : b ≠ "" -> JsString.orElse a b ≠ "".
Proof.
  intros Hb. unfold JsString.orElse. destruct a as [s|]; [|exact Hb].
  destruct (String.eqb_spec s ""); [exact Hb|assumption].
Qed.

Lemma extracted_content_nonEmpty message : (extractMessageContent message).1 ≠ "".
Proof.
  unfold extractMessageContent.
  destruct (conversation message) as [s|] eqn:E1; simpl.
  - destruct (String.eqb_spec s ""); simpl; [|assumption].
    destruct (extendedTextMessage message) as [t|]; simpl.
    + destruct (String.eqb_spec t ""); simpl; [|assumption].
      destruct (imageMessage message); [apply orElse_nonEmpty; discriminate|].
      destruct (audioMessage message); [discriminate|].
      destruct (videoMessage message); [apply orElse_nonEmpty; discriminate|].
      destruct (documentMessage message); [apply orElse_nonEmpty|]; discriminate.
    + destruct (imageMessage message); [apply orElse_nonEmpty; discriminate|].
      destruct (audioMessage message); [discriminate|].
      destruct (videoMessage message); [apply orElse_nonEmpty; discriminate|].
      destruct (documentMessage message); [apply orElse_nonEmpty|]; discriminate.
  - destruct (extendedTextMessage message) as [t|]; simpl.
    + destruct (String.eqb_spec t ""); simpl; [|assumption].
      destruct (imageMessage message); [apply orElse_nonEmpty; discriminate|].
      destruct (audioMessage message); [discriminate|].
      destruct (videoMessage message); [apply orElse_nonEmpty; discriminate|].
      destruct (documentMessage message); [apply orElse_nonEmpty|]; discriminate.
    + destruct (imageMessage message); [apply orElse_nonEmpty; discriminate|].
      destruct (audioMessage message); [discriminate|].
      destruct (videoMessage message); [apply orElse_nonEmpty; discriminate|].
      destruct (documentMessage message); [apply orElse_nonEmpty|]; discriminate.
Qed.

Lemma processMessage_not_text (message : ProcessedMessage.t) :
  ProcessedMessage.messageType message ≠ "text" ->
  keeps beyondMessages (processMessage env message).
Proof.
  intros Htype. unfold processMessage.
  apply keeps_tryCatch; [|intros; apply keeps_ret].
  apply keeps_bind; [unfold saveMessage; keeps_auto|]. intros _.
  destruct (ProcessedMessage.messageContent message); [|apply keeps_ret].
  destruct (String.eqb_spec (ProcessedMessage.messageType message) "text"); [contradiction|].
  apply keeps_ret.
Qed.

(** X6.  Only written text is answered.  A webhook whose message carries
    no written text (a photo, an audio, a video, a document, anything
    else) never reaches the assistant's reply: whatever the store and the
    configuration, nothing is posted to the gateway, the LLM is not
    called, and no context, appointment or scheduled message changes. *)
Theorem media_is_never_answered (webhookData : WebhookData) (st : State) :
  isWritten (message webhookData) = false ->
  beyondMessages (world (post env selectConfig insertMessage webhookData st).2)
  = beyondMessages (world st).
Proof.
  intros Hmedia. unfold post.
  destruct (fromMe webhookData); [reflexivity|].
  destruct (getInstanceConfig _ _ _) as [config|]; [|reflexivity].
  destruct (extractMessageContent (message webhookData)) as [content type] eqn:E.
  destruct (extractPhoneNumber _) as [clientPhone|]; [|reflexivity]. cbv zeta.
  destruct (negb _); [reflexivity|].
  destruct (insertMessage _); try reflexivity.
  destruct (ai_enabled config); [|reflexivity]. cbn [snd world].
  apply processMessage_not_text. cbn [ProcessedMessage.messageType].
  intros ->. pose proof (proj1 (extracted_type_text (message webhookData))) as H.
  rewrite E in H. specialize (H eq_refl). congruence.
Qed.

(** X7.  A webhook is recorded once or not at all, and the answer of the
    route does not depend on the assistant.  Unless the route answers
    [success], nothing changes: a message of the instance itself, an
    unknown instance, an address with nothing before the [@], a timestamp
    no date can hold and a failing store leave every table as it was.
    When it answers [success], exactly one row was appended to
    [whatsapp_messages], for the phone before the [@], with a content that
    is never empty, and [processed] tells whether the assistant is
    enabled, not whether its turn succeeded. *)
Theorem webhook_recorded_once_or_not_at_all (webhookData : WebhookData) (st : State) :
  match (post env selectConfig insertMessage webhookData st).1 with
  | Accepted messageId processed =>
      messageId = id webhookData
      ∧ fromMe webhookData = false
      ∧ (∃ config, getInstanceConfig selectConfig (instanceName webhookData)
                     (uazapi_configurations st) = Some config
                   ∧ processed = ai_enabled config
                   ∧ (processed = false ->
                      world (post env selectConfig insertMessage webhookData st).2 = world st))
      ∧ ∃ row, whatsapp_messages (post env selectConfig insertMessage webhookData st).2
               = whatsapp_messages st ++ [row]
               ∧ message_id row = id webhookData
               ∧ client_phone row = JsString.beforeChar "@" (remoteJid webhookData)
               ∧ client_phone row ≠ ""
               ∧ message_content row ≠ ""
  | _ => (post env selectConfig insertMessage webhookData st).2 = st
  end.
Proof.
  unfold post.
  destruct (fromMe webhookData); [reflexivity|].
  destruct (getInstanceConfig _ _ _) as [config|] eqn:Hconfig; [|reflexivity].
  pose proof (extracted_content_nonEmpty (message webhookData)) as Hcontent.
  destruct (extractMessageContent (message webhookData)) as [content type].
  unfold extractPhoneNumber. cbv zeta.
  destruct (String.eqb_spec (JsString.beforeChar "@" (remoteJid webhookData)) "") as [|Hphone];
    [reflexivity|].
  destruct (negb _); [reflexivity|].
  destruct (insertMessage _); try reflexivity.
  destruct (ai_enabled config) eqn:Hai; cbn [fst snd whatsapp_messages world].
  - split; [reflexivity|]. split; [reflexivity|]. split.
    + exists config. split; [reflexivity|]. split; [congruence|]. discriminate.
    + eexists. split; [reflexivity|]. cbn. auto.
  - split; [reflexivity|]. split; [reflexivity|]. split.
    + exists config. split; [reflexivity|]. split; [congruence|]. reflexivity.
    + eexists. split; [reflexivity|]. cbn. auto.
Qed.

End WebhookRoute.

(** ** Sending with retries *)
Section Retry.
Import Effects MessageService MessageRetry.
Variable env : Env.





End Retry.

(** ** The contexts: creation and housekeeping *)
Section ContextLifeCycle.
Import Effects ContextService ContextAdmin.
Variable env : Env.

(** X9.  A context is created once.  With the store answering, the first
    request for a client creates the row (no message counted yet, active,
    greeting) and every later one finds it: asking again returns the same
    row and changes nothing, and no other row is touched. *)
Theorem context_is_created_once (establishmentId clientPhone : string) (w : World) :
  db env (SelectContext establishmentId clientPhone) = DbOk ->
  db env (InsertContext establishmentId clientPhone) = DbOk ->
  ∃ c w1,
    getConversationContext env establishmentId clientPhone w = (Ok (Some c), w1)
    ∧ conversation_contexts w1
      = <[(establishmentId, clientPhone) := c]> (conversation_contexts w)
    ∧ (∀ c0, conversation_contexts w !! (establishmentId, clientPhone) = Some c0 ->
             c = c0 ∧ w1 = w)
    ∧ (conversation_contexts w !! (establishmentId, clientPhone) = None ->
       ConversationContext.context_data c !! "messageCount" = Some (Js.JNum 0)
       ∧ ConversationContext.conversation_state c = "active"
       ∧ ConversationContext.intent c = Some "greeting"
       ∧ ConversationContext.establishment_id c = establishmentId
       ∧ ConversationContext.client_phone c = clientPhone)
    ∧ getConversationContext env establishmentId clientPhone w1 = (Ok (Some c), w1).
Proof.
  intros Hselect Hinsert.
  unfold getConversationContext, createConversationContext, tryCatch, bind, dbCall, getWorld.
  rewrite Hselect. cbn [ret].
  destruct (conversation_contexts w !! (establishmentId, clientPhone)) as [c0|] eqn:Hc.
  - exists c0, w. cbn [ret]. rewrite Hc. split; [reflexivity|].
    split; [symmetry; apply insert_id; exact Hc|].
    split; [intros c1 H1; inversion H1; split; reflexivity|].
    split; [discriminate|reflexivity].
  - rewrite Hinsert. cbn [ret modifyWorld fst snd].
    eexists _, _. split; [reflexivity|]. cbn [conversation_contexts with_fresh
      with_conversation_contexts]. split; [reflexivity|].
    split; [discriminate|]. split; [intros _; repeat split; reflexivity|].
    rewrite lookup_insert_eq. reflexivity.
Qed.

Variable hoursBefore : Z -> Z -> option Z.

Lemma closedAt_active e cutoff t c : isInactive e cutoff (closedAt t c) = false.
Proof. unfold isInactive. cbn. rewrite andb_false_r. reflexivity. Qed.

(** X10.  Closing the inactive contexts.  When the store answers (and the
    cutoff is an instant a date can hold), the call closes exactly the
    active contexts of the establishment that were last used before the
    cutoff and returns how many they were; it keeps their data, leaves
    every other row as it was, and leaves none to close, so that closing
    again at once closes nothing.  Otherwise it reports zero and changes
    nothing. *)
Theorem closing_leaves_nothing_to_close (store : DbOutcome) (establishmentId : string)
    (inactivityHours : Z) (w : World) :
  ∃ n w',
    closeInactiveContexts hoursBefore store establishmentId inactivityHours w = (Ok n, w')
    ∧ match store, hoursBefore (now w) inactivityHours with
      | DbOk, Some cutoff =>
        n = size (filter (λ kc, isInactive establishmentId cutoff kc.2 = true)
                    (conversation_contexts w))
        ∧ (∀ k, conversation_contexts w' !! k
                = (λ c, if isInactive establishmentId cutoff c
                        then closedAt (now w) c else c) <$> conversation_contexts w !! k)
        ∧ (∀ k c, conversation_contexts w' !! k = Some c ->
                  isInactive establishmentId cutoff c = false)
        ∧ closeInactiveContexts hoursBefore store establishmentId inactivityHours w'
          = (Ok 0, w')
      | _, _ => n = 0 ∧ w' = w
      end.
Proof.
  unfold closeInactiveContexts, tryCatch, bind, getWorld, modifyWorld. cbn [ret fst snd].
  destruct (hoursBefore (now w) inactivityHours) as [cutoff|] eqn:Hcut;
    [|destruct store; eexists _, _; (split; [reflexivity|]); split; reflexivity].
  destruct store; cbn [ret throw fst snd].
  - eexists _, _. split; [reflexivity|].
    cbn [conversation_contexts with_conversation_contexts now]. rewrite Hcut.
    assert (Hnone : ∀ k c,
              ((λ c, if isInactive establishmentId cutoff c then closedAt (now w) c else c)
                 <$> conversation_contexts w) !! k = Some c ->
              isInactive establishmentId cutoff c = false).
    { intros k c. rewrite lookup_fmap.
      destruct (conversation_contexts w !! k) as [c0|]; [|discriminate].
      simpl. intros H. inversion H.
      destruct (isInactive establishmentId cutoff c0) eqn:E; [apply closedAt_active|exact E]. }
    split; [reflexivity|]. split; [intros k; apply lookup_fmap|]. split; [exact Hnone|].
    cbn [ret throw fst snd].
    f_equal; [f_equal|].
    + apply map_size_empty_iff, map_empty. intros k. apply map_lookup_filter_None. right.
      intros c Hc. cbn [snd]. rewrite (Hnone k c Hc). discriminate.
    + destruct w. cbn. unfold with_conversation_contexts. cbn. f_equal.
      apply map_eq. intros k. rewrite lookup_fmap.
      destruct (_ !! k) as [c|] eqn:Hc; [|reflexivity].
      cbn. rewrite (Hnone k c Hc). reflexivity.
  - eexists _, _. split; [reflexivity|]. split; reflexivity.
  - eexists _, _. split; [reflexivity|]. split; reflexivity.
Qed.

End ContextLifeCycle.

(** ** The latest rows of a table *)
Section LatestRows.

Lemma insertBy_ext {A} (le1 le2 : A -> A -> bool) x (l : list A) :
  (∀ a b, le1 a b = le2 a b) ->
  AppointmentService.insertBy le1 x l = AppointmentService.insertBy le2 x l.
Proof.
  intros Hext. induction l as [|y l IH]; [reflexivity|].
  cbn [AppointmentService.insertBy]. rewrite Hext, IH. reflexivity.
Qed.

Lemma sortBy_ext {A} (le1 le2 : A -> A -> bool) (l : list A) :
  (∀ a b, le1 a b = le2 a b) ->
  AppointmentService.sortBy le1 l = AppointmentService.sortBy le2 l.
Proof.
  intros Hext. unfold AppointmentService.sortBy.
  induction l as [|x l IH]; [reflexivity|].
  cbn [foldr]. rewrite IH. apply insertBy_ext, Hext.
Qed.

Lemma stronglySorted_fmap {A} (f : A -> Z) (R : A -> A -> Prop) (l : list A) :
  (∀ a b, (f a <= f b)%Z -> R a b) ->
  StronglySorted Z.le (f <$> l) -> StronglySorted R l.
Proof.
  intros HR. induction l as [|x l IH]; [constructor|].
  rewrite fmap_cons. intros H. apply StronglySorted_inv in H as [Hl Hx].
  constructor; [apply IH, Hl|]. rewrite Forall_fmap in Hx.
  eapply Forall_impl; [exact Hx|]. intros y Hy. apply HR, Hy.
Qed.

Lemma stronglySorted_split {A} (R : A -> A -> Prop) (l1 l2 : list A) :
  StronglySorted R (l1 ++ l2) ->
  StronglySorted R l1 ∧ ∀ x y, x ∈ l1 -> y ∈ l2 -> R x y.
Proof.
  induction l1 as [|a l1 IH]; simpl; intros H.
  - split; [constructor|]. intros x y Hx. inversion Hx.
  - apply StronglySorted_inv in H as [Hl Ha]. destruct (IH Hl) as [Hs Hcross].
    apply Forall_app in Ha as [Ha1 Ha2]. split; [constructor; assumption|].
    intros x y Hx Hy. apply elem_of_cons in Hx as [->|Hx]; [|apply Hcross; assumption].
    rewrite Forall_forall in Ha2. apply Ha2, Hy.
Qed.

Lemma stronglySorted_snoc {A} (R : A -> A -> Prop) (l : list A) x :
  StronglySorted R l -> Forall (λ y, R y x) l -> StronglySorted R (l ++ [x]).
Proof.
  induction l as [|b l IH]; intros Hl Hall; [repeat constructor|].
  apply StronglySorted_inv in Hl as [Hl Hb]. apply Forall_cons in Hall as [Hbx Hall].
  simpl. constructor; [apply IH; assumption|].
  apply Forall_app. split; [exact Hb|]. repeat constructor. exact Hbx.
Qed.

Lemma stronglySorted_rev {A} (R : A -> A -> Prop) (l : list A) :
  StronglySorted R l -> StronglySorted (λ a b, R b a) (rev l).
Proof.
  induction 1 as [|a l Hl IH Ha]; [constructor|].
  simpl. apply stronglySorted_snoc; [exact IH|].
  apply Forall_forall. intros y Hy. apply list_elem_of_In, in_rev, list_elem_of_In in Hy.
  rewrite Forall_forall in Ha. apply Ha, Hy.
Qed.

(** The rows an [ORDER BY ... DESC LIMIT] yields: a permutation of the
    table splits into the rows kept, newest first, and the rows left out,
    none of which is newer than a row kept. *)
Lemma newest_first {A} (ts : A -> Z) (limit : nat) (l : list A) :
  take limit (AppointmentService.sortBy (λ a b, (ts b <=? ts a)%Z) l)
  ++ drop limit (AppointmentService.sortBy (λ a b, (ts b <=? ts a)%Z) l) ≡ₚ l
  ∧ length (take limit (AppointmentService.sortBy (λ a b, (ts b <=? ts a)%Z) l))
    = min limit (length l)
  ∧ StronglySorted (λ a b, (ts b <= ts a)%Z)
      (take limit (AppointmentService.sortBy (λ a b, (ts b <=? ts a)%Z) l))
  ∧ ∀ k o, k ∈ take limit (AppointmentService.sortBy (λ a b, (ts b <=? ts a)%Z) l) ->
           o ∈ drop limit (AppointmentService.sortBy (λ a b, (ts b <=? ts a)%Z) l) ->
           (ts o <= ts k)%Z.
Proof.
  set (newestFirst := AppointmentService.sortBy (λ a b, (ts b <=? ts a)%Z) l).
  assert (Hperm : newestFirst ≡ₚ l) by apply sortBy_perm.
  assert (Hsorted : StronglySorted (λ a b, (ts b <= ts a)%Z) newestFirst).
  { unfold newestFirst.
    rewrite (sortBy_ext _ (λ a b, (- ts a <=? - ts b)%Z)).
    - pose proof (sortBy_sorted (λ m, (- ts m)%Z) l) as H.
      apply Sorted_StronglySorted in H; [|intros x y z; apply Z.le_trans].
      eapply stronglySorted_fmap; [|exact H]. intros a b Hab. cbn in Hab. lia.
    - intros a b. destruct (Z.leb_spec (ts b) (ts a));
        destruct (Z.leb_spec (- ts a) (- ts b)); first [reflexivity | lia]. }
  rewrite <- (take_drop limit newestFirst) in Hsorted.
  apply stronglySorted_split in Hsorted as [Htake Hcross].
  split; [rewrite take_drop; exact Hperm|]. split.
  - rewrite length_take, <- (Permutation_length Hperm). reflexivity.
  - split; [exact Htake|]. intros k o Hk Ho. apply (Hcross k o Hk Ho).
Qed.

End LatestRows.

(** ** The history of a conversation *)
Section History.
Import Effects MessageProcessor.
Variable env : Env.

(** X22.  The history is the latest messages of the phone, oldest first.
    With the store answering, [getConversationHistory] changes nothing
    and returns the entries of [limit] stored messages of the phone (of
    all of them when there are fewer) in the order of their timestamps;
    every message of the phone that is left out is no newer than any one
    that is kept. *)
Theorem history_is_the_latest_messages (phone : string) (limit : nat) (w : World) :
  db env (SelectMessages phone) = DbOk ->
  ∃ kept omitted,
    getConversationHistory env phone limit w = (Ok (toChat <$> kept), w)
    ∧ kept ++ omitted ≡ₚ ofPhone phone w
    ∧ length kept = min limit (length (ofPhone phone w))
    ∧ Sorted Z.le (StoredMessage.timestamp <$> kept)
    ∧ ∀ o k, o ∈ omitted -> k ∈ kept ->
             (StoredMessage.timestamp o <= StoredMessage.timestamp k)%Z.
Proof.
  intros Hdb.
  destruct (newest_first StoredMessage.timestamp limit (ofPhone phone w))
    as (Hperm & Hlen & Hsorted & Hcross).
  set (newestFirst :=
         AppointmentService.sortBy
           (λ a b, (StoredMessage.timestamp b <=? StoredMessage.timestamp a)%Z)
           (ofPhone phone w)) in *.
  exists (rev (take limit newestFirst)), (drop limit newestFirst).
  split; [|split; [|split; [|split]]].
  - unfold getConversationHistory, tryCatch, bind, dbCall, getWorld. rewrite Hdb.
    reflexivity.
  - rewrite <- Hperm. apply Permutation_app_tail. symmetry. apply Permutation_rev.
  - rewrite length_rev. exact Hlen.
  - apply StronglySorted_Sorted. apply stronglySorted_rev in Hsorted.
    induction Hsorted as [|a l Hl IH Ha]; [constructor|].
    rewrite fmap_cons. constructor; [exact IH|]. apply Forall_fmap. exact Ha.
  - intros o k Ho Hk. apply Hcross; [|exact Ho].
    apply list_elem_of_In, in_rev, list_elem_of_In. exact Hk.
Qed.

End History.

(** ** The active contexts *)
Section ActiveContexts.
Import Effects ContextAdmin.

(** X23.  The active contexts come most recent first.  With the store
    answering, [getActiveContexts] changes nothing and returns [limit]
    active contexts of the establishment (all of them when there are
    fewer), ordered from the latest interaction to the earliest; every
    active context of the establishment that is left out was last used no
    later than any one returned.  When the store fails the answer is
    empty. *)
Theorem active_contexts_come_most_recent_first (store : DbOutcome) (establishmentId : string)
    (limit : nat) (w : World) :
  ∃ contexts omitted,
    getActiveContexts store establishmentId limit w = (Ok contexts, w)
    ∧ match store with
      | DbOk =>
          contexts ++ omitted ≡ₚ activeOf establishmentId w
          ∧ length contexts = min limit (length (activeOf establishmentId w))
          ∧ StronglySorted
              (λ a b, (ConversationContext.last_interaction b
                       <= ConversationContext.last_interaction a)%Z) contexts
          ∧ ∀ k o, k ∈ contexts -> o ∈ omitted ->
                   (ConversationContext.last_interaction o
                    <= ConversationContext.last_interaction k)%Z
      | _ => contexts = []
      end.
Proof.
  unfold getActiveContexts, tryCatch, bind, getWorld.
  destruct store; cbn [ret throw fst snd].
  - eexists _, _. split; [reflexivity|].
    apply (newest_first ConversationContext.last_interaction limit
             (activeOf establishmentId w)).
  - exists [], []. split; reflexivity.
  - exists [], []. split; reflexivity.
Qed.

End ActiveContexts.

(** ** What a turn adds: the budget of a turn *)
Section Growth.
Import Effects.
Context {X : Type} (proj : World -> list X) (P : X -> Prop).

Lemma gained_refl n w : gained proj P n w w.
Proof. exists []. rewrite app_nil_r. repeat split; [simpl; lia|constructor]. Qed.

Lemma gained_trans n k t w w1 w2 :
  gained proj P n w w1 -> gained proj P k w1 w2 -> n + k <= t -> gained proj P t w w2.
Proof.
  intros (l1 & H1 & Hn & HP1) (l2 & H2 & Hk & HP2) Ht. exists (l1 ++ l2).
  rewrite H2, H1, <- app_assoc. split; [reflexivity|].
  split; [rewrite length_app; lia|apply Forall_app; split; assumption].
Qed.

Lemma gained_ret {A} n (a : A) : moves (gained proj P n) (ret a).
Proof. intros w. apply gained_refl. Qed.

Lemma gained_throw {A} n e : moves (gained proj P n) (throw e : M A).
Proof. intros w. apply gained_refl. Qed.

Lemma gained_keeps {A} n (m : M A) : keeps proj m -> moves (gained proj P n) m.
Proof.
  intros Hk w. exists []. rewrite app_nil_r. split; [apply Hk|].
  split; [simpl; lia|constructor].
Qed.

Lemma gained_bind {A C} n k t (m : M A) (f : A -> M C) :
  moves (gained proj P n) m -> (∀ a, moves (gained proj P k) (f a)) -> n + k <= t ->
  moves (gained proj P t) (bind m f).
Proof.
  intros Hm Hf Ht w. unfold bind. specialize (Hm w).
  destruct (m w) as [[a|e] w1]; cbn [snd] in *.
  - eapply gained_trans; [exact Hm|apply Hf|exact Ht].
  - eapply gained_trans; [exact Hm|apply (gained_refl 0)|lia].
Qed.

Lemma gained_tryCatch {A} n k t (m : M A) (h : string -> M A) :
  moves (gained proj P n) m -> (∀ e, moves (gained proj P k) (h e)) -> n + k <= t ->
  moves (gained proj P t) (tryCatch m h).
Proof.
  intros Hm Hh Ht w. unfold tryCatch. specialize (Hm w).
  destruct (m w) as [[a|e] w1]; cbn [snd] in *.
  - eapply gained_trans; [exact Hm|apply (gained_refl 0)|lia].
  - eapply gained_trans; [exact Hm|apply Hh|exact Ht].
Qed.

End Growth.

(** Every function a turn runs, unfolded down to the combinators. *)
Ltac unfold_services :=
  unfold MessageProcessor.processMessage, MessageProcessor.answerTurn, MessageProcessor.replyFor,
    MessageProcessor.handleSchedulingIntent, MessageProcessor.handleCancellationIntent,
    MessageProcessor.listCancellable, MessageProcessor.getConversationHistory,
    MessageProcessor.saveOutboundMessage, MessageProcessor.saveMessage,
    OpenAIService.generateResponse,
    AutomaticMessageService.sendWelcomeMessage,
    AutomaticMessageService.scheduleAppointmentReminders,
    AutomaticMessageService.selectAppointment, AutomaticMessageService.scheduleMessage,
    AppointmentService.getAvailableSlots, AppointmentService.getClientAppointmentsByPhone,
    AppointmentService.searchAppointments, AppointmentService.updateAppointmentStatus,
    AppointmentService.cancelAppointment,
    MessageService.sendTextMessage,
    ContextService.updateConversationContext, ContextService.getConversationContext,
    ContextService.createConversationContext,
    IntentService.detectIntent, IntentService.analyzeIntent, IntentService.askClassifier.

(** A computation that leaves the list alone gains nothing. *)
Ltac gained_quiet :=
  solve [apply gained_keeps; unfold_services; keeps_auto; try (intros ?; reflexivity)].

Section TurnBudget.
Import Effects MessageProcessor.
Variable env : Env.

Lemma send_gains phone message (P : string * string -> Prop) n :
  P (MessageService.formatPhoneNumber phone, message) ->
  moves (gained posted P (S n)) (MessageService.sendTextMessage env phone message).
Proof.
  intros HP w. destruct (sendTextMessage_run env phone message w) as (r & -> & _).
  eexists [_]. split; [reflexivity|]. split; [simpl; lia|]. repeat constructor. exact HP.
Qed.

Lemma saveMessage_gains message (P : StoredMessage.t -> Prop) n :
  (∀ m, StoredMessage.phone_number m = ProcessedMessage.clientPhone message -> P m) ->
  moves (gained messages P (S n)) (saveMessage env message).
Proof.
  intros HP w. unfold saveMessage, bind, dbCall.
  destruct (db env _); cbn; try apply gained_refl.
  eexists [_]. split; [reflexivity|]. split; [simpl; lia|].
  repeat constructor. apply HP. reflexivity.
Qed.

Lemma saveOutbound_gains phone content mid (P : StoredMessage.t -> Prop) n :
  (∀ m, StoredMessage.phone_number m = phone -> P m) ->
  moves (gained messages P (S n)) (saveOutboundMessage env phone content mid).
Proof.
  intros HP w. unfold saveOutboundMessage, tryCatch, bind, dbCall.
  destruct (db env _); cbn; try apply gained_refl.
  eexists [_]. split; [reflexivity|]. split; [simpl; lia|].
  repeat constructor. apply HP. reflexivity.
Qed.

Lemma detectIntent_gains message context (P : AnalysisPrompt -> Prop) n :
  (∀ p, ap_message p = message -> ap_context p = context -> P p) ->
  moves (gained analysis_calls P (S n)) (IntentService.detectIntent env message context).
Proof.
  intros HP w. unfold IntentService.detectIntent, tryCatch. cbv zeta.
  destruct (IntentService.highConfidence _); [apply gained_refl|].
  unfold bind.
  match goal with |- context [IntentService.analyzeIntent env message (Some ?s) context w] =>
    destruct (analyzeIntent_run env message s context w) as (a & -> & _) end.
  cbn [ret snd]. destruct (IntentService.historySliceable context); [|apply gained_refl].
  eexists [_]. split; [reflexivity|]. split; [simpl; lia|].
  repeat constructor. apply HP; reflexivity.
Qed.

Lemma generateResponse_gains userMessage context history (P : CompletionRequest -> Prop) n :
  (∀ r, cr_userMessage r = userMessage -> P r) ->
  moves (gained completion_calls P (S n))
    (OpenAIService.generateResponse env userMessage context history).
Proof.
  intros HP w. unfold OpenAIService.generateResponse, tryCatch, bind, modifyWorld. cbv zeta.
  cbn [fst snd]. destruct (llm_completion env _); cbn;
    (eexists [_]; split; [reflexivity|]; split; [simpl; lia|];
     repeat constructor; apply HP; reflexivity).
Qed.

Lemma scheduleMessage_gains clientPhone templateId scheduledFor variables appointmentId
    establishmentId (P : ScheduledMessage.t -> Prop) n :
  (∀ m, ScheduledMessage.status m = ScheduledMessage.pending ->
        ScheduledMessage.client_phone m = clientPhone ->
        ScheduledMessage.scheduled_for m = scheduledFor ->
        ScheduledMessage.appointment_id m = appointmentId ->
        ScheduledMessage.establishment_id m = establishmentId -> P m) ->
  moves (gained scheduled_messages P (S n))
    (AutomaticMessageService.scheduleMessage env clientPhone templateId scheduledFor
       variables appointmentId establishmentId).
Proof.
  intros HP w. unfold AutomaticMessageService.scheduleMessage, tryCatch, bind, dbCall,
    modifyWorld.
  destruct (AutomaticMessageService.findTemplate templateId) as [template|];
    cbn [ret fst snd]; [|apply gained_refl].
  destruct (AutomaticMessageService.renderTemplate env _ variables) as [text|];
    cbn [ret throw fst snd]; [|apply gained_refl].
  destruct (db env (InsertScheduled clientPhone)); cbn [ret throw fst snd];
    try apply gained_refl.
  eexists [_]. split; [reflexivity|]. split; [simpl; lia|].
  repeat constructor. apply HP; reflexivity.
Qed.

End TurnBudget.

(** The condition on the entry a function appends. *)
Ltac gained_side :=
  cbn [fst snd]; intros; first [reflexivity | assumption | congruence
          | repeat split; first [assumption | eexists; eassumption]].

(** Walks through a computation: what leaves the list alone costs
    nothing, each function that appends to it costs one entry. *)
Ltac gained_step :=
  match goal with
  | |- moves (gained _ _ _) (Effects.ret _) => apply gained_ret
  | |- moves (gained _ _ _) (Effects.throw _) => apply gained_throw
  | |- moves (gained Effects.posted _ (S _)) (MessageService.sendTextMessage _ _ _) =>
      apply send_gains; gained_side
  | |- moves (gained Effects.messages _ (S _)) (MessageProcessor.saveMessage _ _) =>
      apply saveMessage_gains; gained_side
  | |- moves (gained Effects.messages _ (S _)) (MessageProcessor.saveOutboundMessage _ _ _ _) =>
      apply saveOutbound_gains; gained_side
  | |- moves (gained Effects.analysis_calls _ (S _)) (IntentService.detectIntent _ _ _) =>
      apply detectIntent_gains; gained_side
  | |- moves (gained Effects.completion_calls _ (S _)) (OpenAIService.generateResponse _ _ _ _) =>
      apply generateResponse_gains; gained_side
  | |- moves (gained Effects.scheduled_messages _ (S _))
         (AutomaticMessageService.scheduleMessage _ _ _ _ _ _ _) =>
      apply scheduleMessage_gains; gained_side
  | |- moves (gained _ _ _) (let _ := _ in _) => cbv zeta
  | |- moves (gained ?proj ?P ?t) (Effects.bind _ _) =>
      first
        [ apply (gained_bind proj P 0 t t); [gained_quiet | intros | lia]
        | match t with
          | S ?t' => apply (gained_bind proj P 1 t' t);
                     [solve [repeat gained_step] | intros | lia]
          end ]
  | |- moves (gained ?proj ?P ?t) (Effects.tryCatch _ _) =>
      apply (gained_tryCatch proj P t 0 t); [ | intros | lia]
  | |- moves (gained _ _ _) (match ?x with _ => _ end) => destruct x
  | |- moves (gained _ _ _) (if ?x then _ else _) => destruct x
  | |- moves (gained _ _ _) _ => gained_quiet
  end.

Section TurnBudgetTheorems.
Import Effects MessageProcessor.
Variable env : Env.

(** X11.  A turn writes to its sender only, and at most twice.  Whatever
    the message, the stored data and the collaborators do, a turn posts
    at most two texts to the gateway (the welcome of a new client and the
    reply), both addressed to the sender, and appends at most two rows to
    the stored messages (the inbound message and the reply), both under
    the sender's phone; it posts and stores nothing else. *)
Theorem turn_writes_to_its_sender_only (message : ProcessedMessage.t) (w : World) :
  gained posted
    (λ post, post.1 = MessageService.formatPhoneNumber (ProcessedMessage.clientPhone message))
    2 w (processMessage env message w).2
  ∧ gained messages
      (λ m, StoredMessage.phone_number m = ProcessedMessage.clientPhone message)
      2 w (processMessage env message w).2.
Proof.
  split.
  - revert w. change (moves (gained posted (λ post, post.1 = MessageService.formatPhoneNumber
                               (ProcessedMessage.clientPhone message)) 2)
                        (processMessage env message)).
    unfold processMessage, answerTurn, AutomaticMessageService.sendWelcomeMessage.
    repeat gained_step.
  - revert w. change (moves (gained messages (λ m, StoredMessage.phone_number m
                               = ProcessedMessage.clientPhone message) 2)
                        (processMessage env message)).
    unfold processMessage, answerTurn.
    repeat gained_step.
Qed.

(** X12.  A turn calls the LLM at most twice.  Whatever happens, a turn
    makes at most one classifier call, for the text of the message and
    the context of the turn, and at most one reply-generation call, for
    the same text. *)
Theorem turn_calls_the_llm_at_most_twice (message : ProcessedMessage.t) (w : World) :
  gained analysis_calls
    (λ p, Some (ap_message p) = ProcessedMessage.messageContent message)
    1 w (processMessage env message w).2
  ∧ gained completion_calls
      (λ r, Some (cr_userMessage r) = ProcessedMessage.messageContent message)
      1 w (processMessage env message w).2.
Proof.
  split.
  - revert w. change (moves (gained analysis_calls (λ p, Some (ap_message p)
                               = ProcessedMessage.messageContent message) 1)
                        (processMessage env message)).
    unfold processMessage, answerTurn.
    destruct (ProcessedMessage.messageContent message) as [content|];
      repeat gained_step.
  - revert w. change (moves (gained completion_calls (λ r, Some (cr_userMessage r)
                               = ProcessedMessage.messageContent message) 1)
                        (processMessage env message)).
    unfold processMessage, answerTurn, replyFor.
    destruct (ProcessedMessage.messageContent message) as [content|];
      repeat gained_step.
Qed.

End TurnBudgetTheorems.

(** ** What a turn may change: appointments *)
Section Moves.
Import Effects.
Context (R : World -> World -> Prop) {Rpre : PreOrder R}.

Lemma moves_ret {A} (a : A) : moves R (ret a).
Proof using Rpre. intros w. reflexivity. Qed.

Lemma moves_throw {A} e : moves R (throw e : M A).
Proof using Rpre. intros w. reflexivity. Qed.

Lemma moves_bind {A C} (m : M A) (f : A -> M C) :
  moves R m -> (∀ a, moves R (f a)) -> moves R (bind m f).
Proof using Rpre.
  intros Hm Hf w. unfold bind. specialize (Hm w).
  destruct (m w) as [[a|e] w1]; cbn [snd] in *; [|exact Hm].
  etransitivity; [exact Hm|apply Hf].
Qed.

Lemma moves_tryCatch {A} (m : M A) (h : string -> M A) :
  moves R m -> (∀ e, moves R (h e)) -> moves R (tryCatch m h).
Proof using Rpre.
  intros Hm Hh w. unfold tryCatch. specialize (Hm w).
  destruct (m w) as [[a|e] w1]; cbn [snd] in *; [exact Hm|].
  etransitivity; [exact Hm|apply Hh].
Qed.

Lemma moves_keeps {A B} (obs : World -> B) (m : M A) :
  (∀ w w', obs w' = obs w -> R w w') -> keeps obs m -> moves R m.
Proof. intros Hobs Hk w. apply Hobs, Hk. Qed.

(** [bind] on a computation that is itself a [bind] followed by a
    [ret]: the value handed on is known. *)
Lemma moves_bind_then {A B C} (m : M A) (b : B) (f : B -> M C) :
  moves R m -> moves R (f b) -> moves R (bind (bind m (λ _, ret b)) f).
Proof using Rpre.
  intros Hm Hf w. unfold bind. specialize (Hm w).
  destruct (m w) as [[a|e] w1]; cbn [snd ret] in *; [|exact Hm].
  etransitivity; [exact Hm|apply Hf].
Qed.

Lemma moves_bind_ret {B C} (b : B) (f : B -> M C) :
  moves R (f b) -> moves R (bind (ret b) f).
Proof using Rpre. intros Hf w. apply Hf. Qed.

End Moves.

(** Walks through a computation along a preorder: [base] holds the rules
    for the functions that change the observed part, [quiet] shows that a
    computation leaves it alone. *)
Ltac moves_step base quiet :=
  match goal with
  | |- moves _ (Effects.ret _) => apply moves_ret; apply _
  | |- moves _ (Effects.throw _) => apply moves_throw; apply _
  | |- moves _ (let _ := _ in _) => cbv zeta
  | |- moves _ _ => base
  | |- moves _ (Effects.bind _ _) => apply moves_bind; [apply _ | try quiet | intros]
  | |- moves _ (Effects.tryCatch _ _) => apply moves_tryCatch; [apply _ | | intros]
  | |- moves _ (match ?x with _ => _ end) => destruct x
  | |- moves _ (if ?x then _ else _) => destruct x
  | |- moves _ _ => quiet
  end.

#[global] Instance confirmedOrSame_refl : Reflexive confirmedOrSame.
Proof. intros a. left. reflexivity. Qed.

#[global] Instance bookingsKept_preorder : PreOrder bookingsKept.
Proof.
  split.
  - intros w. unfold bookingsKept. induction (Effects.appointments w); constructor; [left|]; auto.
  - intros w1 w2 w3. unfold bookingsKept.
    generalize (Effects.appointments w1) (Effects.appointments w2) (Effects.appointments w3). clear.
    intros l1 l2 l3 H12. revert l3. induction H12 as [|a b l1 l2 Hab _ IH]; intros l3 H23.
    + inversion H23. constructor.
    + inversion H23 as [|b' c l2' l3' Hbc Hrest]; subst. constructor; [|apply IH; exact Hrest].
      destruct Hab as [->| ->]; destruct Hbc as [->| ->];
        [left|right|right|right]; reflexivity.
Qed.

Section TurnAppointments.
Import Effects MessageProcessor.
Variable env : Env.

Lemma confirm_moves appointmentId :
  moves bookingsKept (AppointmentService.updateAppointmentStatus env appointmentId "confirmed").
Proof.
  intros w. unfold AppointmentService.updateAppointmentStatus, tryCatch, bind, dbCall.
  destruct (db env _); cbn; try reflexivity.
  unfold bookingsKept, AppointmentService.setStatus. cbn.
  induction (appointments w) as [|a l IH]; constructor; [|exact IH].
  destruct (String.eqb _ _); [right|left]; reflexivity.
Qed.

(** On the row of a context the cancellation handler takes its listing
    branch: the flag it tests is not a property of the row. *)
Lemma handleCancellation_on_row message toISO c :
  handleCancellationIntent env message (contextObject toISO c)
  = tryCatch
      (listCancellable env "❌ *Cancelar agendamento*"
         (ConversationContext.establishment_id c) (ProcessedMessage.clientPhone message))
      (λ _, ret "Desculpe, ocorreu um erro ao processar seu cancelamento. Tente novamente.").
Proof. reflexivity. Qed.

End TurnAppointments.

Ltac bookings_quiet :=
  idtac; solve [apply (moves_keeps _ Effects.appointments);
         [intros ? ? Hsame; unfold bookingsKept; rewrite Hsame; reflexivity
         |unfold_services; keeps_auto; try (intros ?; reflexivity)]].

Ltac bookings_base :=
  idtac; match goal with
  | |- moves _ (AppointmentService.updateAppointmentStatus _ _ "confirmed") =>
      apply confirm_moves
  | |- moves _ (MessageProcessor.handleCancellationIntent _ _
                  (MessageProcessor.contextObject _ _)) =>
      rewrite handleCancellation_on_row
  | |- moves _ (MessageProcessor.handleSchedulingIntent _ _ _) =>
      unfold MessageProcessor.handleSchedulingIntent
  end.

Section TurnAppointmentsTheorem.
Import Effects MessageProcessor.
Variable env : Env.

(** X13.  The assistant can confirm an appointment and nothing more.
    Whatever the message and the collaborators do, a turn creates no
    appointment, deletes none, cancels none and moves none: after the turn
    the appointments are the same rows in the same order, each as it was
    or with the status [confirmed]. *)
Theorem turn_only_confirms_appointments (message : ProcessedMessage.t) (w : World) :
  bookingsKept w (processMessage env message w).2.
Proof.
  revert w. change (moves bookingsKept (processMessage env message)).
  unfold processMessage, answerTurn, replyFor.
  repeat moves_step bookings_base bookings_quiet.
Qed.

End TurnAppointmentsTheorem.

(** ** What a turn may change: contexts *)
#[global] Instance contextKept_preorder : PreOrder contextKept.
Proof.
  split.
  - intros c. repeat split.
  - intros a b c (H1 & H2 & H3 & H4 & H5) (G1 & G2 & G3 & G4 & G5).
    repeat split; congruence.
Qed.

#[global] Instance contextsKept_preorder key : PreOrder (contextsKept key).
Proof.
  split.
  - intros w. split; [reflexivity|]. intros c Hc. exists c. split; [exact Hc|reflexivity].
  - intros w1 w2 w3 [Ho1 Hk1] [Ho2 Hk2]. split.
    + intros k Hk. rewrite (Ho2 k Hk). apply Ho1, Hk.
    + intros c Hc. destruct (Hk1 c Hc) as (c' & Hc' & Hkept).
      destruct (Hk2 c' Hc') as (c'' & Hc'' & Hkept'). exists c''.
      split; [exact Hc''|]. etransitivity; eassumption.
Qed.

Section TurnContexts.
Import Effects MessageProcessor.
Variable env : Env.

Lemma contextsKept_same key w w' :
  conversation_contexts w' = conversation_contexts w -> contextsKept key w w'.
Proof.
  intros H. split; [intros; rewrite H; reflexivity|].
  intros c Hc. exists c. rewrite H. split; [exact Hc|reflexivity].
Qed.

Lemma update_moves e p (u : gmap string Js.Json) :
  Js.truthy (Js.get u "conversation_state") = false ->
  moves (contextsKept (e, p)) (ContextService.updateConversationContext env e p u).
Proof.
  intros Hstate w. destruct (update_run env e p u w) as (b & w' & -> & Hothers & Hkey).
  cbn [snd]. split; [exact Hothers|]. intros c Hc.
  destruct b.
  - destruct Hkey as (cd & _ & ->). eexists. split; [reflexivity|].
    unfold currentOf. rewrite Hc. cbn [default].
    unfold contextKept, ContextService.applyUpdate, ContextService.supplied. cbn.
    rewrite Hstate. repeat split.
  - destruct Hkey as [->|[Hnone _]]; [|congruence].
    exists c. split; [exact Hc|reflexivity].
Qed.

Lemma getContext_moves e p :
  moves (contextsKept (e, p)) (ContextService.getConversationContext env e p).
Proof.
  intros w.
  unfold ContextService.getConversationContext, ContextService.createConversationContext,
    tryCatch, bind, getWorld, modifyWorld, dbCall, ret, throw.
  destruct (db env (SelectContext e p)); cbn; try reflexivity.
  destruct (conversation_contexts w !! (e, p)) as [c|] eqn:Hc; cbn; [reflexivity|].
  destruct (db env (InsertContext e p)); cbn; try reflexivity.
  split; [intros k Hk; cbn; apply lookup_insert_ne; congruence|].
  intros c. rewrite Hc. discriminate.
Qed.

Lemma getContext_row e p w c :
  rowOfItsKey (e, p) w ->
  (ContextService.getConversationContext env e p w).1 = Ok (Some c) ->
  ConversationContext.establishment_id c = e ∧ ConversationContext.client_phone c = p.
Proof.
  intros Hrow.
  unfold ContextService.getConversationContext, ContextService.createConversationContext,
    tryCatch, bind, getWorld, modifyWorld, dbCall, ret, throw.
  destruct (db env (SelectContext e p)); cbn; try discriminate.
  destruct (conversation_contexts w !! (e, p)) as [c0|] eqn:Hc; cbn.
  - intros H. inversion H. subst. apply (Hrow c Hc).
  - destruct (db env (InsertContext e p)); cbn; try discriminate.
    intros H. inversion H. split; reflexivity.
Qed.

End TurnContexts.

Ltac contexts_quiet :=
  idtac;
  solve [apply (moves_keeps _ Effects.conversation_contexts);
         [intros ? ? Hsame; apply contextsKept_same; exact Hsame
         |unfold_services; keeps_auto; try (intros ?; reflexivity)]].

Ltac contexts_base Hest Hphone :=
  idtac;
  match goal with
  | |- moves _ (ContextService.updateConversationContext _ _ _ _) =>
      cbn [MessageProcessor.with_intent ConversationContext.establishment_id
           ConversationContext.client_phone];
      rewrite ?contextObject_establishment;
      cbn [MessageProcessor.with_intent ConversationContext.establishment_id
           ConversationContext.client_phone];
      rewrite ?Hest, ?Hphone; apply update_moves; reflexivity
  | |- moves _ (MessageProcessor.handleCancellationIntent _ _
                  (MessageProcessor.contextObject _ _)) =>
      rewrite handleCancellation_on_row
  | |- moves _ (MessageProcessor.handleSchedulingIntent _ _ _) =>
      unfold MessageProcessor.handleSchedulingIntent
  | |- moves _ (MessageProcessor.listCancellable _ _ _ _) =>
      unfold MessageProcessor.listCancellable
  end.

Section TurnContextsTheorem.
Import Effects MessageProcessor.
Variable env : Env.

Lemma answerTurn_contexts message messageContent c :
  ConversationContext.establishment_id c = "default" ->
  ConversationContext.client_phone c = ProcessedMessage.clientPhone message ->
  moves (contextsKept ("default", ProcessedMessage.clientPhone message))
    (answerTurn env message messageContent c).
Proof.
  intros Hest Hphone. unfold answerTurn, replyFor. cbv zeta.
  apply moves_bind; [apply _|contexts_quiet|intros _].
  apply moves_bind; [apply _|contexts_quiet|intros intent].
  destruct (bool_decide _).
  - apply moves_bind_ret; [apply _|].
    repeat moves_step ltac:(contexts_base Hest Hphone) contexts_quiet.
  - apply moves_bind_then; [apply _|rewrite Hest, Hphone; apply update_moves; reflexivity|].
    repeat moves_step ltac:(contexts_base Hest Hphone) contexts_quiet.
Qed.

(** X14.  A turn changes the context of its sender only, and never its
    state.  When the row stored for the sender is the sender's, a turn
    leaves the context of every other client as it was; the sender's
    context, if there was one, is still there afterwards with the state it
    had (a closed conversation is not reopened, an active one is not
    closed), under the same id, establishment and phone. *)
Theorem turn_keeps_the_contexts (message : ProcessedMessage.t) (w : World) :
  rowOfItsKey ("default", ProcessedMessage.clientPhone message) w ->
  contextsKept ("default", ProcessedMessage.clientPhone message) w
    (processMessage env message w).2.
Proof.
  intros Hrow. unfold processMessage, tryCatch, bind.
  assert (Hsave : conversation_contexts (saveMessage env message w).2 = conversation_contexts w).
  { assert (keeps conversation_contexts (saveMessage env message)) as H
      by (unfold saveMessage; keeps_auto). apply H. }
  destruct (saveMessage env message w) as [[[]|e] w1]; cbn [snd] in Hsave;
    [|apply contextsKept_same; exact Hsave].
  destruct (ProcessedMessage.messageContent message) as [messageContent|];
    [|apply contextsKept_same; exact Hsave].
  destruct (negb _ || _); [apply contextsKept_same; exact Hsave|].
  assert (Hrow1 : rowOfItsKey ("default", ProcessedMessage.clientPhone message) w1).
  { intros c Hc. apply Hrow. rewrite <- Hsave. exact Hc. }
  pose proof (getContext_moves env "default" (ProcessedMessage.clientPhone message) w1) as Hget.
  pose proof (getContext_row env "default" (ProcessedMessage.clientPhone message) w1) as Hfound.
  destruct (ContextService.getConversationContext env "default" _ w1) as [[found|e] w2];
    cbn [fst snd] in *.
  - transitivity w1; [apply contextsKept_same; exact Hsave|].
    destruct found as [c|]; [|exact Hget].
    destruct (Hfound c Hrow1 eq_refl) as [Hest Hphone].
    pose proof (answerTurn_contexts message messageContent c Hest Hphone w2) as Hturn.
    destruct (answerTurn env message messageContent c w2) as [[r|e] w3]; cbn [snd] in *;
      (transitivity w2; [exact Hget|exact Hturn]).
  - transitivity w1; [apply contextsKept_same; exact Hsave|exact Hget].
Qed.

End TurnContextsTheorem.

(** ** Bookings and the slots they hold *)
Section Bookings.
Import Effects AppointmentService.
Variable env : Env.

Lemma held_elem slot (l : list Appointment.t) :
  slot ∈ heldSlots l
  ↔ ∃ a, a ∈ l ∧ isActiveStatus (Appointment.status a) = true ∧ slotOf a = slot.
Proof.
  unfold heldSlots. rewrite list_elem_of_fmap. split.
  - intros (a & -> & Ha). apply list_elem_of_In, filter_In in Ha as [Ha Hact].
    exists a. split; [apply list_elem_of_In; exact Ha|]. split; [exact Hact|reflexivity].
  - intros (a & Ha & Hact & <-). exists a. split; [reflexivity|].
    apply list_elem_of_In, filter_In. split; [apply list_elem_of_In; exact Ha|exact Hact].
Qed.

Lemma freeSlots_elem targetDate existing professional slot :
  slot ∈ freeSlots targetDate existing professional
  ↔ date slot = targetDate
    ∧ time slot ∈ timeSlots
    ∧ professional_id slot = Professional.id professional
    ∧ professional_name slot = Professional.name professional
    ∧ ∀ apt, apt ∈ existing ->
             Appointment.professional_id apt = Professional.id professional ->
             Appointment.appointment_time apt ≠ time slot.
Proof.
  split; [apply freeSlots_spec|].
  intros (Hdate & Htime & Hid & Hname & Hfree). unfold freeSlots.
  apply list_elem_of_bind. exists (time slot). split; [|exact Htime].
  destruct (existsb _ existing) eqn:Hocc.
  - apply existsb_exists in Hocc as (apt & Hapt & Hboth).
    apply andb_prop in Hboth as [Hp Ht].
    apply String.eqb_eq in Hp. apply String.eqb_eq in Ht.
    exfalso. apply (Hfree apt); [apply list_elem_of_In; exact Hapt|exact Hp|exact Ht].
  - apply list_elem_of_singleton. destruct slot. simpl in *. congruence.
Qed.

(** What an availability query offers when the store answers. *)
Lemma offered_elem establishmentId date professionalId w slot :
  db env (SelectProfessionals establishmentId) = DbOk ->
  db env (SelectAppointmentsOn (targetDateOf env date w)) = DbOk ->
  slot ∈ offered env establishmentId date professionalId w
  ↔ isOpen establishmentId (targetDateOf env date w) professionalId w slot.
Proof.
  intros Hprof Happt.
  unfold offered, getAvailableSlots, tryCatch, bind, getWorld, dbCall. simpl.
  fold (targetDateOf env date w). rewrite Hprof. simpl. rewrite Happt. simpl.
  rewrite list_elem_of_bind. unfold isOpen. split.
  - intros (p & Hslot & Hp). apply list_elem_of_filter in Hp as [Hpf Hp].
    apply freeSlots_elem in Hslot as (Hdate & Htime & Hid & Hname & Hfree).
    apply andb_prop in Hpf as [Hpf Hopt]. apply andb_prop in Hpf as [Hest Hact].
    apply String.eqb_eq in Hest.
    split; [exact Hdate|]. split; [exact Htime|]. split; [exists p; repeat split; auto|].
    intros Hheld. apply held_elem in Hheld as (a & Ha & Hactive & Hslot).
    unfold slotOf in Hslot. inversion Hslot as [[Hp' Hd' Ht']].
    apply (Hfree a); [|congruence|exact Ht'].
    apply list_elem_of_filter. split; [|exact Ha].
    rewrite Hactive, andb_true_r. apply String.eqb_eq. exact Hd'.
  - intros (Hdate & Htime & (p & Hp & Hid & Hname & Hest & Hact & Hopt) & Hfree).
    exists p. split.
    + apply freeSlots_elem. repeat split; auto.
      intros apt Hapt Hprof' Htime'. apply list_elem_of_filter in Hapt as [Hcond Hapt].
      apply andb_prop in Hcond as [Hd Hactive]. apply String.eqb_eq in Hd.
      apply Hfree, held_elem. exists apt. split; [exact Hapt|]. split; [exact Hactive|].
      unfold slotOf. congruence.
    + apply list_elem_of_filter. split; [|exact Hp].
      rewrite Hest, String.eqb_refl, Hact, Hopt. reflexivity.
Qed.

(** X15.  An availability query offers exactly the open slots.  With the
    store answering, the query returns, changes nothing, and a slot is in
    its answer if and only if it is on the half-hour grid of the target
    date, belongs to an active professional of the business that the
    filter admits, and is held by no scheduled or confirmed appointment. *)
Theorem open_slots_are_all_offered (establishmentId : string)
    (date professionalId : option string) (w : World) :
  db env (SelectProfessionals establishmentId) = DbOk ->
  db env (SelectAppointmentsOn (targetDateOf env date w)) = DbOk ->
  ∃ slots,
    getAvailableSlots env establishmentId date professionalId w = (Ok slots, w)
    ∧ ∀ slot, slot ∈ slots
              ↔ isOpen establishmentId (targetDateOf env date w) professionalId w slot.
Proof.
  intros Hprof Happt.
  pose proof (offered_elem establishmentId date professionalId w) as Helem.
  unfold offered in Helem.
  assert (∃ slots, getAvailableSlots env establishmentId date professionalId w = (Ok slots, w))
    as [slots Hrun].
  { unfold getAvailableSlots, tryCatch, bind, getWorld, dbCall. simpl.
    fold (targetDateOf env date w). rewrite Hprof. simpl. rewrite Happt. simpl.
    eexists. reflexivity. }
  exists slots. split; [exact Hrun|]. intros slot. rewrite Hrun in Helem.
  apply Helem; assumption.
Qed.

Variable store : Booking.StoreOp -> DbOutcome.

Lemma heldSlots_app l1 l2 : heldSlots (l1 ++ l2) = heldSlots l1 ++ heldSlots l2.
Proof.
  unfold heldSlots. rewrite List.filter_app, fmap_app. reflexivity.
Qed.

Lemma checkAvailability_run professionalId date time w :
  ∃ b, Booking.checkAvailability store professionalId date time w = (Ok b, w)
       ∧ (b = true -> (professionalId, date, time) ∉ heldSlots (appointments w)).
Proof.
  unfold Booking.checkAvailability, tryCatch, bind, getWorld.
  destruct (store _); cbn [ret throw fst snd];
    [|eexists; split; [reflexivity|discriminate]..].
  eexists. split; [reflexivity|]. intros Hfree Hheld.
  apply held_elem in Hheld as (a & Ha & Hact & Hslot).
  assert (Hin : a ∈ List.filter (Booking.holds professionalId date time) (appointments w)).
  { apply list_elem_of_In, filter_In. split; [apply list_elem_of_In; exact Ha|].
    unfold Booking.holds. unfold slotOf in Hslot. inversion Hslot.
    rewrite !String.eqb_refl, Hact. reflexivity. }
  destruct (List.filter _ (appointments w)); [inversion Hin|discriminate Hfree].
Qed.

Lemma notifications_run (row : Appointment.t) w :
  ∃ w', tryCatch
          (let* _ := AutomaticMessageService.sendAppointmentConfirmation env
                       (Appointment.id row) in
           let* _ := Booking.scheduleFollowUp env (Appointment.id row)
                       "appointment_followup" in
           ret tt)
          (λ _, ret tt) w = (Ok tt, w')
        ∧ appointments w' = appointments w
        ∧ professionals w' = professionals w.
Proof.
  match goal with |- ∃ w', ?m w = _ ∧ _ =>
    assert (Ht : total m) by (apply total_tryCatch; intros; apply total_ret);
    assert (Hk : keeps (λ w, (appointments w, professionals w)) m)
  end.
  { unfold AutomaticMessageService.sendAppointmentConfirmation, Booking.scheduleFollowUp,
      AutomaticMessageService.selectAppointment, AutomaticMessageService.scheduleMessage,
      MessageService.sendTextMessage.
    keeps_auto. }
  specialize (Ht w). specialize (Hk w).
  match goal with |- ∃ w', ?m w = _ ∧ _ => destruct (m w) as [[[]|e] w'] end;
    cbn [fst snd] in *; [|destruct Ht; discriminate].
  exists w'. inversion Hk. repeat split; assumption.
Qed.

(** X16.  A booking never takes a held slot.  [createAppointment] always
    returns a result.  When it reports success, exactly one appointment
    was appended, [scheduled], for the professional, date and time asked
    for, and that slot was held by no scheduled or confirmed appointment:
    a store in which no slot is held twice stays so, and the slot is no
    longer open to any availability query.  When it reports a failure, no
    appointment was created or changed. *)
Theorem booking_never_takes_a_held_slot (appointmentData : Booking.AppointmentData)
    (w : World) :
  ∃ r w',
    Booking.createAppointment env store appointmentData w = (Ok r, w')
    ∧ if Booking.success r
      then ∃ row,
             Booking.data r = Some row
             ∧ appointments w' = appointments w ++ [row]
             ∧ Appointment.status row = "scheduled"
             ∧ slotOf row = (Booking.professional_id appointmentData,
                             Booking.appointment_date appointmentData,
                             Booking.appointment_time appointmentData)
             ∧ (slotOf row ∉ heldSlots (appointments w))
             ∧ (noClash (appointments w) -> noClash (appointments w'))
             ∧ ∀ establishmentId professionalId slot,
                 ¬ (isOpen establishmentId (Booking.appointment_date appointmentData)
                      professionalId w' slot
                    ∧ professional_id slot = Booking.professional_id appointmentData
                    ∧ time slot = Booking.appointment_time appointmentData)
      else appointments w' = appointments w.
Proof.
  unfold Booking.createAppointment, tryCatch, bind.
  destruct (Booking.validData env appointmentData); cbn [negb throw ret fst snd];
    [|eexists _, _; split; reflexivity].
  destruct (checkAvailability_run (Booking.professional_id appointmentData)
              (Booking.appointment_date appointmentData)
              (Booking.appointment_time appointmentData) w) as (b & -> & Hfree).
  destruct b; cbn [negb]; [|eexists _, _; split; reflexivity].
  specialize (Hfree eq_refl).
  destruct (store _); cbn [ret throw fst snd getWorld modifyWorld];
    [|eexists _, _; split; reflexivity..].
  destruct (notifications_run (Booking.newRow env appointmentData w)
              (with_fresh (S (fresh w))
                 (with_appointments (appointments w ++ [Booking.newRow env appointmentData w]) w)))
    as (w' & Hrun & Happts & _).
  unfold tryCatch, bind in Hrun. rewrite Hrun. cbn [ret fst snd].
  eexists _, w'. split; [reflexivity|]. cbn [Booking.success].
  exists (Booking.newRow env appointmentData w). rewrite Happts.
  cbn [appointments with_fresh with_appointments].
  assert (Hheld : heldSlots (appointments w ++ [Booking.newRow env appointmentData w])
                  = heldSlots (appointments w)
                    ++ [(Booking.professional_id appointmentData,
                         Booking.appointment_date appointmentData,
                         Booking.appointment_time appointmentData)])
    by (rewrite heldSlots_app; reflexivity).
  split; [reflexivity|]. split; [reflexivity|]. split; [reflexivity|].
  split; [reflexivity|]. split; [exact Hfree|]. split.
  - unfold noClash. rewrite Hheld. intros Hnd. apply NoDup_app. split; [exact Hnd|].
    split; [|apply NoDup_singleton].
    intros x Hx Hx'. apply list_elem_of_singleton in Hx'. subst x. exact (Hfree Hx).
  - intros establishmentId professionalId slot ((_ & _ & _ & Hopen) & Hp & Ht).
    apply Hopen. rewrite Happts. cbn [appointments with_fresh with_appointments].
    rewrite Hheld, Hp, Ht. apply elem_of_app. right. apply list_elem_of_singleton.
    reflexivity.
Qed.

Lemma heldSlots_cancel appointmentId (l : list Appointment.t) slot :
  slot ∈ heldSlots (setStatus appointmentId "cancelled" l)
  ↔ ∃ a, a ∈ l ∧ isActiveStatus (Appointment.status a) = true ∧ slotOf a = slot
         ∧ Appointment.id a ≠ appointmentId.
Proof.
  rewrite held_elem. unfold setStatus. split.
  - intros (a' & Ha' & Hact & Hslot). apply list_elem_of_fmap in Ha' as (a & -> & Ha).
    destruct (String.eqb_spec (Appointment.id a) appointmentId) as [Heq|Hne];
      [discriminate Hact|].
    exists a. repeat split; assumption.
  - intros (a & Ha & Hact & Hslot & Hne). exists a. split; [|split; assumption].
    apply list_elem_of_fmap. exists a. split; [|exact Ha].
    destruct (String.eqb_spec (Appointment.id a) appointmentId); [contradiction|reflexivity].
Qed.

(** X17.  Cancelling frees the slot.  With the store answering,
    [cancelAppointment] reports success whether or not an appointment has
    the id (when none has, nothing changes); every slot that was open
    stays open, and a slot is open afterwards exactly when it is on the
    grid of an admitted professional and every scheduled or confirmed
    appointment that held it had the cancelled id. *)
Theorem cancelling_frees_the_slot (appointmentId establishmentId targetDate : string)
    (professionalId : option string) (w : World) :
  db env (UpdateAppointment appointmentId) = DbOk ->
  ∃ w',
    cancelAppointment env appointmentId w = (Ok {| success := true; error := None |}, w')
    ∧ ((∀ a, a ∈ appointments w -> Appointment.id a ≠ appointmentId) ->
       appointments w' = appointments w)
    ∧ (∀ slot, isOpen establishmentId targetDate professionalId w slot ->
               isOpen establishmentId targetDate professionalId w' slot)
    ∧ (∀ slot, isOpen establishmentId targetDate professionalId w' slot
               ↔ AppointmentService.date slot = targetDate
                 ∧ time slot ∈ timeSlots
                 ∧ (∃ p, p ∈ professionals w
                         ∧ Professional.id p = professional_id slot
                         ∧ Professional.name p = professional_name slot
                         ∧ Professional.establishment_id p = establishmentId
                         ∧ Professional.active p = true
                         ∧ optMatches professionalId (Professional.id p) = true)
                 ∧ ∀ a, a ∈ appointments w ->
                        isActiveStatus (Appointment.status a) = true ->
                        slotOf a = (professional_id slot, targetDate, time slot) ->
                        Appointment.id a = appointmentId).
Proof.
  intros Hdb. unfold cancelAppointment, tryCatch, bind, dbCall, modifyWorld.
  rewrite Hdb. cbn [ret fst snd].
  eexists. split; [reflexivity|]. cbn [appointments with_appointments].
  assert (Hexact : ∀ slot,
            isOpen establishmentId targetDate professionalId
              (with_appointments (setStatus appointmentId "cancelled" (appointments w)) w) slot
            ↔ AppointmentService.date slot = targetDate
              ∧ time slot ∈ timeSlots
              ∧ (∃ p, p ∈ professionals w
                      ∧ Professional.id p = professional_id slot
                      ∧ Professional.name p = professional_name slot
                      ∧ Professional.establishment_id p = establishmentId
                      ∧ Professional.active p = true
                      ∧ optMatches professionalId (Professional.id p) = true)
              ∧ ∀ a, a ∈ appointments w ->
                     isActiveStatus (Appointment.status a) = true ->
                     slotOf a = (professional_id slot, targetDate, time slot) ->
                     Appointment.id a = appointmentId).
  { intros slot. unfold isOpen. cbn [appointments professionals with_appointments].
    rewrite heldSlots_cancel. split.
    - intros (Hd & Ht & Hp & Hfree). repeat split; try assumption.
      intros a Ha Hact Hslot.
      destruct (String.eqb_spec (Appointment.id a) appointmentId) as [Heq|Hne];
        [exact Heq|].
      exfalso. apply Hfree. exists a. repeat split; assumption.
    - intros (Hd & Ht & Hp & Honly). repeat split; try assumption.
      intros (a & Ha & Hact & Hslot & Hne). apply Hne, Honly; assumption. }
  split; [|split; [|exact Hexact]].
  - intros Hnone. unfold setStatus. rewrite <- (list_fmap_id (appointments w)) at 2.
    apply list_fmap_ext. intros i a Ha.
    destruct (String.eqb_spec (Appointment.id a) appointmentId) as [Heq|Hne]; [|reflexivity].
    exfalso. apply (Hnone a); [eapply list_elem_of_lookup_2; exact Ha|exact Heq].
  - intros slot (Hd & Ht & Hp & Hfree). apply Hexact. repeat split; try assumption.
    intros a Ha Hact Hslot. exfalso. apply Hfree, held_elem. exists a.
    repeat split; assumption.
Qed.

End Bookings.

(** ** Templates and what is scheduled *)
Section Templates.
Import Effects AutomaticMessageService.
Variable env : Env.

Lemma templates_declare_their_holes : forallb declaresItsHoles messageTemplates = true.
Proof. vm_compute. reflexivity. Qed.

Lemma noChar_flatten c (tokens : list Token) :
  forallb (λ t, noChar c (tokenText t)) tokens = true -> noChar c (flatten tokens) = true.
Proof.
  induction tokens as [|t tokens IH]; [reflexivity|].
  cbn [forallb flatten]. intros H. apply andb_prop in H as [Ht Hrest].
  rewrite noChar_app, Ht, IH by exact Hrest. reflexivity.
Qed.

(** X18.  No placeholder is left in a built-in template.  For each of the
    four templates, rendering with plain variables that give a value to
    every name the template declares succeeds and yields a text in which
    no opening brace is left: the declared names are all the placeholders
    there are. *)
Theorem declared_variables_fill_the_template (template : MessageTemplate)
    (variables : list (string * string)) :
  template ∈ messageTemplates ->
  plainVariables variables = true ->
  (∀ name, name ∈ AutomaticMessageService.variables template ->
           is_Some (lookupVariable name variables)) ->
  ∃ text, renderTemplate env (content template) variables = Some text
          ∧ noChar "{" text = true.
Proof.
  intros Hin Hplain Hall.
  assert (Hd : declaresItsHoles template = true).
  { pose proof templates_declare_their_holes as H.
    rewrite forallb_forall in H. apply H, list_elem_of_In, Hin. }
  unfold declaresItsHoles in Hd. cbv zeta in Hd.
  apply andb_prop in Hd as [Hd Hholes]. apply andb_prop in Hd as [Hflat Hwf].
  apply String.eqb_eq in Hflat.
  exists (flatten (fill variables <$> tokenize (content template) false "")).
  split; [rewrite <- Hflat at 1; apply render_tokens; assumption|].
  apply noChar_flatten. rewrite forallb_forall. intros t Ht.
  apply list_elem_of_In, list_elem_of_fmap in Ht as (t0 & -> & Ht0).
  unfold wellFormed in Hwf. rewrite forallb_forall in Hholes. rewrite forallb_forall in Hwf.
  apply list_elem_of_In in Ht0.
  specialize (Hholes t0 Ht0). specialize (Hwf t0 Ht0).
  destruct t0 as [s|name]; cbn in *; [exact Hwf|].
  apply bool_decide_eq_true in Hholes. destruct (Hall name Hholes) as [v Hv].
  rewrite Hv. cbn. eapply lookupVariable_plain; eassumption.
Qed.

Lemma selectAppointment_found appointmentId row w :
  db env (SelectAppointment appointmentId) = DbOk ->
  filter (λ a, String.eqb (Appointment.id a) appointmentId = true) (appointments w) = [row] ->
  selectAppointment env appointmentId w = (Ok (Some (AppointmentService.joinRow w row)), w).
Proof.
  intros Hdb Hrow. unfold selectAppointment, bind, dbCall, getWorld. rewrite Hdb.
  cbn [ret]. rewrite Hrow. reflexivity.
Qed.

Lemma scheduleMessage_run clientPhone templateId scheduledFor variables appointmentId
    establishmentId w :
  ∃ r, scheduleMessage env clientPhone templateId scheduledFor variables
         (Some appointmentId) (Some establishmentId) w
       = (Ok r,
          match findTemplate templateId ≫= (λ t, renderTemplate env (content t) variables),
                db env (InsertScheduled clientPhone) with
          | Some text, DbOk =>
              insertScheduled (queuedRow env w clientPhone text scheduledFor
                                 appointmentId establishmentId) w
          | _, _ => w
          end).
Proof.
  unfold scheduleMessage, tryCatch, bind, dbCall, modifyWorld.
  destruct (findTemplate templateId) as [template|]; cbn [mbind option_bind ret fst snd];
    [|eexists; reflexivity].
  destruct (renderTemplate env (content template) variables) as [text|];
    cbn [ret throw fst snd]; [|eexists; reflexivity].
  destruct (db env (InsertScheduled clientPhone)); cbn [ret throw fst snd];
    eexists; reflexivity.
Qed.

(** X19.  A reminder is reported as scheduled whether or not it was
    stored.  For an appointment that is found with its client,
    professional and service, [scheduleAppointmentReminders] reports
    success and sends nothing; it stores one pending reminder, for the
    client's phone and for the instant one day before the appointment,
    exactly when that instant is still ahead, the template renders and the
    store takes the row, and stores nothing otherwise. *)
Theorem reminder_success_does_not_mean_stored (appointmentId establishmentId : string)
    (row : Appointment.t) (client : Client.t) (professional : Professional.t)
    (service : Service.t) (variables : list (string * string)) (w : World) :
  db env (SelectAppointment appointmentId) = DbOk ->
  filter (λ a, String.eqb (Appointment.id a) appointmentId = true) (appointments w) = [row] ->
  Appointment.clients (AppointmentService.joinRow w row) = Some client ->
  appointmentVariables env (AppointmentService.joinRow w row) = Some variables ->
  ∃ w',
    scheduleAppointmentReminders env appointmentId establishmentId w
    = (Ok {| success := true; error := None |}, w')
    ∧ posted w' = posted w
    ∧ appointments w' = appointments w
    ∧ scheduled_messages w'
      = scheduled_messages w ++
        match (now w <? reminderInstant env row)%Z,
              findTemplate "reminder_24h" ≫= (λ t, renderTemplate env (content t) variables),
              db env (InsertScheduled (Client.phone client)) with
        | true, Some text, DbOk =>
            [queuedRow env w (Client.phone client) text (reminderInstant env row)
               appointmentId establishmentId]
        | _, _, _ => []
        end.
Proof.
  intros Hdb Hrow Hclient Hvars.
  unfold scheduleAppointmentReminders, tryCatch, bind.
  rewrite (selectAppointment_found appointmentId row w Hdb Hrow).
  cbn [getWorld ret fst snd]. rewrite Hvars, Hclient.
  change (subDays env (parseISO env _) 1) with (reminderInstant env row).
  destruct (now w <? reminderInstant env row)%Z.
  - destruct (scheduleMessage_run (Client.phone client) "reminder_24h"
                (reminderInstant env row) variables appointmentId establishmentId w) as [r ->].
    cbn [ret fst snd]. eexists. split; [reflexivity|].
    destruct (findTemplate "reminder_24h" ≫= _) as [text|];
      [destruct (db env (InsertScheduled (Client.phone client)))|];
      cbn; rewrite ?app_nil_r; repeat split; reflexivity.
  - eexists. split; [reflexivity|]. rewrite app_nil_r. repeat split; reflexivity.
Qed.

End Templates.

(** ** What a booking schedules *)
Section BookingFollowUp.
Import Effects.
Variable env : Env.
Variable store : Booking.StoreOp -> DbOutcome.

(** X20.  The follow-up of a booking is filed under a label, not under
    the business.  Whatever the data, [createAppointment] adds at most one
    scheduled message, a pending one that carries an appointment id, and
    its establishment is the text [appointment_followup], which the
    function passes where the establishment id is expected; it posts at
    most one text, the confirmation. *)
Theorem follow_up_is_filed_under_a_label (appointmentData : Booking.AppointmentData)
    (w : World) :
  gained scheduled_messages
    (λ m, ScheduledMessage.establishment_id m = Some "appointment_followup"
          ∧ ScheduledMessage.status m = ScheduledMessage.pending
          ∧ is_Some (ScheduledMessage.appointment_id m))
    1 w (Booking.createAppointment env store appointmentData w).2
  ∧ gained posted (λ _, True) 1 w (Booking.createAppointment env store appointmentData w).2.
Proof.
  split.
  - revert w.
    change (moves (gained scheduled_messages
                     (λ m, ScheduledMessage.establishment_id m = Some "appointment_followup"
                           ∧ ScheduledMessage.status m = ScheduledMessage.pending
                           ∧ is_Some (ScheduledMessage.appointment_id m)) 1)
              (Booking.createAppointment env store appointmentData)).
    unfold Booking.createAppointment, Booking.checkAvailability, Booking.scheduleFollowUp,
      AutomaticMessageService.sendAppointmentConfirmation.
    repeat gained_step.
  - revert w.
    change (moves (gained posted (λ _, True) 1)
              (Booking.createAppointment env store appointmentData)).
    unfold Booking.createAppointment, Booking.checkAvailability, Booking.scheduleFollowUp,
      AutomaticMessageService.sendAppointmentConfirmation.
    repeat gained_step.
Qed.

End BookingFollowUp.

(** ** From scheduling to delivery *)
Section ScheduleThenSweep.
Import Effects AutomaticMessageService.
Variable env : Env.

(** X24.  What is scheduled goes out with the sweep that follows its fire
    time.  Scheduling a message sends nothing.  With the store answering,
    the sweep run next posts the payloads of the due rows, the new row
    among them, and the new row is due exactly when its fire time is not
    after the instant of the sweep: a message scheduled for now or
    earlier goes out at once with its rendered text, one scheduled for
    later is not sent. *)
Theorem scheduled_message_goes_out_when_due (clientPhone templateId : string)
    (scheduledFor : Z) (variables : list (string * string))
    (appointmentId establishmentId : string) (template : MessageTemplate) (text : string)
    (w : World) :
  findTemplate templateId = Some template ->
  renderTemplate env (content template) variables = Some text ->
  db env (InsertScheduled clientPhone) = DbOk ->
  db env SelectDueScheduled = DbOk ->
  (∀ id, db env (UpdateScheduledStatus id) = DbOk) ->
  posted (scheduleMessage env clientPhone templateId scheduledFor variables
            (Some appointmentId) (Some establishmentId) w).2 = posted w
  ∧ posted (processPendingMessages env
              (scheduleMessage env clientPhone templateId scheduledFor variables
                 (Some appointmentId) (Some establishmentId) w).2).2
    = posted w
      ++ (payload <$> dueMessages (now w)
                        (scheduled_messages w
                         ++ [queuedRow env w clientPhone text scheduledFor
                               appointmentId establishmentId]))
  ∧ (queuedRow env w clientPhone text scheduledFor appointmentId establishmentId
       ∈ dueMessages (now w)
           (scheduled_messages w
            ++ [queuedRow env w clientPhone text scheduledFor appointmentId establishmentId])
     ↔ (scheduledFor <= now w)%Z).
Proof.
  intros Hfind Hrender Hinsert Hselect Hupdate.
  destruct (scheduleMessage_run env clientPhone templateId scheduledFor variables
              appointmentId establishmentId w) as [r Hrun].
  rewrite Hfind in Hrun. cbn [mbind option_bind] in Hrun. rewrite Hrender, Hinsert in Hrun.
  rewrite Hrun. cbn [snd].
  split; [reflexivity|]. split.
  - unfold processPendingMessages, tryCatch, bind, getWorld, dbCall. rewrite Hselect.
    cbn [ret fst snd].
    match goal with |- context [sendEach env ?l ?w1] =>
      destruct (sendEach_run env Hupdate l w1) as (w2 & -> & Hposted & _) end.
    cbn [snd]. rewrite Hposted. reflexivity.
  - rewrite dueMessages_elem. unfold isDue. cbn. split.
    + intros [_ [_ Hle]]. exact Hle.
    + intros Hle. split; [|split; [reflexivity|exact Hle]].
      apply elem_of_app. right. apply list_elem_of_singleton. reflexivity.
Qed.

End ScheduleThenSweep.

(** ** The rule of three keywords *)
Section ThreeKeywords.
Import Intent IntentService Effects.
Variable env : Env.

Lemma highConfidence_hits (message : string) :
  highConfidence (detectIntentByKeywords (toLowerCase env) message) = true
  ↔ ∃ i, 3 <= keywordHits (toLowerCase env message) i.
Proof.
  unfold highConfidence, detectIntentByKeywords.
  pose proof (pickMax_spec (scoreMessage (toLowerCase env message))) as H. cbv zeta in H.
  destruct (pickMax (scoreMessage (toLowerCase env message))) as [m d]. cbn [fst snd] in *.
  destruct H as (Hall & Hcase). cbn [kw_confidence].
  assert (Hm : 3 <= m ↔ ∃ i, 3 <= keywordHits (toLowerCase env message) i).
  { split.
    - intros Hge. exists d. rewrite <- scoreMessage_hits.
      destruct Hcase as [[Heq _]|(_ & -> & _)]; [inversion Heq; subst; lia|exact Hge].
    - intros [i Hi]. rewrite <- scoreMessage_hits in Hi. specialize (Hall i). lia. }
  rewrite <- Hm. clear.
  destruct m as [|[|[|m]]]; cbn.
  - split; [discriminate|lia].
  - split; [discriminate|lia].
  - split; [discriminate|lia].
  - split; [intros _; lia|intros _].
    destruct (Qlt_le_dec _ _) as [|Hle]; [reflexivity|].
    exfalso. revert Hle. apply Qlt_not_le.
    apply Q.min_glb_lt; unfold Qlt; simpl; lia.
Qed.

(** X21.  Three keywords settle the intent.  The LLM stage is skipped
    exactly when some intent has three or more of its keywords in the
    case-folded message: then the keyword intent is returned and nothing
    is sent to the classifier.  With at most two hits for every intent
    the classifier is consulted once (when the stored history lets the
    prompt be built), however clear the message looks. *)
Theorem three_keywords_settle_the_intent (message : string)
    (context : option ConversationContext.t) (w : World) :
  ((∃ i, 3 <= keywordHits (toLowerCase env message) i) ->
   detectIntent env message context w
   = (Ok (kw_intent (detectIntentByKeywords (toLowerCase env) message)), w))
  ∧ ((∀ i, keywordHits (toLowerCase env message) i <= 2) ->
     historySliceable context = true ->
     analysis_calls (detectIntent env message context w).2
     = analysis_calls w
       ++ [promptOf message (kw_intent (detectIntentByKeywords (toLowerCase env) message))
             context]).
Proof.
  unfold detectIntent, tryCatch. cbv zeta. split.
  - intros Hthree. apply highConfidence_hits in Hthree. rewrite Hthree. reflexivity.
  - intros Hfew Hslice.
    destruct (highConfidence _) eqn:E.
    + apply highConfidence_hits in E as [i Hi]. specialize (Hfew i). lia.
    + unfold bind.
      destruct (analyzeIntent_run env message
                  (kw_intent (detectIntentByKeywords (toLowerCase env) message)) context w)
        as (a & -> & _).
      rewrite Hslice. reflexivity.
Qed.

End ThreeKeywords.

Section RateLimiterInstances.
Import RateLimiter.


(** A cleanup at 1000 before two requests at 1000 and 2000. *)
Lemma cleanup_changes_no_response_witness :
  (serve 900000 2 [(visitor, 1000); (visitor, 2000)]%Z (cleanup 1000 strangers)).2
  = (serve 900000 2 [(visitor, 1000); (visitor, 2000)]%Z strangers).2.
Proof.
  apply (cleanup_changes_no_response 900000 2 1000 [(visitor, 1000); (visitor, 2000)]%Z strangers).
  repeat constructor; vm_compute; discriminate.
Defined.


End RateLimiterInstances.

(** ** Instances of the properties that have a precondition *)
Section MoreInstances.
Import Effects Demo.

(** A photo sent to a connected instance with the assistant enabled. *)
Lemma media_is_never_answered_witness :
  beyondMessages (Webhook.world (Webhook.post demoEnv (λ _, DbOk) (λ _, DbOk) photo connected).2)
  = beyondMessages (Webhook.world connected).
Proof.
  apply (media_is_never_answered demoEnv (λ _, DbOk) (λ _, DbOk) photo connected).
  reflexivity.
Defined.

(** The first request for the context of a client who has not written. *)
Lemma context_is_created_once_witness :
  ∃ c w1,
    ContextService.getConversationContext demoEnv "default" clientPhone salon = (Ok (Some c), w1)
    ∧ conversation_contexts w1 = <[("default", clientPhone) := c]> (conversation_contexts salon)
    ∧ (∀ c0, conversation_contexts salon !! ("default", clientPhone) = Some c0 ->
             c = c0 ∧ w1 = salon)
    ∧ (conversation_contexts salon !! ("default", clientPhone) = None ->
       ConversationContext.context_data c !! "messageCount" = Some (Js.JNum 0)
       ∧ ConversationContext.conversation_state c = "active"
       ∧ ConversationContext.intent c = Some "greeting"
       ∧ ConversationContext.establishment_id c = "default"
       ∧ ConversationContext.client_phone c = clientPhone)
    ∧ ContextService.getConversationContext demoEnv "default" clientPhone w1 = (Ok (Some c), w1).
Proof.
  apply (context_is_created_once demoEnv "default" clientPhone salon); reflexivity.
Defined.

(** The turn in which the client answers the listing with a number. *)
Lemma turn_keeps_the_contexts_witness :
  contextsKept ("default", ProcessedMessage.clientPhone (inbound "2")) afterListing
    (MessageProcessor.processMessage demoEnv (inbound "2") afterListing).2.
Proof.
  apply (turn_keeps_the_contexts demoEnv (inbound "2") afterListing).
  intros c Hc. vm_compute in Hc. inversion Hc. split; reflexivity.
Defined.

(** The open slots of the salon on the day of the three bookings. *)
Lemma open_slots_are_all_offered_witness :
  ∃ slots,
    AppointmentService.getAvailableSlots demoEnv "est-1" (Some "2025-01-10") None salon
    = (Ok slots, salon)
    ∧ ∀ slot, slot ∈ slots
              ↔ isOpen "est-1" (targetDateOf demoEnv (Some "2025-01-10") salon) None salon slot.
Proof.
  apply (open_slots_are_all_offered demoEnv "est-1" (Some "2025-01-10") None salon);
    reflexivity.
Defined.

(** Cancelling the second booking of the client. *)
Lemma cancelling_frees_the_slot_witness :
  ∃ w',
    AppointmentService.cancelAppointment demoEnv secondBooking salon
    = (Ok {| AppointmentService.success := true; AppointmentService.error := None |}, w')
    ∧ ((∀ a, a ∈ appointments salon -> Appointment.id a ≠ secondBooking) ->
       appointments w' = appointments salon)
    ∧ (∀ slot, isOpen "est-1" "2025-01-10" None salon slot ->
               isOpen "est-1" "2025-01-10" None w' slot)
    ∧ (∀ slot, isOpen "est-1" "2025-01-10" None w' slot
               ↔ AppointmentService.date slot = "2025-01-10"
                 ∧ AppointmentService.time slot ∈ AppointmentService.timeSlots
                 ∧ (∃ p, p ∈ professionals salon
                         ∧ Professional.id p = AppointmentService.professional_id slot
                         ∧ Professional.name p = AppointmentService.professional_name slot
                         ∧ Professional.establishment_id p = "est-1"
                         ∧ Professional.active p = true
                         ∧ AppointmentService.optMatches None (Professional.id p) = true)
                 ∧ ∀ a, a ∈ appointments salon ->
                        AppointmentService.isActiveStatus (Appointment.status a) = true ->
                        slotOf a = (AppointmentService.professional_id slot, "2025-01-10",
                                    AppointmentService.time slot) ->
                        Appointment.id a = secondBooking).
Proof.
  apply (cancelling_frees_the_slot demoEnv secondBooking "est-1" "2025-01-10" None salon).
  reflexivity.
Defined.

(** The confirmation of the client's first booking. *)
Lemma declared_variables_fill_the_template_witness :
  ∃ text,
    AutomaticMessageService.renderTemplate demoEnv
      (AutomaticMessageService.content confirmationTemplate) confirmationVariables = Some text
    ∧ noChar "{" text = true.
Proof.
  apply (declared_variables_fill_the_template demoEnv confirmationTemplate
           confirmationVariables).
  - vm_compute. do 1 right. left.
  - vm_compute. reflexivity.
  - intros name Hname. vm_compute in Hname.
    repeat (apply elem_of_cons in Hname as [->|Hname]; [vm_compute; eexists; reflexivity|]).
    inversion Hname.
Defined.

(** The reminder of the client's first booking, asked for when the day
    before the appointment has passed. *)
Lemma reminder_success_does_not_mean_stored_witness :
  ∃ w',
    AutomaticMessageService.scheduleAppointmentReminders demoEnv firstBooking "est-1" salon
    = (Ok {| AutomaticMessageService.success := true; AutomaticMessageService.error := None |},
       w')
    ∧ posted w' = posted salon
    ∧ appointments w' = appointments salon
    ∧ scheduled_messages w'
      = scheduled_messages salon ++
        match (now salon <? reminderInstant demoEnv (booking firstBooking "09:00:00"))%Z,
              AutomaticMessageService.findTemplate "reminder_24h"
                ≫= (λ t, AutomaticMessageService.renderTemplate demoEnv
                           (AutomaticMessageService.content t) confirmationVariables),
              db demoEnv (InsertScheduled (Client.phone bia)) with
        | true, Some text, DbOk =>
            [queuedRow demoEnv salon (Client.phone bia) text
               (reminderInstant demoEnv (booking firstBooking "09:00:00"))
               firstBooking "est-1"]
        | _, _, _ => []
        end.
Proof.
  apply (reminder_success_does_not_mean_stored demoEnv firstBooking "est-1"
           (booking firstBooking "09:00:00") bia
           {| Professional.id := professionalId; Professional.name := "Ana";
              Professional.establishment_id := "est-1"; Professional.active := true |}
           {| Service.id := serviceId; Service.name := "Corte";
              Service.duration_minutes := 30; Service.price := 5000 |}
           confirmationVariables salon);
    vm_compute; reflexivity.
Defined.

(** The history of the client after the first turn. *)
Lemma history_is_the_latest_messages_witness :
  ∃ kept omitted,
    MessageProcessor.getConversationHistory demoEnv clientPhone 10 afterListing
    = (Ok (toChat <$> kept), afterListing)
    ∧ kept ++ omitted ≡ₚ ofPhone clientPhone afterListing
    ∧ length kept = min 10 (length (ofPhone clientPhone afterListing))
    ∧ Sorted Z.le (StoredMessage.timestamp <$> kept)
    ∧ ∀ o k, o ∈ omitted -> k ∈ kept ->
             (StoredMessage.timestamp o <= StoredMessage.timestamp k)%Z.
Proof.
  apply (history_is_the_latest_messages demoEnv clientPhone 10 afterListing).
  reflexivity.
Defined.

(** The confirmation text, scheduled for an instant that has passed. *)
Lemma scheduled_message_goes_out_when_due_witness :
  posted (AutomaticMessageService.scheduleMessage demoEnv clientPhone "confirmation" 500
            confirmationVariables (Some firstBooking) (Some "est-1") salon).2 = posted salon
  ∧ posted (AutomaticMessageService.processPendingMessages demoEnv
              (AutomaticMessageService.scheduleMessage demoEnv clientPhone "confirmation" 500
                 confirmationVariables (Some firstBooking) (Some "est-1") salon).2).2
    = posted salon
      ++ (payload <$> AutomaticMessageService.dueMessages (now salon)
                        (scheduled_messages salon
                         ++ [queuedRow demoEnv salon clientPhone confirmationText 500
                               firstBooking "est-1"]))
  ∧ (queuedRow demoEnv salon clientPhone confirmationText 500 firstBooking "est-1"
       ∈ AutomaticMessageService.dueMessages (now salon)
           (scheduled_messages salon
            ++ [queuedRow demoEnv salon clientPhone confirmationText 500 firstBooking "est-1"])
     ↔ (500 <= now salon)%Z).
Proof.
  apply (scheduled_message_goes_out_when_due demoEnv clientPhone "confirmation" 500
           confirmationVariables firstBooking "est-1" confirmationTemplate confirmationText
           salon).
  - vm_compute. reflexivity.
  - vm_compute. reflexivity.
  - reflexivity.
  - reflexivity.
  - intros id. reflexivity.
Defined.

End MoreInstances.

